(** * Mandates: canonical hashing, dual-role signatures, third-party verification

    A shallow embedding of [src/mandate.ts] (the [Mandate] class with its
    primitive registry) and of [verifier/thirdParty.ts], followed by the
    properties of the specification that concern them; then of the mandate
    handlers of the client, server and validator agents and of the
    basis-point helpers and [validateSwap] of [services/uniswap/uniswapV3.ts],
    with further properties of all of these.

    Conventions.
    - TypeScript interfaces are records, one module per interface so that the
      field names of the source are kept.
    - A value of type [unknown] or of the type parameter [TCore] is a [json]
      tree; where the source reads a property that may be absent the model
      reads an [option], [None] standing for [undefined].
    - [throw new Error(...)] is [Err e] with one constructor of [error] per
      message; methods that assign to [this.m] (or to the static registry) are
      computations of the state-and-error monad [St], which hands back the
      state as it is at the point of the throw.
    - The npm packages [canonicalize], [ethers] (keccak256, wallets, signature
      recovery) are the fields of the class [Externals]; [ulid()] and
      [new Date()] are arguments of the constructor. *)

From Stdlib Require Import ZArith Ascii String.
From stdpp Require Import base option gmap strings list countable pretty.

#[local] Set Warnings "-register-all".
#[local] Open Scope string_scope.

(** ** JSON values and the JavaScript operations used on them *)

Inductive json : Type :=
  | JNull
  | JBool (b : bool)
  | JNum (n : Z)
  | JStr (s : string)
  | JArr (l : list json)
  | JObj (m : gmap string json).

(** [JSON.parse(JSON.stringify(x))] on a JSON value: a fresh tree with the
    same shape. *)
Fixpoint deepClone (j : json) : json :=
  match j with
  | JArr l => JArr (deepClone <$> l)
  | JObj m => JObj (deepClone <$> m)
  | x => x
  end.

Fixpoint json_size (j : json) : nat :=
  match j with
  | JArr l => S (foldr (λ x n, json_size x + n) 0 l)
  | JObj m => S (map_fold (λ _ x n, json_size x + n) 0 m)
  | _ => 1
  end.

(** JavaScript truthiness ([!x], [x && ...]); [None] is [undefined]. *)
Definition truthy (j : json) : bool :=
  match j with
  | JNull => false
  | JBool b => b
  | JNum n => negb (n =? 0)%Z
  | JStr s => negb (String.eqb s "")
  | JArr _ | JObj _ => true
  end.

Definition truthy_opt (o : option json) : bool :=
  match o with Some j => truthy j | None => false end.

Definition truthy_str (o : option string) : bool :=
  match o with Some s => negb (String.eqb s "") | None => false end.

(** [typeof x === "object"] (true of [null], arrays and objects). *)
Definition typeof_object (j : json) : bool :=
  match j with
  | JNull | JArr _ | JObj _ => true
  | _ => false
  end.

Definition typeof_string (o : option json) : bool :=
  match o with Some (JStr _) => true | _ => false end.

(** [x.k] for a truthy [x]: a property of an object, [undefined] on every
    other value (array indices and [length] are not looked up by the code). *)
Definition get_prop (j : json) (k : string) : option json :=
  match j with
  | JObj m => m !! k
  | _ => None
  end.

(** [x === s] for a string [s]. *)
Definition strict_eq_str (o : option json) (s : string) : bool :=
  match o with
  | Some (JStr s') => String.eqb s' s
  | _ => false
  end.

(** [a ?? b] *)
Definition nullish {A} (o : option A) (d : A) : A :=
  match o with Some a => a | None => d end.

Definition nullish_json (o : option json) (d : json) : json :=
  match o with
  | Some JNull | None => d
  | Some j => j
  end.

Definition lower_ascii (c : ascii) : ascii :=
  let n := Ascii.N_of_ascii c in
  if ((65 <=? n) && (n <=? 90))%N then Ascii.ascii_of_N (n + 32) else c.

(** [String.prototype.toLowerCase] on the ASCII range, which is the range of
    hexadecimal digests and addresses. *)
Fixpoint toLowerCase (s : string) : string :=
  match s with
  | EmptyString => EmptyString
  | String c s' => String (lower_ascii c) (toLowerCase s')
  end.

(** [s.split(sep)] for a one-character separator. *)
Fixpoint split (sep : ascii) (s : string) : list string :=
  match s with
  | EmptyString => [EmptyString]
  | String c s' =>
      if Ascii.eqb c sep then EmptyString :: split sep s'
      else match split sep s' with
           | h :: t => String c h :: t
           | [] => [String c EmptyString]
           end
  end.

(** [toUtf8Bytes]: a string of the model is its own UTF-8 encoding. *)
Definition toUtf8Bytes (s : string) : list Byte.byte :=
  String.list_byte_of_string s.

(** ** Errors and the two monads *)

Inductive Role := Client | Server.

Inductive error : Type :=
  | CanonicalizeEmpty                      (* "canonicalize() empty" *)
  | AlreadyRegistered (kind : string)      (* "Primitive already registered: k" *)
  | UnknownPrimitive (kind : string)       (* "Unknown primitive: k" *)
  | ClientServerRequired                   (* "client and server (CAIP-10) are required" *)
  | DeadlineRequired                       (* "deadline (ISO 8601) is required" *)
  | CoreMissing                            (* "core missing" *)
  | KindMismatch (expected : string) (got : option json)
                                           (* "core.kind mismatch: expected e, got g" *)
  | KindMismatchReg (expected : string)    (* "core.kind mismatch: expected e" *)
  | Eip712RequiresDomain                   (* "EIP-712 requires domain" *)
  | NoSignatures                           (* "no signatures" *)
  | SigMissing (role : Role)               (* "<role>Sig missing" *)
  | HashMismatch (role : Role)             (* "<role>Sig.mandateHash mismatch" *)
  | SignatureInvalid (role : Role) (expected recovered : string)
                                           (* "<role> signature invalid: ..." *)
  | ClientMismatch (expected got : string) (* "client mismatch: ..." *)
  | ServerMismatch (expected got : string) (* "server mismatch: ..." *)
  | DeadlinePassed                         (* "mandate deadline has passed" *)
  | UnexpectedCoreShape                    (* "unexpected core shape for swap@1" *)
  | BadAmountIn                            (* "bad amountIn" *)
  | TypeError                              (* property read on undefined *)
  | Thrown (msg : string).                 (* thrown by a validator or a library *)

Inductive result (A : Type) : Type :=
  | OK (a : A)
  | Err (e : error).
Arguments OK {A} a.
Arguments Err {A} e.

#[global] Instance result_ret : MRet result := λ A a, OK a.
#[global] Instance result_bind : MBind result := λ A B f r,
  match r with OK a => f a | Err e => Err e end.

Definition is_ok {A} (r : result A) : bool :=
  match r with OK _ => true | Err _ => false end.

(** State and exceptions: the state that comes back with an [Err] is the one
    the object is left in when the exception propagates. *)
Definition St (S A : Type) : Type := S → result A * S.

#[global] Instance St_ret {S} : MRet (St S) := λ A a s, (OK a, s).
#[global] Instance St_bind {S} : MBind (St S) := λ A B k c s,
  match c s with
  | (OK a, s') => k a s'
  | (Err e, s') => (Err e, s')
  end.

Definition get {S} : St S S := λ s, (OK s, s).
Definition put {S} (s : S) : St S unit := λ _, (OK tt, s).
Definition lift {S A} (r : result A) : St S A := λ s, (r, s).
Definition throw {S A} (e : error) : St S A := lift (Err e).

(** ** The types of [types/mandate.ts] *)

Inductive SigAlg := eip191 | eip712.

Module Signature.
Record t : Type := make {
  alg : SigAlg;
  mandateHash : string;   (* keccak256(JCS(mandateWithoutSignatures)) *)
  signature : string;
}.
End Signature.

(** The class creates this object as [{}] and fills one role at a time, so
    both members are optional at run time. *)
Module MandateSignatures.
Record t : Type := make {
  clientSig : option Signature.t;
  serverSig : option Signature.t;
}.
Definition empty : t := make None None.
End MandateSignatures.

(** [MandateBase<TCore> & Partial<{ signatures: MandateSignatures }>]: the type
    of [this.m] and of what [toJSON] returns. *)
Module MandateJSON.
Record t : Type := make {
  mandateId : string;
  version : string;
  client : string;
  server : string;
  createdAt : string;
  deadline : string;
  intent : string;
  core : json;
  signatures : option MandateSignatures.t;
}.

Definition set_core (m : t) (c : json) : t :=
  make (mandateId m) (version m) (client m) (server m) (createdAt m)
       (deadline m) (intent m) c (signatures m).

Definition set_signatures (m : t) (s : option MandateSignatures.t) : t :=
  make (mandateId m) (version m) (client m) (server m) (createdAt m)
       (deadline m) (intent m) (core m) s.

End MandateJSON.

(** [MandateInit]: the members the constructor tests for presence or
    defaults are options.  It is also the type of a document off the wire,
    which [fromObject] casts to it: such a document may lack any of them. *)
Module MandateInit.
Record t : Type := make {
  mandateId : option string;
  version : string;
  client : option string;
  server : option string;
  createdAt : option string;
  deadline : option string;
  intent : option string;
  core : option json;
  signatures : option MandateSignatures.t;
}.
End MandateInit.

(** ethers' [BigNumberish] and [TypedDataDomain]. *)
Inductive BigNumberish :=
  | BNnumber (n : Z)
  | BNstring (s : string)
  | BNbigint (n : Z).

Module TypedDataDomain.
Record t : Type := make {
  name : option string;
  version : option string;
  chainId : option BigNumberish;
  verifyingContract : option string;
  salt : option string;
}.
End TypedDataDomain.

(** [domain && typeof domain.chainId === "number"] *)
Definition has_numeric_chainId (domain : option TypedDataDomain.t) : bool :=
  match domain with
  | Some d => match TypedDataDomain.chainId d with
              | Some (BNnumber _) => true
              | _ => false
              end
  | None => false
  end.

Module VerifyResult.
Record t : Type := make {
  ok : bool;
  recovered : string;
  recomputedHash : string;
  alg : SigAlg;
}.
End VerifyResult.

Module VerifyAllResult.
Record t : Type := make {
  client : VerifyResult.t;
  server : VerifyResult.t;
}.
End VerifyAllResult.

(** A [Date] by its [getTime()]; [None] is the invalid date ([NaN]). *)
Definition Date : Type := option Z.

(** [a > b] on times: false as soon as one side is [NaN]. *)
Definition time_gt (a b : Date) : bool :=
  match a, b with
  | Some x, Some y => (y <? x)%Z
  | _, _ => false
  end.

(** ** What the code imports

    [canonicalize] may return [undefined] ([None]); signature recovery throws
    on a malformed signature.  A wallet is an [HDNodeWallet], which holds its
    key: [signMessage] signs whatever bytes it is given, while
    [signTypedData] throws on a domain that ethers cannot encode (a negative
    [chainId], a malformed [verifyingContract], ...), which the guard of
    [sign] does not exclude.  [addrFromCaip10] is imported by the verifier
    from the core package and has no definition in the sources at hand. *)
Class Externals : Type := {
  canonicalize : MandateJSON.t → option string;
  keccak256 : list Byte.byte → string;
  Wallet : Type;
  address : Wallet → string;
  signMessage : Wallet → list Byte.byte → string;
  signTypedData : Wallet → TypedDataDomain.t → string → result string;
  verifyMessage : list Byte.byte → string → result string;
  verifyTypedData : TypedDataDomain.t → string → string → result string;
  addrFromCaip10 : string → result string;
  parseDate : string → Date;
}.

(** ** [src/mandate.ts] *)

Module PrimitiveValidator.
Record t : Type := make {
  parse : option json → result json;           (* validate or throw *)
  toJSONSchema : option (unit → option json);
}.
End PrimitiveValidator.

Module PrimitiveDef.
Record t : Type := make {
  kind : string;
  validator : PrimitiveValidator.t;
  describe : option string;
}.
End PrimitiveDef.

Abbreviation Registry := (gmap string PrimitiveDef.t).

Definition deepCloneDoc (x : MandateJSON.t) : MandateJSON.t :=
  MandateJSON.set_core x (deepClone (MandateJSON.core x)).

Definition role_sig (role : Role) (s : MandateSignatures.t) : option Signature.t :=
  match role with
  | Client => MandateSignatures.clientSig s
  | Server => MandateSignatures.serverSig s
  end.

(** [this.m[role]] *)
Definition role_id (role : Role) (m : MandateJSON.t) : string :=
  match role with
  | Client => MandateJSON.client m
  | Server => MandateJSON.server m
  end.

(** A string that passes [if (!s) throw]. *)
Definition required (o : option string) : option string :=
  match o with
  | Some s => if String.eqb s "" then None else Some s
  | None => None
  end.

(** A complete document, such as [toJSON] returns, where a [MandateInit] is
    expected: every member is there. *)
Definition asInit (obj : MandateJSON.t) : MandateInit.t :=
  {| MandateInit.mandateId := Some (MandateJSON.mandateId obj);
     MandateInit.version := MandateJSON.version obj;
     MandateInit.client := Some (MandateJSON.client obj);
     MandateInit.server := Some (MandateJSON.server obj);
     MandateInit.createdAt := Some (MandateJSON.createdAt obj);
     MandateInit.deadline := Some (MandateJSON.deadline obj);
     MandateInit.intent := Some (MandateJSON.intent obj);
     MandateInit.core := Some (MandateJSON.core obj);
     MandateInit.signatures := MandateJSON.signatures obj |}.

Module Mandate.
Section Mandate.
Context `{Externals}.
Import MandateJSON.

Definition canonicalizeForHash (doc : MandateJSON.t) : result string :=
  let m := deepCloneDoc doc in
  let m := set_signatures m None in            (* delete m.signatures *)
  match canonicalize m with
  | Some jcs => if String.eqb jcs "" then Err CanonicalizeEmpty else OK jcs
  | None => Err CanonicalizeEmpty
  end.

Definition computeMandateHash (doc : MandateJSON.t) : result string :=
  jcs ← canonicalizeForHash doc;
  mret (keccak256 (toUtf8Bytes jcs)).

(** *** The static registry *)

Definition hasPrimitive (registry : Registry) (kind : string) : bool :=
  match registry !! kind with Some _ => true | None => false end.

Definition registerPrimitive (def : PrimitiveDef.t) : St Registry unit :=
  registry ← get;
  if hasPrimitive registry (PrimitiveDef.kind def)
  then throw (AlreadyRegistered (PrimitiveDef.kind def))
  else put (<[PrimitiveDef.kind def := def]> registry).

Definition getPrimitive (registry : Registry) (kind : string)
  : result PrimitiveDef.t :=
  match registry !! kind with
  | Some def => OK def
  | None => Err (UnknownPrimitive kind)
  end.

(** *** Instances: the state is [this.m]

    The model follows one instance, and its calls run one after the other:
    [sign] awaits the wallet between reading the canonical string and
    attaching the signature, and the constructor keeps [init.core] and
    [init.signatures] by reference; neither interleaved calls nor a second
    holder of these objects is part of the model. *)

(** [ulid] and [now] are what [ulid()] and [new Date().toISOString()]
    return at the call. *)
Definition constructor (ulid now : string) (init : MandateInit.t)
  : result MandateJSON.t :=
  match required (MandateInit.client init), required (MandateInit.server init) with
  | Some c, Some s =>
      match required (MandateInit.deadline init) with
      | Some d =>
          OK {| mandateId := nullish (MandateInit.mandateId init) ulid;
                version := MandateInit.version init;
                client := c;
                server := s;
                createdAt := nullish (MandateInit.createdAt init) now;
                deadline := d;
                intent := nullish (MandateInit.intent init) "";
                core := nullish_json (MandateInit.core init) (JObj ∅);
                signatures := MandateInit.signatures init |}
      | None => Err DeadlineRequired
      end
  | _, _ => Err ClientServerRequired
  end.

Definition toJSON (m : MandateJSON.t) : MandateJSON.t := deepCloneDoc m.
Definition toCanonicalString (m : MandateJSON.t) : result string :=
  canonicalizeForHash m.
Definition mandateHash (m : MandateJSON.t) : result string :=
  computeMandateHash m.

Definition setCore (registry : Registry) (kind : string) (payload : option json)
  : St MandateJSON.t unit :=
  def ← lift (getPrimitive registry kind);
  typed ← lift (PrimitiveValidator.parse (PrimitiveDef.validator def) payload);
  m ← get;
  put (set_core m (JObj {[ "kind" := JStr kind; "payload" := typed ]})).

(** [is(kind)]; [is] is reserved by the notations in scope. *)
Definition is_ (kind : string) (m : MandateJSON.t) : bool :=
  truthy (core m) && strict_eq_str (get_prop (core m) "kind") kind.

Definition coreAs (schema : PrimitiveValidator.t) (expectedKind : option string)
    (m : MandateJSON.t) : result json :=
  let core := core m in
  if negb (truthy core) || negb (typeof_object core) then Err CoreMissing
  else
    match required expectedKind with
    | Some k =>
        if negb (strict_eq_str (get_prop core "kind") k)
        then Err (KindMismatch k (get_prop core "kind"))
        else PrimitiveValidator.parse schema (get_prop core "payload")
    | None => PrimitiveValidator.parse schema (get_prop core "payload")
    end.

Definition coreAsKind (registry : Registry) (kind : string) (m : MandateJSON.t)
  : result json :=
  let core := core m in
  if negb (truthy core) || negb (strict_eq_str (get_prop core "kind") kind)
  then Err (KindMismatchReg kind)
  else
    def ← getPrimitive registry kind;
    PrimitiveValidator.parse (PrimitiveDef.validator def) (get_prop core "payload").

Definition tryCoreAs (schema : PrimitiveValidator.t) (expectedKind : option string)
    (m : MandateJSON.t) : option json :=
  match coreAs schema expectedKind m with
  | OK v => Some v
  | Err _ => None
  end.

Definition attachSig (role : Role) (sig : Signature.t) : St MandateJSON.t unit :=
  m ← get;
  let sigs := nullish (signatures m) MandateSignatures.empty in
  put (set_signatures m (Some
    match role with
    | Client => MandateSignatures.make (Some sig) (MandateSignatures.serverSig sigs)
    | Server => MandateSignatures.make (MandateSignatures.clientSig sigs) (Some sig)
    end)).

(** [alg] is [None] when the argument is left out (default ["eip191"]); the
    closing [else throw "Unsupported alg"] has no case in [SigAlg]. *)
Definition sign (role : Role) (wallet : Wallet) (alg : option SigAlg)
    (domain : option TypedDataDomain.t) : St MandateJSON.t Signature.t :=
  let alg := nullish alg eip191 in
  m ← get;
  jcs ← lift (toCanonicalString m);
  let mandateHash := keccak256 (toUtf8Bytes jcs) in
  signature ← lift
    match alg with
    | eip191 => OK (signMessage wallet (toUtf8Bytes jcs))
    | eip712 =>
        match domain with
        | Some d =>
            if has_numeric_chainId domain
            then signTypedData wallet d mandateHash
            else Err Eip712RequiresDomain
        | None => Err Eip712RequiresDomain
        end
    end;
  let sig := Signature.make alg mandateHash signature in
  attachSig role sig;;
  mret sig.

Definition signAsClient (w : Wallet) (alg : option SigAlg)
    (d : option TypedDataDomain.t) := sign Client w alg d.
Definition signAsServer (w : Wallet) (alg : option SigAlg)
    (d : option TypedDataDomain.t) := sign Server w alg d.

Definition verifyRole (role : Role) (domain : option TypedDataDomain.t)
    (m : MandateJSON.t) : result VerifyResult.t :=
  match signatures m with
  | None => Err NoSignatures
  | Some sigs =>
      match role_sig role sigs with
      | None => Err (SigMissing role)
      | Some sigObj =>
          let alg := Signature.alg sigObj in
          let mandateHash' := Signature.mandateHash sigObj in
          let signature := Signature.signature sigObj in
          recomputed ← mandateHash m;
          if negb (String.eqb (toLowerCase mandateHash') (toLowerCase recomputed))
          then Err (HashMismatch role)
          else
            recovered ←
              match alg with
              | eip191 =>
                  jcs ← toCanonicalString m;
                  verifyMessage (toUtf8Bytes jcs) signature
              | eip712 =>
                  match domain with
                  | Some d =>
                      if has_numeric_chainId domain
                      then verifyTypedData d mandateHash' signature
                      else Err Eip712RequiresDomain
                  | None => Err Eip712RequiresDomain
                  end
              end;
            expected ←
              match split ":" (role_id role m) !! 2%nat with
              | Some a => OK (toLowerCase a)
              | None => Err TypeError
              end;
            if negb (String.eqb (toLowerCase recovered) expected)
            then Err (SignatureInvalid role expected recovered)
            else OK (VerifyResult.make true recovered recomputed alg)
      end
  end.

Definition verifyAll (dc ds : option TypedDataDomain.t) (m : MandateJSON.t)
  : result VerifyAllResult.t :=
  c ← verifyRole Client dc m;
  s ← verifyRole Server ds m;
  mret (VerifyAllResult.make c s).

(** [obj] is whatever the caller parsed off the wire, cast to [MandateInit]:
    members may be missing, and the constructor then fills them in. *)
Definition fromObject (ulid now : string) (obj : MandateInit.t)
  : result MandateJSON.t :=
  constructor ulid now obj.

End Mandate.
End Mandate.

(** ** [verifier/thirdParty.ts] *)

Module VerifyOptions.
Record t : Type := make {
  requireClient : option string;
  requireServer : option string;
  now : option Date;
  eip712ClientDomain : option TypedDataDomain.t;
  eip712ServerDomain : option TypedDataDomain.t;
  primitive : option string;
}.
(** [opts = {}] *)
Definition none : t := make None None None None None None.
End VerifyOptions.

Module Parties.
Record t : Type := make { client : string; server : string }.
End Parties.

Module Receipt.
Record t : Type := make {
  ok : bool;
  parties : Parties.t;
  signatures : VerifyAllResult.t;
  mandateHash : string;
  core : json;
}.
End Receipt.

Module ThirdParty.
Section ThirdParty.
Context `{Externals}.

Definition isSwapCore (x : json) : bool :=
  truthy x
  && strict_eq_str (get_prop x "kind") "swap@1"
  && match get_prop x "payload" with
     | Some p => truthy p && typeof_string (get_prop p "amountIn")
     | None => false
     end.

(** [ulid], [nowISO] and [clock] are what [ulid()], [new Date().toISOString()]
    and [new Date()] give during the call. *)
Definition verifyMandateAsThirdParty (ulid nowISO : string) (clock : Date)
    (mandateJson : MandateInit.t) (opts : VerifyOptions.t) : result Receipt.t :=
  m ← Mandate.fromObject ulid nowISO mandateJson;
  (* 1) both signatures *)
  sigs ← Mandate.verifyAll (VerifyOptions.eip712ClientDomain opts)
                           (VerifyOptions.eip712ServerDomain opts) m;
  (* 2) optional identity checks *)
  let j := Mandate.toJSON m in
  c ← addrFromCaip10 (MandateJSON.client j);
  let clientAddr := toLowerCase c in
  s ← addrFromCaip10 (MandateJSON.server j);
  let serverAddr := toLowerCase s in
  (match VerifyOptions.requireClient opts with
   | Some r =>
       if negb (String.eqb r "") && negb (String.eqb clientAddr (toLowerCase r))
       then Err (ClientMismatch r clientAddr) else OK tt
   | None => OK tt
   end);;
  (match VerifyOptions.requireServer opts with
   | Some r =>
       if negb (String.eqb r "") && negb (String.eqb serverAddr (toLowerCase r))
       then Err (ServerMismatch r serverAddr) else OK tt
   | None => OK tt
   end);;
  (* 3) deadline *)
  let now := nullish (VerifyOptions.now opts) clock in
  if time_gt now (parseDate (MandateJSON.deadline j)) then Err DeadlinePassed
  else
    (* 4) optional primitive validation *)
    (match VerifyOptions.primitive opts with
     | Some p =>
         if String.eqb p "swap@1" then
           if negb (isSwapCore (MandateJSON.core j)) then Err UnexpectedCoreShape
           else
             match get_prop (MandateJSON.core j) "payload" with
             | Some payload =>
                 if strict_eq_str (get_prop payload "amountIn") "0"
                 then Err BadAmountIn else OK tt
             | None => Err TypeError
             end
         else OK tt
     | None => OK tt
     end);;
    h ← Mandate.mandateHash m;
    mret (Receipt.make true (Parties.make clientAddr serverAddr) sigs h
                       (MandateJSON.core j)).

End ThirdParty.
End ThirdParty.

(** ** A small instance of the imports

    Used to run the definitions on concrete mandates.  The canonical string
    is a binary code of the signature-free document (injective, as JCS is on
    JSON values), the digest is a binary code of the preimage (no collisions,
    no capitals), a wallet is its address and a signature names its signer;
    as in ethers, the wallet refuses typed data under a negative [chainId]. *)
Module Toy.
Definition leaf : Type := unit + bool + Z + string.

Fixpoint enc (j : json) : gen_tree leaf :=
  match j with
  | JNull => GenLeaf (inl (inl (inl tt)))
  | JBool b => GenLeaf (inl (inl (inr b)))
  | JNum n => GenLeaf (inl (inr n))
  | JStr s => GenLeaf (inr s)
  | JArr l => GenNode 0 (enc <$> l)
  | JObj m =>
      GenNode 1 ((λ kv : string * gen_tree leaf,
                    GenNode 2 [GenLeaf (inr kv.1); kv.2])
                 <$> map_to_list (enc <$> m))
  end.

Definition str (s : string) : gen_tree leaf := GenLeaf (inr s).

Definition code (d : MandateJSON.t) : gen_tree leaf :=
  GenNode 3 [str (MandateJSON.mandateId d); str (MandateJSON.version d);
             str (MandateJSON.client d); str (MandateJSON.server d);
             str (MandateJSON.createdAt d); str (MandateJSON.deadline d);
             str (MandateJSON.intent d); enc (MandateJSON.core d)].

Definition addr (caip : string) : result string :=
  match split ":" caip !! 2%nat with
  | Some a => OK a
  | None => Err (Thrown "not a CAIP-10 identifier")
  end.

(** Dates of the instance are written as decimal epoch milliseconds; any
    other string is an invalid date. *)
Fixpoint decimal (acc : Z) (s : string) : Date :=
  match s with
  | EmptyString => Some acc
  | String c s' =>
      let n := Ascii.N_of_ascii c in
      if ((48 <=? n) && (n <=? 57))%N
      then decimal (10 * acc + Z.of_N (n - 48)) s'
      else None
  end.

Definition time (s : string) : Date :=
  match s with
  | EmptyString => None
  | _ => decimal 0 s
  end.

Fixpoint bits (p : positive) : string :=
  match p with
  | xH => ""
  | xO q => String "0" (bits q)
  | xI q => String "1" (bits q)
  end.

Definition externals : Externals :=
  {| canonicalize d := Some ("jcs:" +:+ bits (encode (code d)));
     keccak256 b := "0b" +:+ bits (encode (String.string_of_list_byte b));
     Wallet := string;
     address w := w;
     signMessage w _ := w;
     signTypedData w d _ :=
       match TypedDataDomain.chainId d with
       | Some (BNnumber n) =>
           if (n <? 0)%Z then Err (Thrown "invalid chain ID") else OK w
       | _ => OK w
       end;
     verifyMessage _ s := OK s;
     verifyTypedData _ _ s := OK s;
     addrFromCaip10 := addr;
     parseDate := time |}.

Definition alice : string := "0xAAA1".
Definition bob : string := "0xBbB2".

Definition init : MandateInit.t :=
  {| MandateInit.mandateId := None;
     MandateInit.version := "0.1.0";
     MandateInit.client := Some "eip155:1:0xaaa1";
     MandateInit.server := Some "eip155:1:0xBbB2";
     MandateInit.createdAt := None;
     MandateInit.deadline := Some "1893456000000";
     MandateInit.intent := None;
     MandateInit.core := None;
     MandateInit.signatures := None |}.

(** The mandate [new Mandate(init)] holds. *)
Definition fresh : MandateJSON.t :=
  {| MandateJSON.mandateId := "01J0000000000000000000000";
     MandateJSON.version := "0.1.0";
     MandateJSON.client := "eip155:1:0xaaa1";
     MandateJSON.server := "eip155:1:0xBbB2";
     MandateJSON.createdAt := "1893455100000";
     MandateJSON.deadline := "1893456000000";
     MandateJSON.intent := "";
     MandateJSON.core := JObj ∅;
     MandateJSON.signatures := None |}.

Definition domain : TypedDataDomain.t :=
  TypedDataDomain.make (Some "Mandate") (Some "1") (Some (BNnumber 1)) None None.

(** A validator that accepts objects carrying a string [amountIn]. *)
Definition swapValidator : PrimitiveValidator.t :=
  {| PrimitiveValidator.parse payload :=
       match payload with
       | Some p => if typeof_string (get_prop p "amountIn") then OK p
                   else Err (Thrown "amountIn: expected string")
       | None => Err (Thrown "payload: required")
       end;
     PrimitiveValidator.toJSONSchema := None |}.

Definition swapV1 : PrimitiveDef.t :=
  PrimitiveDef.make "swap@1" swapValidator None.

Definition swapPayload : json :=
  JObj {[ "amountIn" := JStr "100000000"; "minOut" := JStr "165000" ]}.


(** An [init] whose parties are not chain-qualified identifiers. *)
Definition malformed : MandateInit.t :=
  {| MandateInit.mandateId := Some "m-1";
     MandateInit.version := "0.1.0";
     MandateInit.client := Some "nobody";
     MandateInit.server := Some "eip155:1";
     MandateInit.createdAt := Some "1893455100000";
     MandateInit.deadline := Some "1893456000000";
     MandateInit.intent := Some "swap";
     MandateInit.core := Some (JObj ∅);
     MandateInit.signatures := None |}.

(** [fresh] after [signAsServer(bob)], then [signAsClient(alice)]; and the
    server-signed mandate with its [intent] rewritten afterwards. *)
Definition serverSigned : MandateJSON.t :=
  (@Mandate.sign externals Server bob None None fresh).2.
Definition bothSigned : MandateJSON.t :=
  (@Mandate.sign externals Client alice (Some eip712) (Some domain) serverSigned).2.

(** A validator that accepts every payload, absent ones as [null]. *)
Definition acceptAll : PrimitiveValidator.t :=
  PrimitiveValidator.make (λ payload, OK (nullish payload JNull)) None.

(** Options of a third party that names the client it expects; the client
    signed typed data under [domain]. *)
Definition opts (requireClient : option string) : VerifyOptions.t :=
  VerifyOptions.make requireClient None None (Some domain) None None.

(** A time of verification before the deadline. *)
Definition clock : Date := Some 1893455200000%Z.

(** The value of a computation that returns, [d] otherwise. *)
Definition value {A} (d : A) (r : result A) : A :=
  match r with OK a => a | Err _ => d end.
End Toy.

(** ** Vocabulary of the statements *)

Definition other (role : Role) : Role :=
  match role with Client => Server | Server => Client end.

(** The signature a mandate holds for a role, if any. *)
Definition sig_of (role : Role) (m : MandateJSON.t) : option Signature.t :=
  MandateJSON.signatures m ≫= role_sig role.

(** Agreement on every member but [signatures]. *)
Definition same_content (a b : MandateJSON.t) : Prop :=
  MandateJSON.mandateId a = MandateJSON.mandateId b
  ∧ MandateJSON.version a = MandateJSON.version b
  ∧ MandateJSON.client a = MandateJSON.client b
  ∧ MandateJSON.server a = MandateJSON.server b
  ∧ MandateJSON.createdAt a = MandateJSON.createdAt b
  ∧ MandateJSON.deadline a = MandateJSON.deadline b
  ∧ MandateJSON.intent a = MandateJSON.intent b
  ∧ MandateJSON.core a = MandateJSON.core b.

(** What hashing relies on: the canonicalizer tells signature-free documents
    apart, and the digest has no collisions. *)
Definition collision_free `{Externals} : Prop :=
  (∀ d1 d2 s,
      MandateJSON.signatures d1 = None → MandateJSON.signatures d2 = None →
      canonicalize d1 = Some s → canonicalize d2 = Some s → d1 = d2)
  ∧ (∀ b1 b2, keccak256 b1 = keccak256 b2 → b1 = b2).

(** Digests are spelled without capitals, as ethers' hexadecimal strings
    are. *)
Definition lowercase_digests `{Externals} : Prop :=
  ∀ b, toLowerCase (keccak256 b) = keccak256 b.

(** The form [<namespace>:<chainId>:<address>] of a chain-qualified
    identifier: three non-empty components.  (The [CAIP10] type of
    [types/mandate.ts], [eip155:<number>:0x<string>], is narrower.) *)
Definition caip10_wf (s : string) : bool :=
  match split ":" s with
  | [ns; chain; a] =>
      negb (String.eqb ns "") && negb (String.eqb chain "") && negb (String.eqb a "")
  | _ => false
  end.

(** A member the constructor rejects: absent, or the empty string. *)
Definition missing (o : option string) : Prop := o = None ∨ o = Some "".


(** The states of [this.m] an instance can be in: what the constructor
    builds, closed under the two mutating methods (whether they return or
    throw). *)
Inductive reachable `{Externals} : MandateJSON.t → Prop :=
  | reach_new ulid now init m :
      Mandate.constructor ulid now init = OK m → reachable m
  | reach_setCore registry kind payload m r m' :
      reachable m →
      Mandate.setCore registry kind payload m = (r, m') → reachable m'
  | reach_sign role wallet alg domain m r m' :
      reachable m →
      Mandate.sign role wallet alg domain m = (r, m') → reachable m'.

(** What the constructor guarantees and the methods keep. *)
Definition wf (m : MandateJSON.t) : Prop :=
  MandateJSON.client m ≠ "" ∧ MandateJSON.server m ≠ ""
  ∧ MandateJSON.deadline m ≠ "" ∧ MandateJSON.core m ≠ JNull.

(** ** Vocabulary of the further properties *)

(** A sequence of [registerPrimitive] calls, each of which may throw. *)
Definition registerAll (defs : list PrimitiveDef.t) (registry : Registry) : Registry :=
  foldl (λ r def, (Mandate.registerPrimitive def r).2) registry defs.

(** The first definition of a list for a kind. *)
Fixpoint first_def (kind : string) (defs : list PrimitiveDef.t) : option PrimitiveDef.t :=
  match defs with
  | [] => None
  | def :: defs' =>
      if String.eqb (PrimitiveDef.kind def) kind then Some def else first_def kind defs'
  end.

(** The options with another [primitive]. *)
Definition with_primitive (opts : VerifyOptions.t) (p : option string) : VerifyOptions.t :=
  VerifyOptions.make (VerifyOptions.requireClient opts) (VerifyOptions.requireServer opts)
    (VerifyOptions.now opts) (VerifyOptions.eip712ClientDomain opts)
    (VerifyOptions.eip712ServerDomain opts) p.

(** The options without the two required addresses. *)
Definition without_requirements (opts : VerifyOptions.t) : VerifyOptions.t :=
  VerifyOptions.make None None
    (VerifyOptions.now opts) (VerifyOptions.eip712ClientDomain opts)
    (VerifyOptions.eip712ServerDomain opts) (VerifyOptions.primitive opts).

(** A required address is satisfied by [addr]: absent, empty, or equal to
    it in lower case. *)
Definition identity_ok (required : option string) (addr : string) : Prop :=
  ∀ r, required = Some r → r ≠ "" → toLowerCase addr = toLowerCase r.

(** The core passes the verifier's check for the requested primitive. *)
Definition primitive_ok (primitive : option string) (core : json) : Prop :=
  primitive = Some "swap@1" →
  ThirdParty.isSwapCore core = true
  ∧ ∃ payload, get_prop core "payload" = Some payload
               ∧ strict_eq_str (get_prop payload "amountIn") "0" = false.

(** ** [agent/clientAgent.ts] and [agent/serverAgent.ts]: the mandate messages

    Each handler runs its body inside [try]/[catch] and logs what it
    catches: [Err e] is a caught exception, after which the handler has
    stored and sent nothing.  Logging, the spinner and the two-second timer
    between [handleMandate] and [countersignMandate] are left out, and the
    configured key is taken as the wallet built from it.  [mandateJson] is
    the [data] of a parsed message, of type [any]: a document that may lack
    members, so that [mandateJson.mandateId], the key under which it is kept,
    and [mandateJson.core] may be [undefined]. *)

Module ClientAgent.
Section ClientAgent.
Context `{Externals}.

Definition isSwapCore (x : option json) : bool :=
  match x with
  | Some o =>
      truthy o
      && strict_eq_str (get_prop o "kind") "swap@1"
      && match get_prop o "payload" with
         | Some p => truthy p && typeof_string (get_prop p "amountIn")
         | None => false
         end
  | None => false
  end.

(** The state is [this.pendingMandates]. *)
Definition handleMandate (ulid now : string) (mandateJson : MandateInit.t)
  : St (gmap (option string) MandateInit.t) unit :=
  mandate ← lift (Mandate.fromObject ulid now mandateJson);
  _ ← lift (Mandate.verifyRole Server None mandate);
  let core := MandateInit.core mandateJson in
  if negb (isSwapCore core) then throw UnexpectedCoreShape
  else
    pendingMandates ← get;
    put (<[MandateInit.mandateId mandateJson := mandateJson]> pendingMandates).

(** [None]: the mandate is not pending, the handler returns at once;
    [Some (OK j)]: [j] is the data of the message sent to the server. *)
Definition countersignMandate (ulid now : string) (clientWallet : Wallet)
    (mandateId : option string) (pendingMandates : gmap (option string) MandateInit.t)
  : option (result MandateJSON.t) :=
  match pendingMandates !! mandateId with
  | None => None
  | Some mandateJson =>
      Some (mandate ← Mandate.fromObject ulid now mandateJson;
            let signed := Mandate.signAsClient clientWallet (Some eip191) None mandate in
            _ ← signed.1;
            mret (Mandate.toJSON signed.2))
  end.

End ClientAgent.
End ClientAgent.

Module ServerAgent.
Section ServerAgent.
Context `{Externals}.

(** [OK (id, data)]: the arguments [executeSwapWithMandate] is called
    with. *)
Definition handleCountersignedMandate (ulid now : string) (mandateJson : MandateInit.t)
  : result (string * MandateJSON.t) :=
  mandate ← Mandate.fromObject ulid now mandateJson;
  _ ← Mandate.verifyRole Client None mandate;
  _ ← Mandate.verifyRole Server None mandate;
  let mandateData := Mandate.toJSON mandate in
  mret (MandateJSON.mandateId mandateData, mandateData).

End ServerAgent.
End ServerAgent.

(** ** [agent/validatorAgent.ts]: the score of a validation response *)

(** What the block that validates the swap transaction came to: it was
    skipped (no proof, no manager, no transaction hash, another kind of core
    or no swap details), [validateSwap] returned, or something in the block
    threw and was caught. *)
Inductive SwapStage : Type :=
  | StageSkipped
  | StageValidated (isValid : bool)
  | StageThrew.

(** The handler ends the process on what it catches, or goes on to submit
    its score. *)
Inductive ValidatorOutcome : Type :=
  | MissingParties                      (* "Mandate missing required client or server fields" *)
  | VerificationThrew (e : error)
  | Score (responseScore : Z).

Module ValidatorAgent.
Section ValidatorAgent.
Context `{Externals}.

(** From the loaded mandate, a document that may lack members, to the
    score: [clock] is the time at the [new Date()] inside the verifier,
    [clock'] at the later [Date.now()].  The deadline is read once the
    verifier has returned, which it does not without one. *)
Definition responseScore (ulid nowISO : string) (clock clock' : Z)
    (mandateJson : MandateInit.t) (stage : SwapStage) : ValidatorOutcome :=
  if negb (truthy_str (MandateInit.client mandateJson))
     || negb (truthy_str (MandateInit.server mandateJson))
  then MissingParties
  else
    match ThirdParty.verifyMandateAsThirdParty ulid nowISO (Some clock) mandateJson
            (with_primitive VerifyOptions.none (Some "swap@1")) with
    | Err e => VerificationThrew e
    | OK verificationResult =>
        let sigs := Receipt.signatures verificationResult in
        let responseScore :=
          if negb (Receipt.ok verificationResult) then 0
          else if negb (VerifyResult.ok (VerifyAllResult.client sigs))
                  || negb (VerifyResult.ok (VerifyAllResult.server sigs))
          then 50 else 100 in
        let mandateDeadline := MandateInit.deadline mandateJson ≫= parseDate in
        let responseScore :=
          if time_gt (Some clock') mandateDeadline
          then Z.max 0 (responseScore - 20) else responseScore in
        let responseScore :=
          match stage with
          | StageSkipped | StageValidated true => responseScore
          | StageValidated false => Z.max 0 (responseScore - 30)
          | StageThrew => Z.max 0 (responseScore - 10)
          end in
        Score responseScore
    end%Z.

End ValidatorAgent.
End ValidatorAgent.

(** ** [services/uniswap/uniswapV3.ts] *)

(** What a call to the chain comes to. *)
Inductive Call (A : Type) : Type :=
  | Returned (a : A)
  | Threw (message : string).
Arguments Returned {A} a.
Arguments Threw {A} message.

(** The entries of [errors] and [warnings]. *)
Inductive SwapError : Type :=
  | ReceiptNotFound                           (* "Transaction receipt not found" *)
  | TransactionReverted                       (* "Transaction reverted" *)
  | PoolNotFound                              (* "Pool not found for configured token pair and fee" *)
  | NoSwapEvent                               (* "No Swap event found in transaction logs" *)
  | AmountInMismatch (expected got : Z)       (* "Amount in mismatch: expected e, got g" *)
  | AmountOutBelow (minExpected got : Z)      (* "Amount out below expected (with 1% tolerance): ..." *)
  | DirectionMismatch (expected got : bool)   (* "Swap direction mismatch: expected e, got g" *)
  | ErrorValidating (message : string).       (* "Error validating swap: m" *)

Inductive SwapWarning : Type :=
  | DirectionUndetermined                     (* "Unable to determine swap direction from event amounts" *)
  | NotSentToRouter (to : string).            (* "Transaction not sent to configured router: to" *)

Module SwapValidationResult.
Record t : Type := make {
  isValid : bool;
  transactionHash : string;
  blockNumber : Z;
  tokenInIs0 : bool;
  amountIn : Z;
  amountOut : Z;
  tokenInAddress : string;
  tokenOutAddress : string;
  poolAddress : string;
  recipient : string;
  errors : list SwapError;
  warnings : list SwapWarning;
}.

Definition push_error (r : t) (e : SwapError) : t :=
  make (isValid r) (transactionHash r) (blockNumber r) (tokenInIs0 r) (amountIn r)
       (amountOut r) (tokenInAddress r) (tokenOutAddress r) (poolAddress r) (recipient r)
       (errors r ++ [e]) (warnings r).

Definition push_warning (r : t) (w : SwapWarning) : t :=
  make (isValid r) (transactionHash r) (blockNumber r) (tokenInIs0 r) (amountIn r)
       (amountOut r) (tokenInAddress r) (tokenOutAddress r) (poolAddress r) (recipient r)
       (errors r) (warnings r ++ [w]).

Definition set_blockNumber (r : t) (n : Z) : t :=
  make (isValid r) (transactionHash r) n (tokenInIs0 r) (amountIn r)
       (amountOut r) (tokenInAddress r) (tokenOutAddress r) (poolAddress r) (recipient r)
       (errors r) (warnings r).

Definition set_poolAddress (r : t) (p : string) : t :=
  make (isValid r) (transactionHash r) (blockNumber r) (tokenInIs0 r) (amountIn r)
       (amountOut r) (tokenInAddress r) (tokenOutAddress r) p (recipient r)
       (errors r) (warnings r).

Definition set_isValid (r : t) (b : bool) : t :=
  make b (transactionHash r) (blockNumber r) (tokenInIs0 r) (amountIn r)
       (amountOut r) (tokenInAddress r) (tokenOutAddress r) (poolAddress r) (recipient r)
       (errors r) (warnings r).
End SwapValidationResult.

(** A log of the receipt with what [poolInterface.parseLog] makes of it:
    nothing (it throws or returns [null]), or an event with its name and,
    for a [Swap] event, [args.amount0], [args.amount1] as [coerceToBigInt]
    returns them ([None] when it throws) and [args.recipient]. *)
Inductive ParsedLog : Type :=
  | NotParsed
  | Parsed (name : string) (amount0 amount1 : option Z) (recipient : string).

Module Log.
Record t : Type := make { address : string; parsed : ParsedLog }.
End Log.

Module TransactionReceipt.
Record t : Type := make {
  status : option Z;
  blockNumber : Z;
  logs : list Log.t;
}.
End TransactionReceipt.

(** What the provider, the factory and the configuration give for one
    transaction hash. *)
Module Chain.
Record t : Type := make {
  getTransactionReceipt : Call (option TransactionReceipt.t);
  getPool : Call (option string);
  getTransaction : Call (option (option string));   (* [tx], then [tx.to] *)
  routerTarget : string;
  token0 : string;
  token1 : string;
}.
End Chain.

Module Uniswap.
Import SwapValidationResult.

Definition BPS_DENOMINATOR : Z := 10000.
Definition DEFICIT_SWAP_BUFFER_BPS : Z := 100.
Definition DEFICIT_MIN_OUT_BPS : Z := 9900.
Definition ZeroAddress : string := "0x0000000000000000000000000000000000000000".

(** [bigint] division truncates toward zero: [Z.quot]. *)
Definition applyBpsIncrease (amount bufferBps : Z) : Z :=
  if (amount =? 0)%Z then 0%Z
  else (amount + (amount * bufferBps + (BPS_DENOMINATOR - 1)) ÷ BPS_DENOMINATOR)%Z.

Definition applyBpsFloor (amount floorBps : Z) : Z :=
  if (amount =? 0)%Z then 0%Z
  else
    let floored := ((amount * floorBps) ÷ BPS_DENOMINATOR)%Z in
    if (0 <? floored)%Z then floored else 1%Z.

(** The loop of [validateSwap] over [receipt.logs], with [swapEventFound]
    and [result] as it goes; a decoded event of determinable direction ends
    it. *)
Fixpoint scanLogs (cfg : Chain.t) (poolAddress : string) (logs : list Log.t)
    (swapEventFound : bool) (result : t) : bool * t :=
  match logs with
  | [] => (swapEventFound, result)
  | log :: logs' =>
      if negb (String.eqb (toLowerCase (Log.address log)) (toLowerCase poolAddress))
      then scanLogs cfg poolAddress logs' swapEventFound result
      else
        match Log.parsed log with
        | NotParsed => scanLogs cfg poolAddress logs' swapEventFound result
        | Parsed name a0 a1 to =>
            if String.eqb name "Swap" then
              (* swapEventFound = true *)
              match a0, a1 with
              | Some amount0, Some amount1 =>
                  let tokenInIs0 := ((0 <? amount0) && (amount1 <? 0))%Z in
                  let tokenOutIs0 := ((amount0 <? 0) && (0 <? amount1))%Z in
                  if negb tokenInIs0 && negb tokenOutIs0
                  then scanLogs cfg poolAddress logs' true
                         (push_warning result DirectionUndetermined)
                  else
                    (true,
                     make (isValid result) (transactionHash result) (blockNumber result)
                       tokenInIs0
                       (if tokenInIs0 then amount0 else amount1)
                       (if tokenInIs0 then - amount1 else - amount0)%Z
                       (if tokenInIs0 then Chain.token0 cfg else Chain.token1 cfg)
                       (if tokenInIs0 then Chain.token1 cfg else Chain.token0 cfg)
                       (SwapValidationResult.poolAddress result) to
                       (errors result) (warnings result))
              | _, _ => scanLogs cfg poolAddress logs' true result
              end
            else scanLogs cfg poolAddress logs' swapEventFound result
        end
  end.

(** The rest of [validateSwap] once the loop has found an event: the checks
    against the expected values, the look at the transaction, and
    [isValid]. *)
Definition checkExpected (chain : Chain.t)
    (expectedAmountIn expectedAmountOut : option Z) (expectedTokenInIs0 : option bool)
    (result : t) : t :=
  let result :=
    match expectedAmountIn with
    | Some e =>
        if negb (amountIn result =? e)%Z
        then push_error result (AmountInMismatch e (amountIn result))
        else result
    | None => result
    end in
  let result :=
    match expectedAmountOut with
    | Some e =>
        let tolerance := ((amountOut result * 1) ÷ 100)%Z in
        let minExpected := (e - tolerance)%Z in
        if (amountOut result <? minExpected)%Z
        then push_error result (AmountOutBelow minExpected (amountOut result))
        else result
    | None => result
    end in
  let result :=
    match expectedTokenInIs0 with
    | Some e =>
        if negb (Bool.eqb (tokenInIs0 result) e)
        then push_error result (DirectionMismatch e (tokenInIs0 result))
        else result
    | None => result
    end in
  match Chain.getTransaction chain with
  | Threw msg => push_error result (ErrorValidating msg)
  | Returned tx =>
      let result :=
        match tx ≫= required with              (* [tx && tx.to] *)
        | Some to =>
            if negb (String.eqb (toLowerCase to)
                       (toLowerCase (Chain.routerTarget chain)))
            then push_warning result (NotSentToRouter to)
            else result
        | None => result
        end in
      set_isValid result (bool_decide (errors result = []))
  end.

(** What is thrown inside the outer [try] is caught there: the result as it
    stands is returned with one more error, [isValid] still false. *)
Definition validateSwap (chain : Chain.t) (txHash : string)
    (expectedAmountIn expectedAmountOut : option Z) (expectedTokenInIs0 : option bool)
  : t :=
  let result := make false txHash 0 false 0 0 "" "" "" "" [] [] in
  match Chain.getTransactionReceipt chain with
  | Threw msg => push_error result (ErrorValidating msg)
  | Returned None => push_error result ReceiptNotFound
  | Returned (Some receipt) =>
      if bool_decide (TransactionReceipt.status receipt = Some 0%Z)
      then push_error result TransactionReverted
      else
        let result := set_blockNumber result (TransactionReceipt.blockNumber receipt) in
        match Chain.getPool chain with
        | Threw msg => push_error result (ErrorValidating msg)
        | Returned pool =>
            match required pool with
            | None => push_error result PoolNotFound
            | Some poolAddress =>
                if String.eqb poolAddress ZeroAddress then push_error result PoolNotFound
                else
                  let result := set_poolAddress result poolAddress in
                  let '(swapEventFound, result) :=
                    scanLogs chain poolAddress (TransactionReceipt.logs receipt) false result in
                  if negb swapEventFound then push_error result NoSwapEvent
                  else checkExpected chain expectedAmountIn expectedAmountOut
                         expectedTokenInIs0 result
            end
        end
  end.

End Uniswap.

(** *** Vocabulary for [validateSwap] *)

(** A log of the pool that decodes to a [Swap] event: what sets
    [swapEventFound]. *)
Definition is_pool_swap (poolAddress : string) (log : Log.t) : bool :=
  String.eqb (toLowerCase (Log.address log)) (toLowerCase poolAddress)
  && match Log.parsed log with
     | Parsed name _ _ _ => String.eqb name "Swap"
     | NotParsed => false
     end.

(** Such a log whose amounts are read and have opposite signs: what ends the
    loop. *)
Definition decides (poolAddress : string) (log : Log.t) : bool :=
  is_pool_swap poolAddress log
  && match Log.parsed log with
     | Parsed _ (Some amount0) (Some amount1) _ =>
         ((0 <? amount0) && (amount1 <? 0) || (amount0 <? 0) && (0 <? amount1))%Z
     | _ => false
     end.

(** The result carries the direction, the amounts and the recipient of this
    log. *)
Definition decoded_from (poolAddress : string) (log : Log.t)
    (r : SwapValidationResult.t) : Prop :=
  toLowerCase (Log.address log) = toLowerCase poolAddress
  ∧ ∃ amount0 amount1 to,
      Log.parsed log = Parsed "Swap" (Some amount0) (Some amount1) to
      ∧ SwapValidationResult.recipient r = to
      ∧ ((0 < amount0 ∧ amount1 < 0
          ∧ SwapValidationResult.tokenInIs0 r = true
          ∧ SwapValidationResult.amountIn r = amount0
          ∧ SwapValidationResult.amountOut r = - amount1)
         ∨ (amount0 < 0 ∧ 0 < amount1
            ∧ SwapValidationResult.tokenInIs0 r = false
            ∧ SwapValidationResult.amountIn r = amount1
            ∧ SwapValidationResult.amountOut r = - amount0))%Z.

(** The chain with other logs in the receipt of the transaction. *)
Definition with_logs (chain : Chain.t) (logs : list Log.t) : Chain.t :=
  Chain.make
    match Chain.getTransactionReceipt chain with
    | Returned (Some receipt) =>
        Returned (Some (TransactionReceipt.make (TransactionReceipt.status receipt)
                          (TransactionReceipt.blockNumber receipt) logs))
    | c => c
    end
    (Chain.getPool chain) (Chain.getTransaction chain) (Chain.routerTarget chain)
    (Chain.token0 chain) (Chain.token1 chain).

(** *** A small chain for the examples

    A transaction to the router with three logs: one of another contract, a
    [Swap] event of the pool with a zero amount, and a [Swap] event of the
    pool that takes 100 units of [token0] and gives 42 of [token1]. *)
Module ToyChain.
Definition pool : string := "0xP001".
Definition router : string := "0xR0u7".

Definition foreign : Log.t :=
  Log.make "0xE1se" (Parsed "Swap" (Some 5%Z) (Some (-5)%Z) "0xdead").
Definition zero : Log.t :=
  Log.make "0xp001" (Parsed "Swap" (Some 0%Z) (Some 0%Z) "0xc0de").
Definition swap : Log.t :=
  Log.make "0xp001" (Parsed "Swap" (Some 100%Z) (Some (-42)%Z) "0xc0de").
Definition back : Log.t :=
  Log.make "0xp001" (Parsed "Swap" (Some (-100)%Z) (Some 42%Z) "0xc0de").

Definition chain (logs : list Log.t) : Chain.t :=
  {| Chain.getTransactionReceipt :=
       Returned (Some (TransactionReceipt.make (Some 1%Z) 7 logs));
     Chain.getPool := Returned (Some pool);
     Chain.getTransaction := Returned (Some (Some "0xr0u7"));
     Chain.routerTarget := router;
     Chain.token0 := "0xT0";
     Chain.token1 := "0xT1" |}.
End ToyChain.

(** * Properties *)

(** ** JSON trees *)

Lemma json_size_elem (l : list json) x :
  x ∈ l → (json_size x ≤ foldr (λ x n, json_size x + n) 0 l)%nat.
Proof. induction 1; simpl; lia. Qed.

Lemma json_size_lookup (m : gmap string json) k x :
  m !! k = Some x → (json_size x ≤ map_fold (λ _ x n, json_size x + n) 0 m)%nat.
Proof.
  induction m as [|i y m Hi Hfold IH] using map_first_key_ind.
  - by rewrite lookup_empty.
  - rewrite map_fold_insert_first_key by done.
    rewrite lookup_insert. case_decide; intros Hx; simplify_eq; [lia|].
    specialize (IH Hx). lia.
Qed.

(** Induction on a tree with the hypothesis available for every element of
    an array and every member of an object. *)
Lemma json_ind' (P : json → Prop) :
  P JNull → (∀ b, P (JBool b)) → (∀ n, P (JNum n)) → (∀ s, P (JStr s)) →
  (∀ l, Forall P l → P (JArr l)) →
  (∀ m, map_Forall (λ _, P) m → P (JObj m)) →
  ∀ j, P j.
Proof.
  intros Hnull Hbool Hnum Hstr Harr Hobj j.
  remember (json_size j) as n eqn:Hn.
  revert j Hn. induction n as [n IH] using lt_wf_ind. intros j ->.
  destruct j as [| | | |l|m]; auto.
  - apply Harr, Forall_forall. intros x Hx.
    eapply IH; [|done]. apply json_size_elem in Hx. simpl. lia.
  - apply Hobj. intros k x Hx.
    eapply IH; [|done]. apply json_size_lookup in Hx. simpl. lia.
Qed.

Lemma deepClone_id j : deepClone j = j.
Proof.
  induction j as [| | | |l IH|m IH] using json_ind'; simpl; try done.
  - f_equal. induction IH; csimpl; congruence.
  - f_equal. apply map_eq. intros k. rewrite lookup_fmap.
    destruct (m !! k) as [x|] eqn:Hk; simpl; [|done].
    f_equal. by eapply IH.
Qed.

Lemma deepCloneDoc_id m : deepCloneDoc m = m.
Proof. destruct m. unfold deepCloneDoc. simpl. by rewrite deepClone_id. Qed.

Lemma same_content_unsigned a b :
  same_content a b ↔ MandateJSON.set_signatures a None = MandateJSON.set_signatures b None.
Proof.
  destruct a, b. unfold same_content, MandateJSON.set_signatures. simpl. split.
  - intros (-> & -> & -> & -> & -> & -> & -> & ->). done.
  - intros [= -> -> -> -> -> -> -> ->]. done.
Qed.

Lemma toUtf8Bytes_inj a b : toUtf8Bytes a = toUtf8Bytes b → a = b.
Proof.
  unfold toUtf8Bytes. intros E.
  rewrite <- (String.string_of_list_byte_of_string a),
          <- (String.string_of_list_byte_of_string b). by rewrite E.
Qed.

(** ** Canonical string and hash *)

Section Hash.
Context `{Externals}.
Import MandateJSON.

Lemma canonicalizeForHash_unsigned doc s :
  Mandate.canonicalizeForHash (set_signatures doc s) = Mandate.canonicalizeForHash doc.
Proof. unfold Mandate.canonicalizeForHash. by rewrite !deepCloneDoc_id. Qed.

Lemma mandateHash_unsigned m s :
  Mandate.mandateHash (set_signatures m s) = Mandate.mandateHash m.
Proof.
  unfold Mandate.mandateHash, Mandate.computeMandateHash.
  by rewrite canonicalizeForHash_unsigned.
Qed.

Lemma attachSig_spec role sig m :
  Mandate.attachSig role sig m
  = (OK tt, set_signatures m (Some
       match role with
       | Client => MandateSignatures.make (Some sig)
                     (MandateSignatures.serverSig (nullish (signatures m) MandateSignatures.empty))
       | Server => MandateSignatures.make
                     (MandateSignatures.clientSig (nullish (signatures m) MandateSignatures.empty))
                     (Some sig)
       end)).
Proof. reflexivity. Qed.

(** A call of [sign] that returns has attached the returned signature and
    changed nothing else; a call that throws has changed nothing. *)
Lemma sign_inv role wallet alg domain m r m' :
  Mandate.sign role wallet alg domain m = (r, m') →
  (∃ sig, r = OK sig ∧ m' = (Mandate.attachSig role sig m).2
          ∧ ∃ jcs, Mandate.toCanonicalString m = OK jcs
                   ∧ Signature.mandateHash sig = keccak256 (toUtf8Bytes jcs)
                   ∧ Signature.alg sig = nullish alg eip191)
  ∨ (∃ e, r = Err e ∧ m' = m).
Proof.
  unfold Mandate.sign, mbind, St_bind, get, lift. simpl.
  destruct (Mandate.toCanonicalString m) as [jcs|e] eqn:Hjcs; [|intros [= <- <-]; eauto].
  destruct (nullish alg eip191) eqn:Halg.
  - intros [= <- <-]. left. eexists. split; [done|]. split; [done|]. eauto.
  - destruct domain as [d|]; [|intros [= <- <-]; eauto].
    destruct (has_numeric_chainId (Some d)); [|intros [= <- <-]; eauto].
    destruct (signTypedData wallet d _) as [signature|e]; [|intros [= <- <-]; eauto].
    intros [= <- <-]. left. eexists. split; [done|]. split; [done|]. eauto.
Qed.

(** Equal content, equal hash; and, barring collisions, conversely. *)
Lemma mandateHash_same_content m1 m2 :
  same_content m1 m2 → Mandate.mandateHash m1 = Mandate.mandateHash m2.
Proof.
  intros Hsame. apply same_content_unsigned in Hsame.
  by rewrite <- (mandateHash_unsigned m1 None), Hsame, mandateHash_unsigned.
Qed.

Lemma mandateHash_inj m1 m2 h :
  collision_free →
  Mandate.mandateHash m1 = OK h → Mandate.mandateHash m2 = OK h → same_content m1 m2.
Proof.
  intros [canonicalize_inj keccak256_inj] H1 H2. apply same_content_unsigned.
  revert H1 H2.
  unfold Mandate.mandateHash, Mandate.computeMandateHash, Mandate.canonicalizeForHash.
  rewrite !deepCloneDoc_id.
  destruct (canonicalize (set_signatures m1 None)) as [j1|] eqn:E1; [|done].
  destruct (canonicalize (set_signatures m2 None)) as [j2|] eqn:E2;
    [|by destruct (String.eqb j1 "")].
  destruct (String.eqb j1 ""), (String.eqb j2 ""); simpl; try done.
  intros [= <-] [= E]. apply keccak256_inj, toUtf8Bytes_inj in E. subst j2.
  by eapply canonicalize_inj.
Qed.
End Hash.

(** ** The small instance satisfies what is assumed of the imports *)

Module ToyFacts.
Lemma bits_inj p q : Toy.bits p = Toy.bits q → p = q.
Proof.
  revert q. induction p as [p IH|p IH|]; intros [q|q|]; simpl; try done.
  - intros [= E]. f_equal. by apply IH.
  - intros [= E]. f_equal. by apply IH.
Qed.

Lemma enc_inj j1 j2 : Toy.enc j1 = Toy.enc j2 → j1 = j2.
Proof.
  revert j2.
  induction j1 as [| | | |l IH|m IH] using json_ind';
    intros [| | | |l2|m2]; simpl; try done; try (intros [= ->]; done).
  - intros [= E]. f_equal. revert l2 E.
    induction IH as [|x l Hx _ IHl]; intros [|y l2]; csimpl; try done.
    intros [= E1 E2]. f_equal; [by apply Hx | by apply IHl].
  - intros [= E]. f_equal.
    assert (Toy.enc <$> m = Toy.enc <$> m2) as Em.
    { apply map_to_list_inj.
      eapply (list_fmap_eq_inj _) in E; [by rewrite E|].
      intros [k1 t1] [k2 t2]. simpl. by intros [= -> ->]. }
    apply map_eq. intros k.
    assert (Toy.enc <$> m !! k = Toy.enc <$> m2 !! k) as Ek
      by (by rewrite <- !lookup_fmap, Em).
    destruct (m !! k) as [x|] eqn:Hk, (m2 !! k) as [y|]; simpl in Ek; try done.
    injection Ek as Ek. f_equal. by eapply IH.
Qed.

Lemma code_inj d1 d2 :
  MandateJSON.signatures d1 = None → MandateJSON.signatures d2 = None →
  Toy.code d1 = Toy.code d2 → d1 = d2.
Proof.
  destruct d1, d2. unfold Toy.code, Toy.str. simpl.
  intros -> -> [= -> -> -> -> -> -> -> E]. f_equal. by apply enc_inj.
Qed.

Lemma canonicalize_inj d1 d2 s :
  MandateJSON.signatures d1 = None → MandateJSON.signatures d2 = None →
  @canonicalize Toy.externals d1 = Some s →
  @canonicalize Toy.externals d2 = Some s → d1 = d2.
Proof.
  intros H1 H2 [= <-] [= E]. apply code_inj; [done..|].
  apply (inj encode). by apply bits_inj.
Qed.

Lemma keccak256_inj b1 b2 :
  @keccak256 Toy.externals b1 = @keccak256 Toy.externals b2 → b1 = b2.
Proof.
  simpl. intros [= E]. apply bits_inj, (inj encode) in E.
  rewrite <- (String.list_byte_of_string_of_list_byte b1),
          <- (String.list_byte_of_string_of_list_byte b2). by rewrite E.
Qed.

Lemma bits_lower p : toLowerCase (Toy.bits p) = Toy.bits p.
Proof. induction p as [p IH|p IH|]; simpl; [by rewrite IH..|done]. Qed.

Lemma collision_free : @collision_free Toy.externals.
Proof. split; [exact canonicalize_inj | exact keccak256_inj]. Qed.

Lemma lowercase_digests : @lowercase_digests Toy.externals.
Proof.
  intros b.
  change (String (lower_ascii "0") (String (lower_ascii "b")
            (toLowerCase (Toy.bits (encode (String.string_of_list_byte b)))))
          = @keccak256 Toy.externals b).
  by rewrite bits_lower.
Qed.

Lemma recover_message (w : @Wallet Toy.externals) msg :
  @verifyMessage Toy.externals msg (signMessage w msg) = OK (address w).
Proof. reflexivity. Qed.

Lemma recover_typed (w : @Wallet Toy.externals) d h s :
  signTypedData w d h = OK s → @verifyTypedData Toy.externals d h s = OK (address w).
Proof.
  simpl. destruct (TypedDataDomain.chainId d) as [[n| |]|];
    try destruct (n <? 0)%Z; by intros [= <-].
Qed.
End ToyFacts.

(** ** C1: hash stability *)



(** ** C2, C3: verification of a role *)

Section Verify.
Context `{Externals}.
Import MandateJSON.

Lemma role_sig_attachSig role sig m :
  sig_of role (Mandate.attachSig role sig m).2 = Some sig.
Proof. by destruct role. Qed.

Lemma role_sig_attachSig_other role sig m :
  sig_of (other role) (Mandate.attachSig role sig m).2 = sig_of (other role) m.
Proof. destruct role, m as [? ? ? ? ? ? ? ? [[? ?]|]]; done. Qed.

Lemma role_id_set_signatures role m s :
  role_id role (set_signatures m s) = role_id role m.
Proof. by destruct role. Qed.

Lemma verifyRole_hash_mismatch role domain m sigs sigObj recomputed :
  signatures m = Some sigs → role_sig role sigs = Some sigObj →
  Mandate.mandateHash m = OK recomputed →
  toLowerCase (Signature.mandateHash sigObj) ≠ toLowerCase recomputed →
  Mandate.verifyRole role domain m = Err (HashMismatch role).
Proof.
  intros Hs Hr Hh Hne. unfold Mandate.verifyRole. rewrite Hs, Hr, Hh. simpl.
  destruct (String.eqb_spec (toLowerCase (Signature.mandateHash sigObj))
                            (toLowerCase recomputed)); done.
Qed.
End Verify.



(** C3, as the code has it.  Let signature recovery return the signer of a
    signature, for signed messages and for the typed data a wallet signed.
    For either role and either algorithm (a domain with a numeric [chainId]
    being supplied for EIP-712), on a mandate whose canonical string [jcs]
    exists and whose identifier for the role has a third component [a].
    Unless the wallet refuses the domain, [sign] returns and attaches a
    signature, and [verifyRole] with the same domain then compares the
    signer's address with [a], both in lower case: when they agree it returns
    [{ok: true}] with the signer's address as recovered address, the hash of
    [jcs] and the algorithm used; when they do not it fails with "signature
    invalid".  When the wallet refuses the domain, which the guard on
    [chainId] does not prevent, [sign] throws what the wallet throws and
    leaves the mandate as it was. *)
Theorem sign_then_verifyRole `{Externals}
    (recover_message : ∀ w msg, verifyMessage msg (signMessage w msg) = OK (address w))
    (recover_typed : ∀ w d h s, signTypedData w d h = OK s →
                                verifyTypedData d h s = OK (address w))
    role wallet alg domain m jcs a :
  Mandate.toCanonicalString m = OK jcs →
  (nullish alg eip191 = eip712 → has_numeric_chainId domain = true) →
  split ":" (role_id role m) !! 2%nat = Some a →
  let refused e :=
    ∃ d, nullish alg eip191 = eip712 ∧ domain = Some d
         ∧ signTypedData wallet d (keccak256 (toUtf8Bytes jcs)) = Err e in
  ((∀ e, ¬ refused e) →
   ∃ sig m',
     Mandate.sign role wallet alg domain m = (OK sig, m')
     ∧ sig_of role m' = Some sig
     ∧ Mandate.verifyRole role domain m'
       = if String.eqb (toLowerCase (address wallet)) (toLowerCase a)
         then OK {| VerifyResult.ok := true;
                    VerifyResult.recovered := address wallet;
                    VerifyResult.recomputedHash := keccak256 (toUtf8Bytes jcs);
                    VerifyResult.alg := nullish alg eip191 |}
         else Err (SignatureInvalid role (toLowerCase a) (address wallet)))
  ∧ (∀ e, refused e → Mandate.sign role wallet alg domain m = (Err e, m)).
Proof.
  intros Hjcs Hdom Hid refused. subst refused. cbv beta. split.
  2:{ intros e (d & Halg & -> & Hs). pose proof (Hdom Halg) as Hd.
      unfold Mandate.sign, mbind, St_bind, get, lift. cbv zeta.
      rewrite Hjcs, Halg. cbv beta iota. by rewrite Hd, Hs. }
  intros Haccepted.
  assert (∃ signature,
    Mandate.sign role wallet alg domain m
    = (OK (Signature.make (nullish alg eip191) (keccak256 (toUtf8Bytes jcs)) signature),
       (Mandate.attachSig role
          (Signature.make (nullish alg eip191) (keccak256 (toUtf8Bytes jcs)) signature) m).2)
    ∧ match nullish alg eip191 with
      | eip191 => verifyMessage (toUtf8Bytes jcs) signature = OK (address wallet)
      | eip712 => ∃ d, domain = Some d
                       ∧ verifyTypedData d (keccak256 (toUtf8Bytes jcs)) signature
                         = OK (address wallet)
      end) as (signature & Hsign & Hrec).
  { unfold Mandate.sign, mbind, St_bind, get, lift. simpl. rewrite Hjcs.
    destruct (nullish alg eip191) eqn:Halg.
    - eexists. split; [reflexivity|]. apply recover_message.
    - specialize (Hdom eq_refl). destruct domain as [d|]; [|done].
      rewrite Hdom.
      destruct (signTypedData wallet d (keccak256 (toUtf8Bytes jcs)))
        as [signature|e] eqn:Hs.
      + exists signature. split; [reflexivity|]. eauto.
      + destruct (Haccepted e). eauto. }
  eexists _, _. split; [exact Hsign|]. split; [apply role_sig_attachSig|].
  pose proof (role_sig_attachSig role
    (Signature.make (nullish alg eip191) (keccak256 (toUtf8Bytes jcs)) signature) m) as Hsig.
  rewrite attachSig_spec in Hsig |- *. simpl in Hsig |- *.
  unfold sig_of in Hsig. simpl in Hsig.
  unfold Mandate.verifyRole.
  rewrite mandateHash_unsigned, role_id_set_signatures. simpl MandateJSON.signatures.
  cbv beta iota. rewrite Hsig.
  unfold Mandate.mandateHash, Mandate.computeMandateHash, Mandate.toCanonicalString in *.
  rewrite canonicalizeForHash_unsigned, Hjcs. simpl.
  rewrite String.eqb_refl. simpl.
  rewrite Hid.
  destruct (nullish alg eip191).
  - rewrite Hrec. simpl. by destruct (String.eqb _ _).
  - destruct Hrec as (d & -> & Hrec). rewrite (Hdom eq_refl), Hrec. simpl.
    by destruct (String.eqb _ _).
Qed.

(** On the small instance: the server signs with EIP-191, then the client
    with EIP-712 under a domain the wallet accepts; the client's identifier
    spells its address in lower case. *)
Lemma sign_then_verifyRole_witness :
  (∃ sig m',
     @Mandate.sign Toy.externals Server Toy.bob None None Toy.fresh = (OK sig, m')
     ∧ sig_of Server m' = Some sig
     ∧ ∃ h, @Mandate.verifyRole Toy.externals Server None m'
            = OK (VerifyResult.make true Toy.bob h eip191))
  ∧ (∃ sig m',
     @Mandate.sign Toy.externals Client Toy.alice (Some eip712) (Some Toy.domain)
        Toy.serverSigned = (OK sig, m')
     ∧ sig_of Client m' = Some sig
     ∧ ∃ h, @Mandate.verifyRole Toy.externals Client (Some Toy.domain) m'
            = OK (VerifyResult.make true Toy.alice h eip712)).
Proof.
  split.
  - destruct (proj1 (@sign_then_verifyRole Toy.externals
                ToyFacts.recover_message ToyFacts.recover_typed
                Server Toy.bob None None Toy.fresh
                (Toy.value "" (@Mandate.toCanonicalString Toy.externals Toy.fresh))
                "0xBbB2" ltac:(vm_compute; reflexivity) ltac:(discriminate)
                ltac:(reflexivity)))
      as (sig & m' & Hsign & Hsig & Hver).
    + by intros e (d & Halg & _).
    + exists sig, m'. split; [exact Hsign|]. split; [exact Hsig|].
      eexists. exact Hver.
  - destruct (proj1 (@sign_then_verifyRole Toy.externals
                ToyFacts.recover_message ToyFacts.recover_typed
                Client Toy.alice (Some eip712) (Some Toy.domain) Toy.serverSigned
                (Toy.value "" (@Mandate.toCanonicalString Toy.externals Toy.serverSigned))
                "0xaaa1" ltac:(vm_compute; reflexivity) ltac:(reflexivity)
                ltac:(reflexivity)))
      as (sig & m' & Hsign & Hsig & Hver).
    + by intros e (d & _ & [= <-] & Hs).
    + exists sig, m'. split; [exact Hsign|]. split; [exact Hsig|].
      eexists. exact Hver.
Defined.

(** Against C3 as stated: a domain whose [chainId] is the number [-1] passes
    the guard of [sign], the wallet refuses it as ethers does, and [sign]
    throws without attaching anything, so that [verifyRole] finds no
    signature for the role. *)
Lemma negative_chainId_not_signed :
  let domain := TypedDataDomain.make (Some "Mandate") (Some "1")
                  (Some (BNnumber (-1))) None None in
  has_numeric_chainId (Some domain) = true
  ∧ @Mandate.sign Toy.externals Client Toy.alice (Some eip712) (Some domain)
       Toy.serverSigned
    = (Err (Thrown "invalid chain ID"), Toy.serverSigned)
  ∧ @Mandate.verifyRole Toy.externals Client (Some domain) Toy.serverSigned
    = Err (SigMissing Client).
Proof. repeat split; vm_compute; reflexivity. Qed.

(** ** C4: round trip through JSON *)

Section RoundTrip.
Context `{Externals}.
Import MandateJSON.

Lemma required_Some o s : required o = Some s → o = Some s ∧ s ≠ "".
Proof.
  destruct o as [x|]; simpl; [|done].
  destruct (String.eqb_spec x ""); [done|]. by intros [= <-].
Qed.

Lemma required_ne s : s ≠ "" → required (Some s) = Some s.
Proof. intros Hs. simpl. by destruct (String.eqb_spec s ""). Qed.

Lemma nullish_json_ne o : nullish_json o (JObj ∅) ≠ JNull.
Proof. by destruct o as [[]|]. Qed.

Lemma constructor_wf ulid now init m :
  Mandate.constructor ulid now init = OK m → wf m.
Proof.
  unfold Mandate.constructor.
  destruct (required (MandateInit.client init)) as [c|] eqn:Hc; [|done].
  destruct (required (MandateInit.server init)) as [s|] eqn:Hs; [|done].
  destruct (required (MandateInit.deadline init)) as [d|] eqn:Hd; [|done].
  intros [= <-]. unfold wf. simpl.
  apply required_Some in Hc as [_ ?], Hs as [_ ?], Hd as [_ ?].
  auto using nullish_json_ne.
Qed.

Lemma setCore_inv registry kind payload m r m' :
  Mandate.setCore registry kind payload m = (r, m') →
  (∃ def typed, registry !! kind = Some def
     ∧ PrimitiveValidator.parse (PrimitiveDef.validator def) payload = OK typed
     ∧ r = OK tt
     ∧ m' = set_core m (JObj {[ "kind" := JStr kind; "payload" := typed ]}))
  ∨ (∃ e, r = Err e ∧ m' = m).
Proof.
  unfold Mandate.setCore, Mandate.getPrimitive, mbind, St_bind, get, put, lift. simpl.
  destruct (registry !! kind) as [def|]; [|intros [= <- <-]; eauto].
  destruct (PrimitiveValidator.parse _ payload) as [typed|e] eqn:Hp;
    intros [= <- <-]; eauto 10.
Qed.

Lemma reachable_wf m : reachable m → wf m.
Proof.
  induction 1 as [ulid now init m Hc
                 |registry kind payload m r m' _ IH Hset
                 |role wallet alg domain m r m' _ IH Hsign].
  - by eapply constructor_wf.
  - apply setCore_inv in Hset as [(def & typed & _ & _ & _ & ->)|(e & _ & ->)]; [|done].
    destruct IH as (? & ? & ? & _). by repeat split.
  - apply sign_inv in Hsign as [(sig & _ & -> & _)|(e & _ & ->)]; [|done].
    rewrite attachSig_spec. exact IH.
Qed.

Lemma fromObject_wf ulid now m :
  wf m → Mandate.fromObject ulid now (asInit m) = OK m.
Proof.
  intros (Hc & Hs & Hd & Hcore). destruct m as [? ? c s ? d ? core ?]. simpl in *.
  unfold Mandate.fromObject, Mandate.constructor, asInit.
  cbn [MandateInit.client MandateInit.server MandateInit.deadline MandateInit.mandateId
       MandateInit.version MandateInit.createdAt MandateInit.intent MandateInit.core
       MandateInit.signatures MandateJSON.client MandateJSON.server MandateJSON.deadline
       MandateJSON.mandateId MandateJSON.version MandateJSON.createdAt MandateJSON.intent
       MandateJSON.core MandateJSON.signatures].
  rewrite !required_ne by done. simpl. by destruct core.
Qed.
End RoundTrip.

(** C4. For every state [m] an instance can be in (built by the constructor,
    then changed by [setCore] and [sign], with or without signatures),
    [m.toJSON()] holds every member of [m] as it is, and
    [fromObject(m.toJSON())] returns an instance, whatever the identifier
    generator and the clock would give, that holds the same members as [m],
    [mandateId], [createdAt], [intent], [core] and [signatures] included; its
    [toJSON()] therefore equals [m.toJSON()]. *)
Theorem fromObject_toJSON `{Externals} m ulid now :
  reachable m →
  ∃ m', Mandate.fromObject ulid now (asInit (Mandate.toJSON m)) = OK m'
        ∧ Mandate.toJSON m' = Mandate.toJSON m
        ∧ m' = m
        ∧ Mandate.toJSON m = m.
Proof.
  intros Hm. apply reachable_wf in Hm. unfold Mandate.toJSON.
  exists m. rewrite !deepCloneDoc_id. split; [by apply fromObject_wf|done].
Qed.

(** On the small instance: the mandate signed by both parties. *)
Lemma fromObject_toJSON_witness :
  ∃ m', Mandate.fromObject "01J9" "1893455100001" (asInit (Mandate.toJSON Toy.bothSigned))
        = OK m'
        ∧ Mandate.toJSON m' = Mandate.toJSON Toy.bothSigned
        ∧ m' = Toy.bothSigned
        ∧ Mandate.toJSON Toy.bothSigned = Toy.bothSigned.
Proof.
  apply (@fromObject_toJSON Toy.externals).
  eapply (@reach_sign Toy.externals Client Toy.alice (Some eip712) (Some Toy.domain)
            Toy.serverSigned).
  - eapply (@reach_sign Toy.externals Server Toy.bob None None Toy.fresh).
    + apply (@reach_new Toy.externals "01J0000000000000000000000" "1893455100000" Toy.init).
      reflexivity.
    + apply surjective_pairing.
  - apply surjective_pairing.
Defined.

(** ** C5: one signature per role *)

(** C5. The signatures object has one slot per role.  Attaching a signature
    for a role, then another one for the same role, leaves the second in the
    role's slot and the other role's slot as it was before both; the same
    holds of two calls of [sign] for a role that return, which moreover
    change no other member of the mandate. *)
Theorem resign_overwrites `{Externals} role m :
  (∀ sig1 sig2,
     let m1 := (Mandate.attachSig role sig1 m).2 in
     let m2 := (Mandate.attachSig role sig2 m1).2 in
     sig_of role m2 = Some sig2 ∧ sig_of (other role) m2 = sig_of (other role) m)
  ∧ (∀ w1 alg1 d1 w2 alg2 d2 sig1 sig2 m1 m2,
     Mandate.sign role w1 alg1 d1 m = (OK sig1, m1) →
     Mandate.sign role w2 alg2 d2 m1 = (OK sig2, m2) →
     sig_of role m1 = Some sig1
     ∧ sig_of role m2 = Some sig2
     ∧ sig_of (other role) m2 = sig_of (other role) m
     ∧ same_content m2 m).
Proof.
  split.
  - intros sig1 sig2 m1 m2. subst m1 m2. split; [apply role_sig_attachSig|].
    by rewrite !role_sig_attachSig_other.
  - intros w1 alg1 d1 w2 alg2 d2 sig1 sig2 m1 m2 H1 H2.
    apply sign_inv in H1 as [(s1 & [= <-] & -> & _)|(e & ? & _)]; [|done].
    apply sign_inv in H2 as [(s2 & [= <-] & -> & _)|(e & ? & _)]; [|done].
    split; [apply role_sig_attachSig|]. split; [apply role_sig_attachSig|].
    split; [by rewrite !role_sig_attachSig_other|].
    rewrite !attachSig_spec. simpl. by repeat split.
Qed.

(** On the small instance: the server signs twice, with different wallets. *)
Lemma resign_overwrites_witness :
  ∃ sig2 m2,
    @Mandate.sign Toy.externals Server Toy.alice None None Toy.serverSigned = (OK sig2, m2)
    ∧ sig_of Server m2 = Some sig2
    ∧ Signature.signature sig2 = Toy.alice
    ∧ sig_of Client m2 = None.
Proof.
  pose (s1 := @Mandate.sign Toy.externals Server Toy.bob None None Toy.fresh).
  pose (s2 := @Mandate.sign Toy.externals Server Toy.alice None None Toy.serverSigned).
  pose (d := Signature.make eip191 "" "").
  destruct (proj2 (@resign_overwrites Toy.externals Server Toy.fresh)
              Toy.bob None None Toy.alice None None
              (Toy.value d s1.1) (Toy.value d s2.1) Toy.serverSigned s2.2)
    as (_ & Hrole & Hother & _).
  - vm_compute. reflexivity.
  - vm_compute. reflexivity.
  - exists (Toy.value d s2.1), s2.2. split; [vm_compute; reflexivity|].
    split; [exact Hrole|]. split; [reflexivity|exact Hother].
Defined.

(** ** C6: construction *)

Lemma missing_required o : missing o ↔ required o = None.
Proof.
  unfold missing. destruct o as [s|]; simpl.
  - destruct (String.eqb_spec s "") as [->|Hs].
    + split; [done|by right].
    + split; [|done]. intros [?|[= ?]]; done.
  - split; [done|by left].
Qed.

(** C6, as the code has it.  Construction fails with "client and server
    (CAIP-10) are required" when [client] or [server] is absent or empty, and
    with "deadline (ISO 8601) is required" when they are there and [deadline]
    is absent or empty.  In every other case it succeeds, whatever the form
    of [client] and [server]: they are stored as given, [mandateId] is the
    generated identifier if omitted, [createdAt] the construction time if
    omitted, [intent] the empty string if omitted, [core] the empty object
    if omitted or null, and [signatures] is taken over. *)
Theorem constructor_spec ulid now init :
  (missing (MandateInit.client init) ∨ missing (MandateInit.server init) →
     Mandate.constructor ulid now init = Err ClientServerRequired)
  ∧ (¬ missing (MandateInit.client init) → ¬ missing (MandateInit.server init) →
     missing (MandateInit.deadline init) →
     Mandate.constructor ulid now init = Err DeadlineRequired)
  ∧ (∀ c s d,
     MandateInit.client init = Some c → c ≠ "" →
     MandateInit.server init = Some s → s ≠ "" →
     MandateInit.deadline init = Some d → d ≠ "" →
     Mandate.constructor ulid now init
     = OK {| MandateJSON.mandateId := nullish (MandateInit.mandateId init) ulid;
             MandateJSON.version := MandateInit.version init;
             MandateJSON.client := c;
             MandateJSON.server := s;
             MandateJSON.createdAt := nullish (MandateInit.createdAt init) now;
             MandateJSON.deadline := d;
             MandateJSON.intent := nullish (MandateInit.intent init) "";
             MandateJSON.core := nullish_json (MandateInit.core init) (JObj ∅);
             MandateJSON.signatures := MandateInit.signatures init |}).
Proof.
  unfold Mandate.constructor. split; [|split].
  - rewrite !missing_required. intros [-> | ->]; [done|].
    by destruct (required (MandateInit.client init)).
  - rewrite !missing_required. intros Hc Hs ->.
    destruct (required (MandateInit.client init)); [|done].
    by destruct (required (MandateInit.server init)).
  - intros c s d -> Hc -> Hs -> Hd. by rewrite !required_ne.
Qed.

(** On the small instance: [client], [server] and [deadline] given, the rest
    defaulted. *)
Lemma constructor_spec_witness :
  Mandate.constructor "01J0000000000000000000000" "1893455100000" Toy.init = OK Toy.fresh.
Proof.
  apply (proj2 (proj2 (constructor_spec "01J0000000000000000000000" "1893455100000"
                         Toy.init))
           "eip155:1:0xaaa1" "eip155:1:0xBbB2" "1893456000000");
    solve [reflexivity | discriminate].
Defined.

(** Against C6 as stated: [client] is a bare word and [server] has two
    components only, and the constructor returns a mandate holding them. *)
Lemma constructor_accepts_malformed :
  caip10_wf "nobody" = false ∧ caip10_wf "eip155:1" = false
  ∧ ∃ m, Mandate.constructor "01J9" "1893455100001" Toy.malformed = OK m
         ∧ MandateJSON.client m = "nobody" ∧ MandateJSON.server m = "eip155:1".
Proof. split; [reflexivity|]. split; [reflexivity|]. eexists. by split. Qed.

(** ** C7: the primitive registry *)



(** ** C8: [setCore] *)

(** C8. [setCore] fails with "Unknown primitive" for a kind that is not
    registered and with the validator's error when the registered validator
    rejects the payload, the mandate being left as it was in both cases.
    When the validator accepts, [setCore] returns and the mandate differs
    from what it was in [core] only, which is [{kind, payload}] with the
    validated value as payload; [signatures] in particular are those of
    before. *)
Theorem setCore_frame (registry : Registry) kind payload m :
  (registry !! kind = None →
     Mandate.setCore registry kind payload m = (Err (UnknownPrimitive kind), m))
  ∧ (∀ def e, registry !! kind = Some def →
     PrimitiveValidator.parse (PrimitiveDef.validator def) payload = Err e →
     Mandate.setCore registry kind payload m = (Err e, m))
  ∧ (∀ def typed, registry !! kind = Some def →
     PrimitiveValidator.parse (PrimitiveDef.validator def) payload = OK typed →
     ∃ m', Mandate.setCore registry kind payload m = (OK tt, m')
           ∧ MandateJSON.core m' = JObj {[ "kind" := JStr kind; "payload" := typed ]}
           ∧ MandateJSON.mandateId m' = MandateJSON.mandateId m
           ∧ MandateJSON.version m' = MandateJSON.version m
           ∧ MandateJSON.client m' = MandateJSON.client m
           ∧ MandateJSON.server m' = MandateJSON.server m
           ∧ MandateJSON.createdAt m' = MandateJSON.createdAt m
           ∧ MandateJSON.deadline m' = MandateJSON.deadline m
           ∧ MandateJSON.intent m' = MandateJSON.intent m
           ∧ MandateJSON.signatures m' = MandateJSON.signatures m).
Proof.
  unfold Mandate.setCore, Mandate.getPrimitive, mbind, St_bind, get, put, lift.
  split; [|split].
  - by intros ->.
  - by intros def e -> ->.
  - intros def typed -> ->. eexists. split; [reflexivity|]. by repeat split.
Qed.

(** On the small instance: a swap payload set on the server-signed mandate. *)
Lemma setCore_frame_witness :
  ∃ m', Mandate.setCore {[ "swap@1" := Toy.swapV1 ]} "swap@1" (Some Toy.swapPayload)
          Toy.serverSigned = (OK tt, m')
        ∧ MandateJSON.core m'
          = JObj {[ "kind" := JStr "swap@1"; "payload" := Toy.swapPayload ]}
        ∧ MandateJSON.signatures m' = MandateJSON.signatures Toy.serverSigned.
Proof.
  destruct (proj2 (proj2 (setCore_frame {[ "swap@1" := Toy.swapV1 ]} "swap@1"
                            (Some Toy.swapPayload) Toy.serverSigned))
              Toy.swapV1 Toy.swapPayload)
    as (m' & Hset & Hcore & _ & _ & _ & _ & _ & _ & _ & Hsigs).
  - apply lookup_singleton_eq.
  - vm_compute. reflexivity.
  - exists m'. by repeat split.
Defined.

(** ** C9: identity checks of the third-party verifier *)

Section Identity.
Context `{Externals}.

Lemma bind_OK {A B} (r : result A) (f : A → result B) b :
  r ≫= f = OK b → ∃ a, r = OK a ∧ f a = OK b.
Proof. destruct r as [a|]; [|done]. simpl. eauto. Qed.

Lemma verifyRole_OK_hash role domain m v :
  Mandate.verifyRole role domain m = OK v →
  Mandate.mandateHash m = OK (VerifyResult.recomputedHash v).
Proof.
  unfold Mandate.verifyRole.
  destruct (MandateJSON.signatures m) as [sigs|]; [|done].
  destruct (role_sig role sigs) as [sigObj|]; [|done].
  destruct (Mandate.mandateHash m) as [h|]; [|done]. simpl.
  destruct (negb _); [done|]. intros Hv.
  apply bind_OK in Hv as (recovered & _ & Hv).
  apply bind_OK in Hv as (expected & _ & Hv).
  destruct (negb _); [done|]. by injection Hv as <-.
Qed.

Lemma verifyAll_OK_hash dc ds m sigs :
  Mandate.verifyAll dc ds m = OK sigs → ∃ h, Mandate.mandateHash m = OK h.
Proof.
  unfold Mandate.verifyAll.
  destruct (Mandate.verifyRole Client dc m) as [v|] eqn:Hv; [|done].
  intros _. eauto using verifyRole_OK_hash.
Qed.
End Identity.

(** C9, as the code has it.  Let the document be accepted by [fromObject],
    both role signatures verify and both identifiers yield a plain address.
    A requirement is met by an address when it is absent, empty, or equal to
    the address once both are put in lower case.  With a non-empty
    [requireClient] that the client address does not meet the verifier fails
    with "client mismatch"; when the client requirement is met, a non-empty
    [requireServer] that the server address does not meet makes it fail with
    "server mismatch".  A requirement that is met, in whatever letter case it
    is written, never gives its mismatch, and when both are met the outcome
    is the one without any requirement. *)
Theorem identity_checks `{Externals} ulid nowISO clock mandateJson opts m sigs c s :
  Mandate.fromObject ulid nowISO mandateJson = OK m →
  Mandate.verifyAll (VerifyOptions.eip712ClientDomain opts)
                    (VerifyOptions.eip712ServerDomain opts) m = OK sigs →
  addrFromCaip10 (MandateJSON.client (Mandate.toJSON m)) = OK c →
  addrFromCaip10 (MandateJSON.server (Mandate.toJSON m)) = OK s →
  let outcome := ThirdParty.verifyMandateAsThirdParty ulid nowISO clock mandateJson opts in
  let skipped (o : option string) := o = None ∨ o = Some "" in
  let met (o : option string) (addr : string) :=
    skipped o ∨ ∃ r, o = Some r ∧ toLowerCase addr = toLowerCase r in
  (∀ r, VerifyOptions.requireClient opts = Some r → r ≠ "" →
        toLowerCase c ≠ toLowerCase r →
        outcome = Err (ClientMismatch r (toLowerCase c)))
  ∧ (∀ r, VerifyOptions.requireServer opts = Some r → r ≠ "" →
        toLowerCase s ≠ toLowerCase r →
        met (VerifyOptions.requireClient opts) c →
        outcome = Err (ServerMismatch r (toLowerCase s)))
  ∧ (met (VerifyOptions.requireClient opts) c →
        ∀ e g, outcome ≠ Err (ClientMismatch e g))
  ∧ (met (VerifyOptions.requireServer opts) s →
        ∀ e g, outcome ≠ Err (ServerMismatch e g))
  ∧ (met (VerifyOptions.requireClient opts) c →
     met (VerifyOptions.requireServer opts) s →
        outcome = ThirdParty.verifyMandateAsThirdParty ulid nowISO clock mandateJson
                    (without_requirements opts)).
Proof.
  intros Hfrom Hall Hc Hs outcome skipped met. subst outcome skipped met. cbv beta.
  destruct (verifyAll_OK_hash _ _ _ _ Hall) as [h Hh].
  assert (∀ (mk : string → string → error) o addr,
    ((o = None ∨ o = Some "") ∨ ∃ r, o = Some r ∧ toLowerCase addr = toLowerCase r) →
    match o with
    | Some r =>
        if negb (String.eqb r "") && negb (String.eqb (toLowerCase addr) (toLowerCase r))
        then Err (mk r (toLowerCase addr)) else OK tt
    | None => OK tt
    end = OK tt) as Hmet.
  { intros mk o addr [[-> | ->]|(r & -> & ->)]; [done..|].
    by rewrite String.eqb_refl, andb_false_r. }
  unfold ThirdParty.verifyMandateAsThirdParty, without_requirements, Mandate.toJSON in *.
  cbn [VerifyOptions.requireClient VerifyOptions.requireServer VerifyOptions.now
       VerifyOptions.eip712ClientDomain VerifyOptions.eip712ServerDomain
       VerifyOptions.primitive].
  rewrite !deepCloneDoc_id in *.
  rewrite Hfrom. simpl. rewrite Hall. simpl. rewrite Hc. simpl. rewrite Hs. simpl.
  rewrite Hh. simpl.
  split; [|split; [|split; [|split]]].
  - intros r -> Hr Hne.
    destruct (String.eqb_spec r ""); [done|].
    destruct (String.eqb_spec (toLowerCase c) (toLowerCase r)); done.
  - intros r -> Hr Hne Hclient.
    rewrite (Hmet ClientMismatch _ _ Hclient).
    simpl. destruct (String.eqb_spec r ""); [done|].
    destruct (String.eqb_spec (toLowerCase s) (toLowerCase r)); done.
  - intros Hclient e g. rewrite (Hmet ClientMismatch _ _ Hclient). simpl.
    repeat (case_match; simpl; try done).
  - intros Hserver e g. rewrite (Hmet ServerMismatch _ _ Hserver).
    repeat (case_match; simpl; try done).
  - intros Hclient Hserver.
    by rewrite (Hmet ClientMismatch _ _ Hclient), (Hmet ServerMismatch _ _ Hserver).
Qed.

(** On the small instance, the mandate signed by both parties: checked
    against a required client that is somebody else; and against the two
    addresses as a checksum spelling has them, with capitals that the
    derived addresses have not. *)
Lemma identity_checks_witness :
  @ThirdParty.verifyMandateAsThirdParty Toy.externals "01J9" "1893455100001" Toy.clock
     (asInit Toy.bothSigned) (Toy.opts (Some "0xDEADBEEF"))
  = Err (ClientMismatch "0xDEADBEEF" "0xaaa1")
  ∧ @ThirdParty.verifyMandateAsThirdParty Toy.externals "01J9" "1893455100001" Toy.clock
      (asInit Toy.bothSigned)
      (VerifyOptions.make (Some "0xAAA1") (Some "0xBbB2") None (Some Toy.domain) None None)
    = @ThirdParty.verifyMandateAsThirdParty Toy.externals "01J9" "1893455100001" Toy.clock
        (asInit Toy.bothSigned)
        (VerifyOptions.make None None None (Some Toy.domain) None None).
Proof.
  pose (v := VerifyResult.make true "" "" eip191).
  pose (sigs := Toy.value (VerifyAllResult.make v v)
                  (@Mandate.verifyAll Toy.externals (Some Toy.domain) None Toy.bothSigned)).
  split.
  - apply (proj1 (@identity_checks Toy.externals "01J9" "1893455100001" Toy.clock
                    (asInit Toy.bothSigned) (Toy.opts (Some "0xDEADBEEF")) Toy.bothSigned
                    sigs "0xaaa1" "0xBbB2"
                    ltac:(vm_compute; reflexivity) ltac:(vm_compute; reflexivity)
                    ltac:(reflexivity) ltac:(reflexivity))
             "0xDEADBEEF");
      [reflexivity | discriminate | discriminate].
  - apply (proj2 (proj2 (proj2 (proj2
             (@identity_checks Toy.externals "01J9" "1893455100001" Toy.clock
                (asInit Toy.bothSigned)
                (VerifyOptions.make (Some "0xAAA1") (Some "0xBbB2") None (Some Toy.domain)
                   None None)
                Toy.bothSigned sigs "0xaaa1" "0xBbB2"
                ltac:(vm_compute; reflexivity) ltac:(vm_compute; reflexivity)
                ltac:(reflexivity) ltac:(reflexivity)))))).
    + right. exists "0xAAA1". split; reflexivity.
    + right. exists "0xBbB2". split; reflexivity.
Defined.

(** Against C9 as stated: a [requireClient] that is given, as the empty
    string, differs from the client address, and the verifier returns its
    receipt. *)
Lemma empty_requirement_skipped :
  toLowerCase "0xaaa1" ≠ toLowerCase ""
  ∧ ∃ receipt,
      @ThirdParty.verifyMandateAsThirdParty Toy.externals "01J9" "1893455100001" Toy.clock
         (asInit Toy.bothSigned) (Toy.opts (Some "")) = OK receipt
      ∧ Receipt.parties receipt = Parties.make "0xaaa1" "0xbbb2".
Proof.
  split; [discriminate|].
  pose (v := VerifyResult.make true "" "" eip191).
  pose (d := Receipt.make false (Parties.make "" "") (VerifyAllResult.make v v) "" JNull).
  exists (Toy.value d
            (@ThirdParty.verifyMandateAsThirdParty Toy.externals "01J9" "1893455100001"
               Toy.clock (asInit Toy.bothSigned) (Toy.opts (Some "")))).
  split; vm_compute; reflexivity.
Qed.

(** ** C10: the core of a fresh mandate *)

(** C10, as the code has it.  A mandate constructed without a core has the
    empty object as core.  On it [is(kind)] is false and [coreAsKind(kind)]
    fails with the kind-mismatch error, for every kind and registry, and
    [coreAs] never takes its "core missing" branch: without an expected kind
    (or with the empty string) it is the validator applied to the absent
    payload, with a non-empty expected kind it fails with the kind-mismatch
    error, the kind found being absent. *)
Theorem fresh_core ulid now init m :
  Mandate.constructor ulid now init = OK m →
  MandateInit.core init = None →
  MandateJSON.core m = JObj ∅
  ∧ (∀ kind, Mandate.is_ kind m = false)
  ∧ (∀ registry kind, Mandate.coreAsKind registry kind m = Err (KindMismatchReg kind))
  ∧ (∀ schema, Mandate.coreAs schema None m = PrimitiveValidator.parse schema None
               ∧ Mandate.coreAs schema (Some "") m = PrimitiveValidator.parse schema None)
  ∧ (∀ schema k, k ≠ "" →
       Mandate.coreAs schema (Some k) m = Err (KindMismatch k None)).
Proof.
  intros Hc Hcore.
  assert (MandateJSON.core m = JObj ∅) as Hm.
  { revert Hc. unfold Mandate.constructor. repeat case_match; try done.
    intros [= <-]. simpl. by rewrite Hcore. }
  split; [done|].
  unfold Mandate.is_, Mandate.coreAsKind, Mandate.coreAs. rewrite Hm. simpl.
  rewrite lookup_empty.
  split; [done|]. split; [done|]. split; [done|].
  intros schema k Hk. by destruct (String.eqb_spec k "").
Qed.

(** On the small instance: the mandate built from [client], [server] and
    [deadline] alone. *)
Lemma fresh_core_witness :
  MandateJSON.core Toy.fresh = JObj ∅
  ∧ Mandate.is_ "swap@1" Toy.fresh = false
  ∧ Mandate.coreAsKind {[ "swap@1" := Toy.swapV1 ]} "swap@1" Toy.fresh
    = Err (KindMismatchReg "swap@1")
  ∧ Mandate.coreAs Toy.swapValidator None Toy.fresh = Err (Thrown "payload: required").
Proof.
  destruct (fresh_core "01J0000000000000000000000" "1893455100000" Toy.init Toy.fresh
              eq_refl eq_refl) as (Hcore & His & Hkind & Has & _).
  split; [exact Hcore|]. split; [apply His|]. split; [apply Hkind|].
  rewrite (proj1 (Has Toy.swapValidator)). reflexivity.
Defined.

(** Against C10 as stated: with an expected kind, [coreAs] on a fresh
    mandate does not reach the validator, which would have accepted the
    absent payload. *)
Lemma coreAs_expected_kind_not_validated :
  Mandate.constructor "01J0000000000000000000000" "1893455100000" Toy.init = OK Toy.fresh
  ∧ MandateInit.core Toy.init = None
  ∧ Mandate.coreAs Toy.acceptAll (Some "swap@1") Toy.fresh
    = Err (KindMismatch "swap@1" None)
  ∧ PrimitiveValidator.parse Toy.acceptAll (get_prop (MandateJSON.core Toy.fresh) "payload")
    = OK JNull.
Proof. repeat split. Qed.

(** ** The definitions at work *)

Example split_caip10 : split ":" "eip155:1:0xBbB2" = ["eip155"; "1"; "0xBbB2"].
Proof. reflexivity. Qed.

Example split_no_separator : split ":" "nobody" = ["nobody"] ∧ split ":" "" = [""].
Proof. split; reflexivity. Qed.

Example split_trailing : split ":" "a::b:" = ["a"; ""; "b"; ""].
Proof. reflexivity. Qed.

Example toLowerCase_address : toLowerCase "0xBbB2-Zz@[" = "0xbbb2-zz@[".
Proof. reflexivity. Qed.

Example truthy_values :
  truthy (JStr "") = false ∧ truthy (JNum 0) = false ∧ truthy (JObj ∅) = true
  ∧ truthy (JArr []) = true ∧ truthy JNull = false.
Proof. repeat split. Qed.

(** Scenario A of the specification: signed by the server only, verified for
    the server. *)
Example scenario_A :
  VerifyResult.recovered
    (Toy.value (VerifyResult.make false "" "" eip712)
       (@Mandate.verifyRole Toy.externals Server None Toy.serverSigned))
  = Toy.bob.
Proof. vm_compute. reflexivity. Qed.

(** Scenario B: no client signature. *)
Example scenario_B :
  @Mandate.verifyRole Toy.externals Client None Toy.serverSigned = Err (SigMissing Client)
  ∧ @Mandate.verifyRole Toy.externals Client None Toy.fresh = Err NoSignatures.
Proof. split; reflexivity. Qed.

(** A signature by somebody who is not the party named for the role. *)
Example wrong_signer :
  @Mandate.verifyRole Toy.externals Client None
     (@Mandate.sign Toy.externals Client Toy.bob None None Toy.fresh).2
  = Err (SignatureInvalid Client "0xaaa1" "0xBbB2").
Proof. vm_compute. reflexivity. Qed.

(** Third-party verification of the mandate signed by both parties: accepted
    with the right required addresses in any letter case, refused once the
    deadline is behind. *)
Example third_party_accepts :
  is_ok (@ThirdParty.verifyMandateAsThirdParty Toy.externals "01J9" "1893455100001"
           Toy.clock (asInit Toy.bothSigned)
           (VerifyOptions.make (Some "0xAAA1") (Some "0xbbb2") None
              (Some Toy.domain) None None)) = true.
Proof. vm_compute. reflexivity. Qed.

Example scenario_D :
  @ThirdParty.verifyMandateAsThirdParty Toy.externals "01J9" "1893455100001"
     (Some 1893456000001%Z) (asInit Toy.bothSigned) (Toy.opts None)
  = Err DeadlinePassed.
Proof. vm_compute. reflexivity. Qed.

(** Scenario E: the core says [swap@1] and its payload lacks [amountIn]. *)
Example scenario_E :
  Mandate.coreAsKind {[ "swap@1" := Toy.swapV1 ]} "swap@1"
    (MandateJSON.set_core Toy.fresh
       (JObj {[ "kind" := JStr "swap@1";
                "payload" := JObj {[ "minOut" := JStr "165000" ]} ]}))
  = Err (Thrown "amountIn: expected string").
Proof. vm_compute. reflexivity. Qed.

(** * Further properties of the code *)

(** ** [verifyRole]: what it depends on and what success means *)

Section VerifyMore.
Context `{Externals}.
Import MandateJSON.

Lemma same_content_sym a b : same_content a b → same_content b a.
Proof. intros (? & ? & ? & ? & ? & ? & ? & ?). by repeat split. Qed.

Lemma same_content_role_id role a b : same_content a b → role_id role a = role_id role b.
Proof. intros (_ & _ & ? & ? & _). by destruct role. Qed.

Lemma toCanonicalString_same_content a b :
  same_content a b → Mandate.toCanonicalString a = Mandate.toCanonicalString b.
Proof.
  intros Hsame. apply same_content_unsigned in Hsame.
  unfold Mandate.toCanonicalString.
  by rewrite <- (canonicalizeForHash_unsigned a None), Hsame, canonicalizeForHash_unsigned.
Qed.

(** [verifyRole] reads the content and the role's own signature, nothing
    else. *)
Lemma verifyRole_ext role domain m1 m2 :
  same_content m1 m2 →
  sig_of role m1 = sig_of role m2 → is_Some (sig_of role m1) →
  Mandate.verifyRole role domain m1 = Mandate.verifyRole role domain m2.
Proof.
  intros Hsame Hsig [s Hs]. rewrite Hs in Hsig. symmetry in Hsig.
  unfold Mandate.verifyRole.
  rewrite (mandateHash_same_content _ _ Hsame), (toCanonicalString_same_content _ _ Hsame),
    (same_content_role_id role _ _ Hsame).
  unfold sig_of in Hs, Hsig.
  destruct (signatures m1) as [s1|]; [|done].
  destruct (signatures m2) as [s2|]; [|done].
  simpl in Hs, Hsig. by rewrite Hs, Hsig.
Qed.

Lemma attachSig_same_content role sig m :
  same_content (Mandate.attachSig role sig m).2 m.
Proof. rewrite attachSig_spec. simpl. by repeat split. Qed.

Lemma sign_same_content role wallet alg domain m r m' :
  Mandate.sign role wallet alg domain m = (r, m') → same_content m' m.
Proof.
  intros Hsign. apply sign_inv in Hsign as [(sig & _ & -> & _)|(e & _ & ->)].
  - apply attachSig_same_content.
  - by repeat split.
Qed.

Lemma sign_sig_of_other role wallet alg domain m r m' :
  Mandate.sign role wallet alg domain m = (r, m') →
  sig_of (other role) m' = sig_of (other role) m.
Proof.
  intros Hsign. apply sign_inv in Hsign as [(sig & _ & -> & _)|(e & _ & ->)]; [|done].
  apply role_sig_attachSig_other.
Qed.

Lemma other_other role : other (other role) = role.
Proof. by destruct role. Qed.

Lemma sig_of_attachSig_to_other role sig m :
  sig_of role (Mandate.attachSig (other role) sig m).2 = sig_of role m.
Proof. destruct role, m as [? ? ? ? ? ? ? ? [[? ?]|]]; done. Qed.

Lemma sig_of_sign_to_other role wallet alg domain m r m' :
  Mandate.sign (other role) wallet alg domain m = (r, m') →
  sig_of role m' = sig_of role m.
Proof.
  intros Hsign. apply sign_inv in Hsign as [(sig & _ & -> & _)|(e & _ & ->)]; [|done].
  apply sig_of_attachSig_to_other.
Qed.

(** What a successful [verifyRole] has checked. *)
Lemma verifyRole_OK_inv role domain m v :
  Mandate.verifyRole role domain m = OK v →
  ∃ sigObj a,
    sig_of role m = Some sigObj
    ∧ Mandate.mandateHash m = OK (VerifyResult.recomputedHash v)
    ∧ toLowerCase (Signature.mandateHash sigObj)
      = toLowerCase (VerifyResult.recomputedHash v)
    ∧ split ":" (role_id role m) !! 2%nat = Some a
    ∧ toLowerCase (VerifyResult.recovered v) = toLowerCase a
    ∧ VerifyResult.ok v = true
    ∧ VerifyResult.alg v = Signature.alg sigObj
    ∧ match Signature.alg sigObj with
      | eip191 =>
          ∃ jcs, Mandate.toCanonicalString m = OK jcs
                 ∧ verifyMessage (toUtf8Bytes jcs) (Signature.signature sigObj)
                   = OK (VerifyResult.recovered v)
      | eip712 =>
          ∃ d, domain = Some d ∧ has_numeric_chainId domain = true
               ∧ verifyTypedData d (Signature.mandateHash sigObj)
                   (Signature.signature sigObj) = OK (VerifyResult.recovered v)
      end.
Proof.
  unfold Mandate.verifyRole, sig_of.
  destruct (signatures m) as [sigs|]; [|done]. simpl.
  destruct (role_sig role sigs) as [sigObj|]; [|done].
  destruct (Mandate.mandateHash m) as [h|]; [|done]. simpl.
  destruct (String.eqb_spec (toLowerCase (Signature.mandateHash sigObj)) (toLowerCase h))
    as [Hh|]; [|done]. simpl.
  intros Hv. apply bind_OK in Hv as (recovered & Hrec & Hv).
  apply bind_OK in Hv as (expected & Hexp & Hv).
  destruct (split ":" (role_id role m) !! 2%nat) as [a|]; [|done].
  injection Hexp as <-.
  destruct (String.eqb_spec (toLowerCase recovered) (toLowerCase a)) as [Ha|]; [|done].
  simpl in Hv. injection Hv as <-. simpl.
  exists sigObj, a. repeat split; try done.
  destruct (Signature.alg sigObj).
  - apply bind_OK in Hrec as (jcs & Hjcs & Hrec). eauto.
  - destruct domain as [d|]; [|done].
    destruct (has_numeric_chainId (Some d)) eqn:Hd; [|done]. eauto.
Qed.

(** [verifyRole] once the role's signature and the canonical string are
    known. *)
Lemma verifyRole_unfold role domain m sigObj jcs :
  sig_of role m = Some sigObj → Mandate.toCanonicalString m = OK jcs →
  Mandate.verifyRole role domain m
  = if negb (String.eqb (toLowerCase (Signature.mandateHash sigObj))
                        (toLowerCase (keccak256 (toUtf8Bytes jcs))))
    then Err (HashMismatch role)
    else
      recovered ←
        match Signature.alg sigObj with
        | eip191 => verifyMessage (toUtf8Bytes jcs) (Signature.signature sigObj)
        | eip712 =>
            match domain with
            | Some d =>
                if has_numeric_chainId domain
                then verifyTypedData d (Signature.mandateHash sigObj)
                       (Signature.signature sigObj)
                else Err Eip712RequiresDomain
            | None => Err Eip712RequiresDomain
            end
        end;
      expected ←
        match split ":" (role_id role m) !! 2%nat with
        | Some a => OK (toLowerCase a)
        | None => Err TypeError
        end;
      if negb (String.eqb (toLowerCase recovered) expected)
      then Err (SignatureInvalid role expected recovered)
      else OK (VerifyResult.make true recovered (keccak256 (toUtf8Bytes jcs))
                 (Signature.alg sigObj)).
Proof.
  intros Hsig Hjcs. unfold Mandate.verifyRole. unfold sig_of in Hsig.
  destruct (signatures m) as [sigs|]; [|done]. simpl in Hsig. rewrite Hsig.
  unfold Mandate.mandateHash, Mandate.computeMandateHash.
  unfold Mandate.toCanonicalString in *. rewrite Hjcs. simpl.
  destruct (negb _); [done|]. by destruct (Signature.alg sigObj).
Qed.

Lemma sign_eip191 role wallet domain m jcs :
  Mandate.toCanonicalString m = OK jcs →
  let sig := Signature.make eip191 (keccak256 (toUtf8Bytes jcs))
               (signMessage wallet (toUtf8Bytes jcs)) in
  Mandate.sign role wallet None domain m = (OK sig, (Mandate.attachSig role sig m).2)
  ∧ Mandate.sign role wallet (Some eip191) domain m
    = (OK sig, (Mandate.attachSig role sig m).2).
Proof.
  intros Hjcs sig. unfold Mandate.sign, mbind, St_bind, get, lift. simpl.
  by rewrite Hjcs.
Qed.

Lemma toCanonicalString_attachSig role sig m :
  Mandate.toCanonicalString (Mandate.attachSig role sig m).2 = Mandate.toCanonicalString m.
Proof. apply toCanonicalString_same_content, attachSig_same_content. Qed.

Lemma role_id_attachSig role role' sig m :
  role_id role (Mandate.attachSig role' sig m).2 = role_id role m.
Proof. apply same_content_role_id, attachSig_same_content. Qed.
End VerifyMore.

(** X1. When [verifyRole] returns, the role's signature is attached, its
    embedded hash is the hash of the current content up to letter case, the
    role's identifier has a third component which is the recovered address up
    to letter case, and the recovered address is what the recovery function
    of the signature's algorithm gives for this signature (over the canonical
    bytes for EIP-191, over the embedded hash under the supplied domain, whose
    [chainId] is numeric, for EIP-712).  The result carries [ok = true], the
    recomputed hash and the signature's algorithm. *)
Theorem verifyRole_sound `{Externals} role domain m v :
  Mandate.verifyRole role domain m = OK v →
  ∃ sigObj a,
    sig_of role m = Some sigObj
    ∧ Mandate.mandateHash m = OK (VerifyResult.recomputedHash v)
    ∧ toLowerCase (Signature.mandateHash sigObj)
      = toLowerCase (VerifyResult.recomputedHash v)
    ∧ split ":" (role_id role m) !! 2%nat = Some a
    ∧ toLowerCase (VerifyResult.recovered v) = toLowerCase a
    ∧ VerifyResult.ok v = true
    ∧ VerifyResult.alg v = Signature.alg sigObj
    ∧ match Signature.alg sigObj with
      | eip191 =>
          ∃ jcs, Mandate.toCanonicalString m = OK jcs
                 ∧ verifyMessage (toUtf8Bytes jcs) (Signature.signature sigObj)
                   = OK (VerifyResult.recovered v)
      | eip712 =>
          ∃ d, domain = Some d ∧ has_numeric_chainId domain = true
               ∧ verifyTypedData d (Signature.mandateHash sigObj)
                   (Signature.signature sigObj) = OK (VerifyResult.recovered v)
      end.
Proof. apply verifyRole_OK_inv. Qed.

(** On the small instance: the client's verification of the mandate signed
    by both. *)
Lemma verifyRole_sound_witness :
  ∃ sigObj, sig_of Client Toy.bothSigned = Some sigObj
            ∧ Signature.alg sigObj = eip712
            ∧ Signature.signature sigObj = Toy.alice.
Proof.
  pose (v := Toy.value (VerifyResult.make false "" "" eip191)
               (@Mandate.verifyRole Toy.externals Client (Some Toy.domain) Toy.bothSigned)).
  destruct (@verifyRole_sound Toy.externals Client (Some Toy.domain) Toy.bothSigned v
              ltac:(vm_compute; reflexivity))
    as (sigObj & a & Hsig & _ & _ & _ & _ & _ & Halg & Hrec).
  exists sigObj. split; [exact Hsig|].
  assert (sigObj = Toy.value (Signature.make eip191 "" "")
                     (@Mandate.sign Toy.externals Client Toy.alice (Some eip712)
                        (Some Toy.domain) Toy.serverSigned).1) as ->.
  { apply (inj Some). rewrite <- Hsig. vm_compute. reflexivity. }
  split; reflexivity.
Defined.

(** X2. [verifyRole] for a role whose signature is attached gives the same
    outcome after a signature is attached for the other role, and after any
    call of [sign] for the other role, whether it returns or throws:
    countersigning never disturbs the verification of the first
    signature. *)
Theorem verifyRole_other_role `{Externals} role domain m :
  is_Some (sig_of role m) →
  (∀ sig, Mandate.verifyRole role domain (Mandate.attachSig (other role) sig m).2
          = Mandate.verifyRole role domain m)
  ∧ (∀ wallet alg d r m',
       Mandate.sign (other role) wallet alg d m = (r, m') →
       Mandate.verifyRole role domain m' = Mandate.verifyRole role domain m).
Proof.
  intros Hsig. split.
  - intros sig. apply verifyRole_ext.
    + apply attachSig_same_content.
    + apply sig_of_attachSig_to_other.
    + by rewrite sig_of_attachSig_to_other.
  - intros wallet alg d r m' Hsign. apply verifyRole_ext.
    + by eapply sign_same_content.
    + by eapply sig_of_sign_to_other.
    + by erewrite sig_of_sign_to_other.
Qed.

(** On the small instance: the server's verification before and after the
    client countersigns. *)
Lemma verifyRole_other_role_witness :
  @Mandate.verifyRole Toy.externals Server None Toy.bothSigned
  = @Mandate.verifyRole Toy.externals Server None Toy.serverSigned.
Proof.
  apply (proj2 (@verifyRole_other_role Toy.externals Server None Toy.serverSigned
                  ltac:(vm_compute; eauto))
           Toy.alice (Some eip712) (Some Toy.domain)
           (@Mandate.sign Toy.externals Client Toy.alice (Some eip712) (Some Toy.domain)
              Toy.serverSigned).1).
  apply surjective_pairing.
Defined.

(** ** Signatures and later changes of the content *)

Section Invalidate.
Context `{Externals}.
Import MandateJSON.

Lemma mandateHash_is_digest m h :
  Mandate.mandateHash m = OK h → ∃ b, h = keccak256 b.
Proof.
  unfold Mandate.mandateHash, Mandate.computeMandateHash.
  destruct (Mandate.canonicalizeForHash m); [|done]. intros [= <-]. eauto.
Qed.

(** A signature that verified on [m] fails with the hash mismatch on every
    document that carries it and has another content. *)
Lemma verified_then_changed role domain domain' m m' v h' :
  collision_free → lowercase_digests →
  Mandate.verifyRole role domain m = OK v →
  sig_of role m' = sig_of role m →
  ¬ same_content m m' →
  Mandate.mandateHash m' = OK h' →
  Mandate.verifyRole role domain' m' = Err (HashMismatch role).
Proof.
  intros Hfree Hlower Hv Hsig Hdiff Hh'.
  apply verifyRole_OK_inv in Hv as (sigObj & a & Hs & Hh & Hlow & _).
  rewrite Hs in Hsig. unfold sig_of in Hsig.
  destruct (signatures m') as [sigs|] eqn:Hsigs; [|done]. simpl in Hsig.
  eapply verifyRole_hash_mismatch; [done..|].
  rewrite Hlow.
  destruct (mandateHash_is_digest _ _ Hh) as [b Hb].
  destruct (mandateHash_is_digest _ _ Hh') as [b' ->].
  rewrite Hb, !Hlower. intros E. rewrite Hb, E in Hh.
  eauto using mandateHash_inj.
Qed.
End Invalidate.

(** X3. Hashing being collision-free and digests spelled without capitals:
    after a [setCore] that returns and leaves another core than before, every
    signature that verified before fails with the hash-mismatch error, under
    any domain; [setCore] keeps the signatures and they no longer match. *)
Theorem setCore_invalidates_signatures `{Externals} (registry : Registry)
    kind payload role domain domain' m m' v h' :
  collision_free → lowercase_digests →
  Mandate.verifyRole role domain m = OK v →
  Mandate.setCore registry kind payload m = (OK tt, m') →
  MandateJSON.core m' ≠ MandateJSON.core m →
  Mandate.mandateHash m' = OK h' →
  sig_of role m' = sig_of role m
  ∧ Mandate.verifyRole role domain' m' = Err (HashMismatch role).
Proof.
  intros Hfree Hlower Hv Hset Hcore Hh'.
  apply setCore_inv in Hset as [(def & typed & _ & _ & _ & ->)|(e & ? & _)]; [|done].
  split; [done|].
  eapply verified_then_changed; [done..| |done].
  intros (_ & _ & _ & _ & _ & _ & _ & Hc). by apply Hcore.
Qed.

(** On the small instance: the server-signed mandate is given a swap core. *)
Lemma setCore_invalidates_signatures_witness :
  @Mandate.verifyRole Toy.externals Server None
     (Mandate.setCore {[ "swap@1" := Toy.swapV1 ]} "swap@1" (Some Toy.swapPayload)
        Toy.serverSigned).2
  = Err (HashMismatch Server).
Proof.
  pose (m' := (Mandate.setCore {[ "swap@1" := Toy.swapV1 ]} "swap@1" (Some Toy.swapPayload)
                 Toy.serverSigned).2).
  apply (proj2 (@setCore_invalidates_signatures Toy.externals
           {[ "swap@1" := Toy.swapV1 ]} "swap@1" (Some Toy.swapPayload) Server None None
           Toy.serverSigned m'
           (Toy.value (VerifyResult.make false "" "" eip712)
              (@Mandate.verifyRole Toy.externals Server None Toy.serverSigned))
           (Toy.value "" (@Mandate.mandateHash Toy.externals m'))
           ToyFacts.collision_free ToyFacts.lowercase_digests
           ltac:(vm_compute; reflexivity) ltac:(vm_compute; reflexivity)
           ltac:(vm_compute; discriminate) ltac:(vm_compute; reflexivity))).
Defined.

(** X4. The EIP-712 path needs a domain with a numeric [chainId], on both
    sides.  [sign] with ["eip712"] and no such domain throws "EIP-712
    requires domain" (the canonical string existing), and a [sign] that
    throws, for whatever reason, leaves the mandate as it was.  [verifyRole]
    of an EIP-712 signature whose embedded hash matches throws the same error
    without such a domain; for an EIP-191 signature the domain argument is
    not looked at. *)
Theorem eip712_requires_domain `{Externals} role m :
  (∀ wallet domain jcs,
     Mandate.toCanonicalString m = OK jcs → has_numeric_chainId domain = false →
     Mandate.sign role wallet (Some eip712) domain m = (Err Eip712RequiresDomain, m))
  ∧ (∀ wallet alg domain e m',
     Mandate.sign role wallet alg domain m = (Err e, m') → m' = m)
  ∧ (∀ domain sigObj h,
     sig_of role m = Some sigObj → Signature.alg sigObj = eip712 →
     Mandate.mandateHash m = OK h →
     toLowerCase (Signature.mandateHash sigObj) = toLowerCase h →
     has_numeric_chainId domain = false →
     Mandate.verifyRole role domain m = Err Eip712RequiresDomain)
  ∧ (∀ d1 d2 sigObj,
     sig_of role m = Some sigObj → Signature.alg sigObj = eip191 →
     Mandate.verifyRole role d1 m = Mandate.verifyRole role d2 m).
Proof.
  split; [|split; [|split]].
  - intros wallet domain jcs Hjcs Hd.
    unfold Mandate.sign, mbind, St_bind, get, lift. simpl. rewrite Hjcs.
    destruct domain as [d|]; [|done]. by rewrite Hd.
  - intros wallet alg domain e m' Hsign.
    by apply sign_inv in Hsign as [(sig & ? & _)|(e' & _ & ->)].
  - intros domain sigObj h Hsig Halg Hh Hlow Hd.
    unfold Mandate.verifyRole. unfold sig_of in Hsig.
    destruct (MandateJSON.signatures m) as [sigs|]; [|done]. simpl in Hsig.
    rewrite Hsig, Hh. simpl. rewrite Hlow, String.eqb_refl, Halg. simpl.
    destruct domain as [d|]; [|done]. by rewrite Hd.
  - intros d1 d2 sigObj Hsig Halg.
    unfold Mandate.verifyRole. unfold sig_of in Hsig.
    destruct (MandateJSON.signatures m) as [sigs|]; [|done]. simpl in Hsig.
    by rewrite Hsig, Halg.
Qed.

(** On the small instance: the client asks for EIP-712 with a domain whose
    [chainId] is a string. *)
Lemma eip712_requires_domain_witness :
  @Mandate.sign Toy.externals Client Toy.alice (Some eip712)
     (Some (TypedDataDomain.make (Some "Mandate") None (Some (BNstring "1")) None None))
     Toy.serverSigned
  = (Err Eip712RequiresDomain, Toy.serverSigned).
Proof.
  apply (proj1 (@eip712_requires_domain Toy.externals Client Toy.serverSigned) Toy.alice _
           (Toy.value "" (@Mandate.toCanonicalString Toy.externals Toy.serverSigned))).
  - vm_compute. reflexivity.
  - reflexivity.
Defined.

(** X5. The constructor takes any non-empty [client] and [server], but a
    role whose identifier has fewer than three components separated by [:]
    never verifies: [verifyRole] does not return, under any domain and
    whatever is attached.  Signing is not prevented: with a recovery function
    that returns the signer, [sign] with EIP-191 returns on such a mandate
    and [verifyRole] then fails on reading the missing component. *)
Theorem malformed_identifier_never_verifies `{Externals} role m :
  split ":" (role_id role m) !! 2%nat = None →
  (∀ domain v, Mandate.verifyRole role domain m ≠ OK v)
  ∧ ((∀ w msg, verifyMessage msg (signMessage w msg) = OK (address w)) →
     ∀ wallet domain jcs,
       Mandate.toCanonicalString m = OK jcs →
       ∃ sig m', Mandate.sign role wallet None None m = (OK sig, m')
                 ∧ Mandate.verifyRole role domain m' = Err TypeError).
Proof.
  intros Hid. split.
  - intros domain v Hv. apply verifyRole_OK_inv in Hv as (? & a & _ & _ & _ & Ha & _).
    congruence.
  - intros Hrec wallet domain jcs Hjcs.
    eexists _, _. split; [apply (sign_eip191 role wallet None m jcs Hjcs)|].
    erewrite verifyRole_unfold;
      [|apply role_sig_attachSig|by rewrite toCanonicalString_attachSig].
    rewrite role_id_attachSig, Hid. simpl. by rewrite String.eqb_refl, Hrec.
Qed.

(** On the small instance: the mandate built from [Toy.malformed], whose
    client is a bare word. *)
Lemma malformed_identifier_never_verifies_witness :
  ∃ m sig m',
    Mandate.constructor "01J9" "1893455100001" Toy.malformed = OK m
    ∧ @Mandate.sign Toy.externals Client "nobody" None None m = (OK sig, m')
    ∧ @Mandate.verifyRole Toy.externals Client None m' = Err TypeError.
Proof.
  pose (m := Toy.value Toy.fresh (Mandate.constructor "01J9" "1893455100001" Toy.malformed)).
  destruct (proj2 (@malformed_identifier_never_verifies Toy.externals Client m eq_refl)
              ToyFacts.recover_message "nobody" None
              (Toy.value "" (@Mandate.toCanonicalString Toy.externals m))
              ltac:(vm_compute; reflexivity))
    as (sig & m' & Hsign & Hver).
  exists m, sig, m'. split; [reflexivity|]. by split.
Defined.

(** X6. [verifyAll] returns exactly when [verifyRole] returns for both
    roles, with the two results; a failure of the client's verification is
    the failure of the call whatever the server's would be, and the server's
    failure is reported when the client's verification returns.  The two
    results of a call that returns carry the same recomputed hash. *)
Theorem verifyAll_spec `{Externals} dc ds m :
  (∀ r, Mandate.verifyAll dc ds m = OK r
        ↔ Mandate.verifyRole Client dc m = OK (VerifyAllResult.client r)
          ∧ Mandate.verifyRole Server ds m = OK (VerifyAllResult.server r))
  ∧ (∀ e, Mandate.verifyRole Client dc m = Err e → Mandate.verifyAll dc ds m = Err e)
  ∧ (∀ c e, Mandate.verifyRole Client dc m = OK c →
            Mandate.verifyRole Server ds m = Err e → Mandate.verifyAll dc ds m = Err e)
  ∧ (∀ r, Mandate.verifyAll dc ds m = OK r →
          VerifyResult.recomputedHash (VerifyAllResult.client r)
          = VerifyResult.recomputedHash (VerifyAllResult.server r)).
Proof.
  assert (∀ r, Mandate.verifyAll dc ds m = OK r
        ↔ Mandate.verifyRole Client dc m = OK (VerifyAllResult.client r)
          ∧ Mandate.verifyRole Server ds m = OK (VerifyAllResult.server r)) as Hiff.
  { intros [c s]. unfold Mandate.verifyAll. simpl. split.
    - intros Hr. apply bind_OK in Hr as (c' & Hc & Hr).
      apply bind_OK in Hr as (s' & Hs & Hr). by injection Hr as -> ->.
    - by intros [-> ->]. }
  split; [exact Hiff|]. split; [|split].
  - intros e He. unfold Mandate.verifyAll. by rewrite He.
  - intros c e Hc He. unfold Mandate.verifyAll. by rewrite Hc, He.
  - intros r Hr. apply Hiff in Hr as [Hc Hs].
    apply verifyRole_OK_hash in Hc, Hs. congruence.
Qed.

(** On the small instance: the mandate signed by both parties. *)
Lemma verifyAll_spec_witness :
  ∃ r, @Mandate.verifyAll Toy.externals (Some Toy.domain) None Toy.bothSigned = OK r
       ∧ VerifyResult.recomputedHash (VerifyAllResult.client r)
         = VerifyResult.recomputedHash (VerifyAllResult.server r).
Proof.
  pose (v := VerifyResult.make false "" "" eip191).
  pose (r := Toy.value (VerifyAllResult.make v v)
               (@Mandate.verifyAll Toy.externals (Some Toy.domain) None Toy.bothSigned)).
  assert (@Mandate.verifyAll Toy.externals (Some Toy.domain) None Toy.bothSigned = OK r)
    as Hr by (vm_compute; reflexivity).
  exists r. split; [exact Hr|].
  exact (proj2 (proj2 (proj2 (@verifyAll_spec Toy.externals (Some Toy.domain) None
                                Toy.bothSigned))) r Hr).
Defined.

(** ** The core and its readers *)

Section CoreMore.
Import MandateJSON.

Lemma core_kind_lookup kind (typed : json) :
  ({[ "kind" := JStr kind; "payload" := typed ]} : gmap string json) !! "kind"
  = Some (JStr kind).
Proof. apply lookup_insert_eq. Qed.

Lemma core_payload_lookup kind (typed : json) :
  ({[ "kind" := JStr kind; "payload" := typed ]} : gmap string json) !! "payload"
  = Some typed.
Proof. rewrite lookup_insert_ne by done. apply lookup_singleton_eq. Qed.

Lemma is_true_inv kind m :
  Mandate.is_ kind m = true ↔
  ∃ o, core m = JObj o ∧ o !! "kind" = Some (JStr kind).
Proof.
  unfold Mandate.is_. split.
  - intros [_ Hk]%andb_prop. destruct (core m) as [| | | | |o]; try done.
    exists o. split; [done|]. simpl in Hk.
    destruct (o !! "kind") as [[| | |s| |]|]; try done. simpl in Hk.
    by apply String.eqb_eq in Hk as ->.
  - intros (o & -> & Hk). simpl. rewrite Hk. simpl. apply String.eqb_refl.
Qed.
End CoreMore.

(** X7. After a [setCore(kind, payload)] that returns, with [typed] the
    value the registered validator gave: [is(kind)] is true and [is] of any
    other kind false; [coreAsKind(kind)] is the registered validator applied
    again, to [typed]; [coreAs(schema)] and [coreAs(schema, kind)] are
    [schema] applied to [typed]; [coreAs] with another non-empty expected
    kind fails with the kind mismatch, reporting [kind] as found. *)
Theorem setCore_then_read (registry : Registry) kind payload m def typed :
  registry !! kind = Some def →
  PrimitiveValidator.parse (PrimitiveDef.validator def) payload = OK typed →
  let m' := (Mandate.setCore registry kind payload m).2 in
  Mandate.is_ kind m' = true
  ∧ (∀ k, k ≠ kind → Mandate.is_ k m' = false)
  ∧ Mandate.coreAsKind registry kind m'
    = PrimitiveValidator.parse (PrimitiveDef.validator def) (Some typed)
  ∧ (∀ schema,
       Mandate.coreAs schema None m' = PrimitiveValidator.parse schema (Some typed)
       ∧ Mandate.coreAs schema (Some kind) m' = PrimitiveValidator.parse schema (Some typed))
  ∧ (∀ schema k, k ≠ kind → k ≠ "" →
       Mandate.coreAs schema (Some k) m' = Err (KindMismatch k (Some (JStr kind)))).
Proof.
  intros Hdef Hparse m'.
  assert (m' = MandateJSON.set_core m (JObj {[ "kind" := JStr kind; "payload" := typed ]}))
    as ->.
  { subst m'. unfold Mandate.setCore, Mandate.getPrimitive, mbind, St_bind, get, put, lift.
    by rewrite Hdef, Hparse. }
  unfold Mandate.is_, Mandate.coreAsKind, Mandate.coreAs, Mandate.getPrimitive.
  simpl. rewrite core_kind_lookup, core_payload_lookup. simpl.
  rewrite String.eqb_refl. simpl. rewrite Hdef. simpl.
  split; [done|]. split.
  { intros k Hk. destruct (String.eqb_spec kind k); congruence. }
  split; [done|]. split.
  { intros schema. split; [done|].
    destruct (String.eqb_spec kind ""); [done|]. by rewrite String.eqb_refl. }
  intros schema k Hk Hne. destruct (String.eqb_spec k ""); [done|].
  by destruct (String.eqb_spec kind k); [congruence|].
Qed.

(** On the small instance: a swap payload set on the fresh mandate. *)
Lemma setCore_then_read_witness :
  let m' := (Mandate.setCore {[ "swap@1" := Toy.swapV1 ]} "swap@1" (Some Toy.swapPayload)
               Toy.fresh).2 in
  Mandate.is_ "swap@1" m' = true
  ∧ Mandate.coreAsKind {[ "swap@1" := Toy.swapV1 ]} "swap@1" m' = OK Toy.swapPayload.
Proof.
  destruct (setCore_then_read {[ "swap@1" := Toy.swapV1 ]} "swap@1" (Some Toy.swapPayload)
              Toy.fresh Toy.swapV1 Toy.swapPayload
              (lookup_singleton_eq _ _) ltac:(vm_compute; reflexivity))
    as (His & _ & Hkind & _).
  split; [exact His|]. rewrite Hkind. vm_compute. reflexivity.
Defined.

(** X8. [coreAsKind(kind)] fails with the kind mismatch exactly when
    [is(kind)] is false, and this is decided before the registry is
    consulted: when [is(kind)] is true the result is "Unknown primitive" for
    a kind that is not registered, and otherwise what the registered
    validator gives for the core's payload (absent when the core has
    none). *)
Theorem coreAsKind_cases (registry : Registry) kind m :
  (Mandate.is_ kind m = false →
     Mandate.coreAsKind registry kind m = Err (KindMismatchReg kind))
  ∧ (Mandate.is_ kind m = true → registry !! kind = None →
     Mandate.coreAsKind registry kind m = Err (UnknownPrimitive kind))
  ∧ (∀ def, Mandate.is_ kind m = true → registry !! kind = Some def →
     Mandate.coreAsKind registry kind m
     = PrimitiveValidator.parse (PrimitiveDef.validator def)
         (get_prop (MandateJSON.core m) "payload")).
Proof.
  unfold Mandate.coreAsKind, Mandate.is_, Mandate.getPrimitive.
  split; [|split].
  - intros His. destruct (truthy _); simpl in *; [by rewrite His|done].
  - intros [Ht Hk]%andb_prop ->. by rewrite Ht, Hk.
  - intros def [Ht Hk]%andb_prop ->. by rewrite Ht, Hk.
Qed.

(** On the small instance: a core that says [swap@1], read with an empty
    registry. *)
Lemma coreAsKind_cases_witness :
  Mandate.coreAsKind ∅ "swap@1"
    (MandateJSON.set_core Toy.fresh
       (JObj {[ "kind" := JStr "swap@1"; "payload" := Toy.swapPayload ]}))
  = Err (UnknownPrimitive "swap@1").
Proof.
  apply (proj1 (proj2 (coreAsKind_cases ∅ "swap@1" _))).
  - vm_compute. reflexivity.
  - apply lookup_empty.
Defined.

(** ** The registry over time *)

Lemma registerPrimitive_lookup (registry : Registry) def kind :
  (Mandate.registerPrimitive def registry).2 !! kind
  = match registry !! kind with
    | Some d => Some d
    | None => if String.eqb (PrimitiveDef.kind def) kind then Some def else None
    end.
Proof.
  unfold Mandate.registerPrimitive, Mandate.hasPrimitive, mbind, St_bind, get, put,
    throw, lift.
  destruct (registry !! PrimitiveDef.kind def) as [d0|] eqn:Hd0; simpl.
  - destruct (registry !! kind) eqn:Hk; [done|].
    destruct (String.eqb_spec (PrimitiveDef.kind def) kind); congruence.
  - destruct (String.eqb_spec (PrimitiveDef.kind def) kind) as [<-|Hne].
    + by rewrite lookup_insert_eq, Hd0.
    + rewrite lookup_insert_ne by done. by destruct (registry !! kind).
Qed.

(** X9. Whatever sequence of [registerPrimitive] calls is made, throwing or
    not: a kind that was registered keeps its definition, and a kind that
    was not ends up with the first definition of the sequence for it, or
    stays unregistered when the sequence has none.  Nothing is ever replaced
    or removed. *)
Theorem registerAll_lookup defs (registry : Registry) kind :
  registerAll defs registry !! kind
  = match registry !! kind with
    | Some d => Some d
    | None => first_def kind defs
    end.
Proof.
  revert registry. induction defs as [|def defs IH]; intros registry; simpl.
  - by destruct (registry !! kind).
  - rewrite IH, registerPrimitive_lookup.
    destruct (registry !! kind); [done|].
    by destruct (String.eqb (PrimitiveDef.kind def) kind).
Qed.

(** ** [fromObject] on a document off the wire *)

(** What [fromObject] returns, when it returns. *)
Lemma fromObject_OK_inv ulid now obj m :
  Mandate.fromObject ulid now obj = OK m →
  MandateInit.client obj = Some (MandateJSON.client m) ∧ MandateJSON.client m ≠ ""
  ∧ MandateInit.server obj = Some (MandateJSON.server m) ∧ MandateJSON.server m ≠ ""
  ∧ MandateInit.deadline obj = Some (MandateJSON.deadline m) ∧ MandateJSON.deadline m ≠ ""
  ∧ m = {| MandateJSON.mandateId := nullish (MandateInit.mandateId obj) ulid;
           MandateJSON.version := MandateInit.version obj;
           MandateJSON.client := MandateJSON.client m;
           MandateJSON.server := MandateJSON.server m;
           MandateJSON.createdAt := nullish (MandateInit.createdAt obj) now;
           MandateJSON.deadline := MandateJSON.deadline m;
           MandateJSON.intent := nullish (MandateInit.intent obj) "";
           MandateJSON.core := nullish_json (MandateInit.core obj) (JObj ∅);
           MandateJSON.signatures := MandateInit.signatures obj |}.
Proof.
  unfold Mandate.fromObject, Mandate.constructor.
  destruct (required (MandateInit.client obj)) as [c|] eqn:Hc; [|done].
  destruct (required (MandateInit.server obj)) as [s|] eqn:Hs; [|done].
  destruct (required (MandateInit.deadline obj)) as [d|] eqn:Hd; [|done].
  apply required_Some in Hc as [-> ?], Hs as [-> ?], Hd as [-> ?].
  by intros [= <-].
Qed.

(** A document that carries [mandateId] and [createdAt] leaves nothing to
    the generator and the clock. *)
Lemma fromObject_indep ulid now ulid' now' obj :
  is_Some (MandateInit.mandateId obj) → is_Some (MandateInit.createdAt obj) →
  Mandate.fromObject ulid now obj = Mandate.fromObject ulid' now' obj.
Proof.
  intros [id Hid] [t Ht]. unfold Mandate.fromObject, Mandate.constructor.
  by rewrite Hid, Ht.
Qed.

(** A complete document that [fromObject] accepts comes back with a null
    core replaced and nothing else changed. *)
Lemma fromObject_asInit ulid now d m :
  Mandate.fromObject ulid now (asInit d) = OK m →
  m = MandateJSON.set_core d (nullish_json (Some (MandateJSON.core d)) (JObj ∅)).
Proof.
  intros (Hc & _ & Hs & _ & Hd & _ & ->)%fromObject_OK_inv.
  destruct d. simpl in *. by injection Hc as <-; injection Hs as <-; injection Hd as <-.
Qed.

Lemma fromObject_OK_id ulid now d m :
  Mandate.fromObject ulid now (asInit d) = OK m → MandateJSON.core d ≠ JNull → m = d.
Proof.
  intros -> %fromObject_asInit Hcore.
  destruct d as [? ? ? ? ? ? ? core ?]. simpl in *. by destruct core.
Qed.

(** X10. [fromObject] on a document off the wire that it accepts.  The
    identifier that [ulid()] draws enters the mandate exactly when the
    document has no [mandateId], and the time of the call exactly when it has
    no [createdAt]: a call at which they give something else returns the
    same mandate if and only if the document carries the member concerned.
    The mandate returned, read back as a document, is accepted again and
    returned as it is, whatever [ulid()] and the clock then give.  A
    complete document comes back with a null core replaced by the empty
    object and nothing else changed, so unchanged when its core is not
    null. *)
Theorem fromObject_spec ulid now obj m :
  Mandate.fromObject ulid now obj = OK m →
  (MandateInit.mandateId obj = None → MandateJSON.mandateId m = ulid)
  ∧ (MandateInit.createdAt obj = None → MandateJSON.createdAt m = now)
  ∧ (∀ ulid' now',
       Mandate.fromObject ulid' now' obj = OK m
       ↔ (is_Some (MandateInit.mandateId obj) ∨ ulid' = ulid)
         ∧ (is_Some (MandateInit.createdAt obj) ∨ now' = now))
  ∧ (∀ ulid' now', Mandate.fromObject ulid' now' (asInit m) = OK m)
  ∧ (∀ d, obj = asInit d →
       m = MandateJSON.set_core d (nullish_json (Some (MandateJSON.core d)) (JObj ∅))
       ∧ (MandateJSON.core d ≠ JNull → m = d)).
Proof.
  intros Hm. pose proof (constructor_wf _ _ _ _ Hm) as Hwf.
  pose proof (fromObject_OK_inv _ _ _ _ Hm) as (Hc & _ & Hs & _ & Hd & _ & Heq).
  split; [|split; [|split; [|split]]].
  - intros Hid. rewrite Heq, Hid. done.
  - intros Ht. rewrite Heq, Ht. done.
  - intros ulid' now'. split.
    + intros Hm'. apply fromObject_OK_inv in Hm' as (_ & _ & _ & _ & _ & _ & Heq').
      rewrite Heq in Heq' at 1. injection Heq' as Hid Ht. split.
      * destruct (MandateInit.mandateId obj); [left; eauto|by right].
      * destruct (MandateInit.createdAt obj); [left; eauto|by right].
    + intros [Hid Ht]. rewrite <- Hm.
      unfold Mandate.fromObject, Mandate.constructor.
      destruct Hid as [[id ->]| ->], Ht as [[t ->]| ->]; done.
  - intros ulid' now'. by apply fromObject_wf.
  - intros d ->. pose proof (fromObject_asInit _ _ _ _ Hm) as Hset.
    split; [done|]. by apply (fromObject_OK_id ulid now).
Qed.

(** On the small instance: the document of the constructor's example has
    neither identifier nor time of creation. *)
Lemma fromObject_spec_witness :
  Mandate.fromObject "01J9" "1893455100001" (asInit Toy.fresh) = OK Toy.fresh
  ∧ Mandate.fromObject "01J9" "1893455100000" Toy.init ≠ OK Toy.fresh.
Proof.
  pose proof (fromObject_spec "01J0000000000000000000000" "1893455100000" Toy.init
                Toy.fresh ltac:(reflexivity)) as (_ & _ & Hiff & Hagain & _).
  split; [apply Hagain|].
  intros [[[? [=]]|[=]] _]%Hiff.
Defined.

(** ** The third-party verifier *)

Section ThirdPartyMore.
Context `{Externals}.

(** The verifier once reconstruction, both signatures and both addresses
    are through. *)
Lemma thirdParty_unfold ulid nowISO clock mandateJson opts m sigs c s :
  Mandate.fromObject ulid nowISO mandateJson = OK m →
  Mandate.verifyAll (VerifyOptions.eip712ClientDomain opts)
                    (VerifyOptions.eip712ServerDomain opts) m = OK sigs →
  addrFromCaip10 (MandateJSON.client m) = OK c →
  addrFromCaip10 (MandateJSON.server m) = OK s →
  ∃ h, Mandate.mandateHash m = OK h ∧
  ThirdParty.verifyMandateAsThirdParty ulid nowISO clock mandateJson opts
  = ((match VerifyOptions.requireClient opts with
      | Some r =>
          if negb (String.eqb r "") && negb (String.eqb (toLowerCase c) (toLowerCase r))
          then Err (ClientMismatch r (toLowerCase c)) else OK tt
      | None => OK tt
      end);;
     (match VerifyOptions.requireServer opts with
      | Some r =>
          if negb (String.eqb r "") && negb (String.eqb (toLowerCase s) (toLowerCase r))
          then Err (ServerMismatch r (toLowerCase s)) else OK tt
      | None => OK tt
      end);;
     if time_gt (nullish (VerifyOptions.now opts) clock)
                (parseDate (MandateJSON.deadline m))
     then Err DeadlinePassed
     else
       (match VerifyOptions.primitive opts with
        | Some p =>
            if String.eqb p "swap@1" then
              if negb (ThirdParty.isSwapCore (MandateJSON.core m)) then Err UnexpectedCoreShape
              else
                match get_prop (MandateJSON.core m) "payload" with
                | Some payload =>
                    if strict_eq_str (get_prop payload "amountIn") "0"
                    then Err BadAmountIn else OK tt
                | None => Err TypeError
                end
            else OK tt
        | None => OK tt
        end);;
       OK (Receipt.make true (Parties.make (toLowerCase c) (toLowerCase s)) sigs h
             (MandateJSON.core m))).
Proof.
  intros Hfrom Hall Hc Hs.
  destruct (verifyAll_OK_hash _ _ _ _ Hall) as [h Hh]. exists h. split; [done|].
  unfold ThirdParty.verifyMandateAsThirdParty.
  rewrite Hfrom. simpl. rewrite Hall. simpl.
  rewrite ?deepClone_id. rewrite Hc. simpl. rewrite Hs. simpl.
  rewrite ?deepClone_id. by rewrite Hh.
Qed.

Lemma identity_check_OK (mk : string → string → error) required addr :
  match required with
  | Some r =>
      if negb (String.eqb r "") && negb (String.eqb (toLowerCase addr) (toLowerCase r))
      then Err (mk r (toLowerCase addr)) else OK tt
  | None => OK tt
  end = OK tt ↔ identity_ok required addr.
Proof.
  unfold identity_ok. destruct required as [r|]; [|done].
  destruct (String.eqb_spec r "") as [->|Hr]; simpl.
  { split; [|done]. by intros _ ? [= <-]. }
  destruct (String.eqb_spec (toLowerCase addr) (toLowerCase r)) as [E|E]; simpl.
  - split; [|done]. by intros _ ? [= <-].
  - split; [done|]. intros Hok. destruct E. by apply Hok.
Qed.

Lemma primitive_check_OK primitive core :
  match primitive with
  | Some p =>
      if String.eqb p "swap@1" then
        if negb (ThirdParty.isSwapCore core) then Err UnexpectedCoreShape
        else
          match get_prop core "payload" with
          | Some payload =>
              if strict_eq_str (get_prop payload "amountIn") "0"
              then Err BadAmountIn else OK tt
          | None => Err TypeError
          end
      else OK tt
  | None => OK tt
  end = OK tt ↔ primitive_ok primitive core.
Proof.
  unfold primitive_ok. destruct primitive as [p|]; [|done].
  destruct (String.eqb_spec p "swap@1") as [->|Hp]; [|split; [by intros _ [= ?]|done]].
  destruct (ThirdParty.isSwapCore core) eqn:Hcore; simpl.
  - destruct (get_prop core "payload") as [payload|] eqn:Hpl.
    + destruct (strict_eq_str (get_prop payload "amountIn") "0") eqn:Ha.
      * split; [done|]. intros Hok. destruct (Hok eq_refl) as (_ & p' & [= <-] & Hp').
        congruence.
      * split; [|done]. intros _ _. eauto.
    + split; [done|]. intros Hok. by destruct (Hok eq_refl) as (_ & p' & ? & _).
  - split; [done|]. intros Hok. by destruct (Hok eq_refl) as [? _].
Qed.
(** What the verifier has checked when it returns. *)
Lemma thirdParty_OK_inv ulid nowISO clock mandateJson opts receipt :
  ThirdParty.verifyMandateAsThirdParty ulid nowISO clock mandateJson opts = OK receipt →
  ∃ m c s,
    Mandate.fromObject ulid nowISO mandateJson = OK m
    ∧ Mandate.verifyAll (VerifyOptions.eip712ClientDomain opts)
                        (VerifyOptions.eip712ServerDomain opts) m
      = OK (Receipt.signatures receipt)
    ∧ addrFromCaip10 (MandateJSON.client m) = OK c
    ∧ addrFromCaip10 (MandateJSON.server m) = OK s
    ∧ identity_ok (VerifyOptions.requireClient opts) c
    ∧ identity_ok (VerifyOptions.requireServer opts) s
    ∧ time_gt (nullish (VerifyOptions.now opts) clock)
              (parseDate (MandateJSON.deadline m)) = false
    ∧ primitive_ok (VerifyOptions.primitive opts) (MandateJSON.core m)
    ∧ Receipt.ok receipt = true
    ∧ Receipt.parties receipt = Parties.make (toLowerCase c) (toLowerCase s)
    ∧ Mandate.mandateHash m = OK (Receipt.mandateHash receipt)
    ∧ Receipt.core receipt = MandateJSON.core m.
Proof.
  intros Hv. pose proof Hv as Hv'.
  unfold ThirdParty.verifyMandateAsThirdParty in Hv'.
  apply bind_OK in Hv' as (m & Hfrom & Hv').
  apply bind_OK in Hv' as (sigs & Hall & Hv').
  unfold Mandate.toJSON in Hv'. rewrite deepCloneDoc_id in Hv'.
  apply bind_OK in Hv' as (c & Hc & Hv').
  apply bind_OK in Hv' as (s & Hs & _).
  destruct (thirdParty_unfold ulid nowISO clock mandateJson opts m sigs c s)
    as (h & Hh & Hun); [done..|].
  rewrite Hun in Hv. clear Hun.
  apply bind_OK in Hv as ([] & Hic%identity_check_OK & Hv).
  apply bind_OK in Hv as ([] & His%identity_check_OK & Hv).
  destruct (time_gt _ _) eqn:Ht; [done|].
  apply bind_OK in Hv as ([] & Hp%primitive_check_OK & Hv).
  injection Hv as <-. simpl. exists m, c, s. by repeat (split; [done|]).
Qed.
End ThirdPartyMore.

(** X11. The verifier returns a receipt exactly when every step passes:
    [fromObject] accepts the document, [verifyAll] returns under the two
    domains of the options, [addrFromCaip10] yields an address for both
    identifiers, each required address that is given and non-empty equals
    the derived one in lower case, the reference time is not after the
    deadline, and, [swap@1] being requested, the core has the swap shape
    with an [amountIn] other than ["0"].  The receipt then has [ok = true],
    the two addresses in lower case, the two verification results, the hash
    of the document and its core. *)
Theorem thirdParty_accepts_iff `{Externals} ulid nowISO clock mandateJson opts receipt :
  ThirdParty.verifyMandateAsThirdParty ulid nowISO clock mandateJson opts = OK receipt
  ↔ ∃ m c s,
      Mandate.fromObject ulid nowISO mandateJson = OK m
      ∧ Mandate.verifyAll (VerifyOptions.eip712ClientDomain opts)
                          (VerifyOptions.eip712ServerDomain opts) m
        = OK (Receipt.signatures receipt)
      ∧ addrFromCaip10 (MandateJSON.client m) = OK c
      ∧ addrFromCaip10 (MandateJSON.server m) = OK s
      ∧ identity_ok (VerifyOptions.requireClient opts) c
      ∧ identity_ok (VerifyOptions.requireServer opts) s
      ∧ time_gt (nullish (VerifyOptions.now opts) clock)
                (parseDate (MandateJSON.deadline m)) = false
      ∧ primitive_ok (VerifyOptions.primitive opts) (MandateJSON.core m)
      ∧ Receipt.ok receipt = true
      ∧ Receipt.parties receipt = Parties.make (toLowerCase c) (toLowerCase s)
      ∧ Mandate.mandateHash m = OK (Receipt.mandateHash receipt)
      ∧ Receipt.core receipt = MandateJSON.core m.
Proof.
  split; [apply thirdParty_OK_inv|].
  intros (m & c & s & Hfrom & Hall & Hc & Hs & Hic & His & Ht & Hp & Hok & Hpar & Hh & Hcore).
  destruct (thirdParty_unfold ulid nowISO clock mandateJson opts m
                (Receipt.signatures receipt) c s)
    as (h & Hh' & ->); [done..|].
  apply (identity_check_OK ClientMismatch) in Hic.
  apply (identity_check_OK ServerMismatch) in His. apply primitive_check_OK in Hp.
  rewrite Hic. simpl. rewrite His. simpl. rewrite Ht, Hp. simpl.
  destruct receipt as [ok parties sigs hh core]. simpl in *. congruence.
Qed.

(** On the small instance: the mandate signed by both parties, with the
    client's address required in capitals. *)
Lemma thirdParty_accepts_iff_witness :
  ∃ receipt,
    @ThirdParty.verifyMandateAsThirdParty Toy.externals "01J9" "1893455100001" Toy.clock
       (asInit Toy.bothSigned) (Toy.opts (Some "0xAAA1")) = OK receipt
    ∧ Receipt.parties receipt = Parties.make "0xaaa1" "0xbbb2".
Proof.
  pose (v := VerifyResult.make false "" "" eip191).
  pose (d := Receipt.make false (Parties.make "" "") (VerifyAllResult.make v v) "" JNull).
  pose (receipt := Toy.value d
          (@ThirdParty.verifyMandateAsThirdParty Toy.externals "01J9" "1893455100001"
             Toy.clock (asInit Toy.bothSigned) (Toy.opts (Some "0xAAA1")))).
  exists receipt.
  destruct (proj1 (@thirdParty_accepts_iff Toy.externals "01J9" "1893455100001" Toy.clock
                     (asInit Toy.bothSigned) (Toy.opts (Some "0xAAA1")) receipt)
              ltac:(vm_compute; reflexivity))
    as (m & c & s & _ & _ & _ & _ & _ & _ & _ & _ & _ & Hpar & _).
  split; [vm_compute; reflexivity|]. vm_compute. reflexivity.
Defined.

(** X12. Once the signatures and the identity checks are through, the
    verifier fails with "mandate deadline has passed" exactly when the
    reference time and the deadline are both valid dates and the deadline is
    strictly before the reference time.  A deadline that does not parse as a
    date never expires: with the core check passing, the verifier then
    returns its receipt at any reference time. *)
Theorem thirdParty_deadline `{Externals} ulid nowISO clock mandateJson opts m sigs c s :
  Mandate.fromObject ulid nowISO mandateJson = OK m →
  Mandate.verifyAll (VerifyOptions.eip712ClientDomain opts)
                    (VerifyOptions.eip712ServerDomain opts) m = OK sigs →
  addrFromCaip10 (MandateJSON.client m) = OK c →
  addrFromCaip10 (MandateJSON.server m) = OK s →
  identity_ok (VerifyOptions.requireClient opts) c →
  identity_ok (VerifyOptions.requireServer opts) s →
  let outcome := ThirdParty.verifyMandateAsThirdParty ulid nowISO clock mandateJson opts in
  (outcome = Err DeadlinePassed
   ↔ ∃ t d, nullish (VerifyOptions.now opts) clock = Some t
            ∧ parseDate (MandateJSON.deadline m) = Some d ∧ (d < t)%Z)
  ∧ (parseDate (MandateJSON.deadline m) = None →
     primitive_ok (VerifyOptions.primitive opts) (MandateJSON.core m) →
     is_ok outcome = true).
Proof.
  intros Hfrom Hall Hc Hs Hic His outcome. subst outcome.
  destruct (thirdParty_unfold ulid nowISO clock mandateJson opts m sigs c s)
    as (h & Hh & ->); [done..|].
  apply (identity_check_OK ClientMismatch) in Hic.
  apply (identity_check_OK ServerMismatch) in His.
  rewrite Hic. simpl. rewrite His. simpl.
  split.
  - unfold time_gt.
    destruct (nullish (VerifyOptions.now opts) clock) as [t|].
    2:{ split; [|by intros (? & ? & ? & _)]. repeat (case_match; simpl; try done). }
    destruct (parseDate (MandateJSON.deadline m)) as [d|].
    2:{ split; [|by intros (? & ? & _ & ? & _)]. repeat (case_match; simpl; try done). }
    destruct (Z.ltb_spec d t).
    + split; [eauto|done].
    + split; [repeat (case_match; simpl; try done)|].
      intros (? & ? & [= <-] & [= <-] & ?). lia.
  - intros -> Hp. apply primitive_check_OK in Hp.
    assert (time_gt (nullish (VerifyOptions.now opts) clock) None = false) as ->
      by by destruct (nullish _ _).
    by rewrite Hp.
Qed.

(** On the small instance: the mandate signed by both parties, looked at
    one millisecond after its deadline. *)
Lemma thirdParty_deadline_witness :
  @ThirdParty.verifyMandateAsThirdParty Toy.externals "01J9" "1893455100001"
     (Some 1893456000001%Z) (asInit Toy.bothSigned) (Toy.opts None)
  = Err DeadlinePassed.
Proof.
  pose (v := VerifyResult.make true "" "" eip191).
  pose (sigs := Toy.value (VerifyAllResult.make v v)
                  (@Mandate.verifyAll Toy.externals (Some Toy.domain) None Toy.bothSigned)).
  apply (proj1 (@thirdParty_deadline Toy.externals "01J9" "1893455100001"
                  (Some 1893456000001%Z) (asInit Toy.bothSigned) (Toy.opts None) Toy.bothSigned sigs
                  "0xaaa1" "0xBbB2"
                  ltac:(vm_compute; reflexivity) ltac:(vm_compute; reflexivity)
                  ltac:(reflexivity) ltac:(reflexivity)
                  ltac:(by intros ? [= ?]) ltac:(by intros ? [= ?]))).
  exists 1893456000001%Z, 1893456000000%Z. by repeat split.
Defined.

(** X13. Once the signatures, the identity checks and the deadline are
    through: without a requested primitive, or with one other than
    ["swap@1"], the verifier returns its receipt whatever the core is; with
    ["swap@1"] it fails with "unexpected core shape" on a core that has not
    the swap shape, with "bad amountIn" when the payload's [amountIn] is the
    string ["0"], and returns its receipt for every other string, be it
    ["00"] or not a number at all. *)
Theorem thirdParty_primitive `{Externals} ulid nowISO clock mandateJson opts m sigs c s :
  Mandate.fromObject ulid nowISO mandateJson = OK m →
  Mandate.verifyAll (VerifyOptions.eip712ClientDomain opts)
                    (VerifyOptions.eip712ServerDomain opts) m = OK sigs →
  addrFromCaip10 (MandateJSON.client m) = OK c →
  addrFromCaip10 (MandateJSON.server m) = OK s →
  identity_ok (VerifyOptions.requireClient opts) c →
  identity_ok (VerifyOptions.requireServer opts) s →
  time_gt (nullish (VerifyOptions.now opts) clock)
          (parseDate (MandateJSON.deadline m)) = false →
  let outcome := ThirdParty.verifyMandateAsThirdParty ulid nowISO clock mandateJson opts in
  ((VerifyOptions.primitive opts = None
    ∨ ∃ p, VerifyOptions.primitive opts = Some p ∧ p ≠ "swap@1") →
     is_ok outcome = true)
  ∧ (VerifyOptions.primitive opts = Some "swap@1" →
     (ThirdParty.isSwapCore (MandateJSON.core m) = false →
        outcome = Err UnexpectedCoreShape)
     ∧ (∀ payload a,
          ThirdParty.isSwapCore (MandateJSON.core m) = true →
          get_prop (MandateJSON.core m) "payload" = Some payload →
          get_prop payload "amountIn" = Some (JStr a) →
          if String.eqb a "0" then outcome = Err BadAmountIn
          else is_ok outcome = true)).
Proof.
  intros Hfrom Hall Hc Hs Hic His Ht outcome. subst outcome.
  destruct (thirdParty_unfold ulid nowISO clock mandateJson opts m sigs c s)
    as (h & Hh & ->); [done..|].
  apply (identity_check_OK ClientMismatch) in Hic.
  apply (identity_check_OK ServerMismatch) in His.
  rewrite Hic. simpl. rewrite His. simpl. rewrite Ht.
  split.
  - intros [-> | (p & -> & Hp)]; [done|].
    by destruct (String.eqb_spec p "swap@1").
  - intros ->. simpl. split.
    + by intros ->.
    + intros payload a -> -> ->. simpl. by destruct (String.eqb a "0").
Qed.

(** On the small instance: a swap mandate signed by both parties whose
    [amountIn] is ["0"], and the same verified without a primitive. *)
Lemma thirdParty_primitive_witness :
  let zero := MandateJSON.set_core Toy.fresh
                (JObj {[ "kind" := JStr "swap@1";
                         "payload" := JObj {[ "amountIn" := JStr "0" ]} ]}) in
  let signed :=
    (@Mandate.sign Toy.externals Client Toy.alice None None
       (@Mandate.sign Toy.externals Server Toy.bob None None zero).2).2 in
  @ThirdParty.verifyMandateAsThirdParty Toy.externals "01J9" "1893455100001" Toy.clock
     (asInit signed) (with_primitive VerifyOptions.none (Some "swap@1"))
  = Err BadAmountIn.
Proof.
  intros zero signed.
  pose (v := VerifyResult.make true "" "" eip191).
  pose (sigs := Toy.value (VerifyAllResult.make v v)
                  (@Mandate.verifyAll Toy.externals None None signed)).
  apply (proj2 (proj2 (@thirdParty_primitive Toy.externals "01J9" "1893455100001"
                  Toy.clock (asInit signed) (with_primitive VerifyOptions.none (Some "swap@1"))
                  signed sigs "0xaaa1" "0xBbB2"
                  ltac:(vm_compute; reflexivity) ltac:(vm_compute; reflexivity)
                  ltac:(reflexivity) ltac:(reflexivity)
                  ltac:(by intros ? [= ?]) ltac:(by intros ? [= ?])
                  ltac:(vm_compute; reflexivity)) eq_refl)
           (JObj {[ "amountIn" := JStr "0" ]}) "0");
    vm_compute; reflexivity.
Defined.

(** X14. [isSwapCore] holds exactly of the objects whose [kind] is the
    string ["swap@1"] and whose [payload] is an object with a string
    [amountIn], which may be any string; a mandate whose core passes it
    answers [is("swap@1")] with true. *)
Theorem isSwapCore_iff x :
  (ThirdParty.isSwapCore x = true
   ↔ ∃ o p a, x = JObj o ∧ o !! "kind" = Some (JStr "swap@1")
              ∧ o !! "payload" = Some (JObj p) ∧ p !! "amountIn" = Some (JStr a))
  ∧ (∀ m, MandateJSON.core m = x → ThirdParty.isSwapCore x = true →
          Mandate.is_ "swap@1" m = true).
Proof.
  assert (ThirdParty.isSwapCore x = true
   ↔ ∃ o p a, x = JObj o ∧ o !! "kind" = Some (JStr "swap@1")
              ∧ o !! "payload" = Some (JObj p) ∧ p !! "amountIn" = Some (JStr a)) as Hiff.
  { unfold ThirdParty.isSwapCore. split.
    - intros [[_ Hk]%andb_prop Hp]%andb_prop.
      destruct x as [| | | | |o]; try done. simpl in *.
      destruct (o !! "kind") as [[| | |k| |]|] eqn:Ek; try done. simpl in Hk.
      apply String.eqb_eq in Hk as ->.
      destruct (o !! "payload") as [pl|] eqn:Epl; [|done].
      apply andb_prop in Hp as [_ Ha].
      destruct pl as [| | | | |p]; try done. simpl in Ha.
      destruct (p !! "amountIn") as [[| | |a| |]|] eqn:Ea; try done.
      by exists o, p, a.
    - intros (o & p & a & -> & Hk & Hp & Ha). simpl. rewrite Hk, Hp. simpl. by rewrite Ha. }
  split; [exact Hiff|].
  intros m <- (o & p & a & Ho & Hk & _)%Hiff. apply is_true_inv. eauto.
Qed.

(** ** The mandate messages between the agents *)

Section AgentsMore.
Context `{Externals}.

Lemma verifyRole_OK_canonical role domain m v :
  Mandate.verifyRole role domain m = OK v → ∃ jcs, Mandate.toCanonicalString m = OK jcs.
Proof.
  intros Hh%verifyRole_OK_hash.
  unfold Mandate.mandateHash, Mandate.computeMandateHash in Hh.
  apply bind_OK in Hh as (jcs & Hjcs & _). eauto.
Qed.

(** What [handleMandate] has checked when it stores the mandate. *)
Lemma handleMandate_OK_inv ulid now mandateJson pending pending' :
  ClientAgent.handleMandate ulid now mandateJson pending = (OK tt, pending') →
  ∃ m v,
    Mandate.fromObject ulid now mandateJson = OK m
    ∧ Mandate.verifyRole Server None m = OK v
    ∧ ClientAgent.isSwapCore (MandateInit.core mandateJson) = true
    ∧ pending' = <[MandateInit.mandateId mandateJson := mandateJson]> pending.
Proof.
  unfold ClientAgent.handleMandate, mbind, St_bind, get, put, lift, throw, lift.
  destruct (Mandate.fromObject ulid now mandateJson) as [m|] eqn:Hm; [|done].
  destruct (Mandate.verifyRole Server None m) as [v|] eqn:Hv; [|done].
  destruct (ClientAgent.isSwapCore (MandateInit.core mandateJson)) eqn:Hcore; [|done].
  simpl. intros [= <-]. eauto 10.
Qed.

(** The client's signature over a mandate, as the server then verifies
    it. *)
Lemma verifyRole_after_sign_eip191
    (recover_message : ∀ w msg, verifyMessage msg (signMessage w msg) = OK (address w))
    role wallet m jcs a :
  Mandate.toCanonicalString m = OK jcs →
  split ":" (role_id role m) !! 2%nat = Some a →
  Mandate.verifyRole role None (Mandate.sign role wallet (Some eip191) None m).2
  = if String.eqb (toLowerCase (address wallet)) (toLowerCase a)
    then OK (VerifyResult.make true (address wallet) (keccak256 (toUtf8Bytes jcs)) eip191)
    else Err (SignatureInvalid role (toLowerCase a) (address wallet)).
Proof.
  intros Hjcs Ha.
  rewrite (proj2 (sign_eip191 role wallet None m jcs Hjcs)). cbn [snd].
  erewrite verifyRole_unfold;
    [|apply role_sig_attachSig|by rewrite toCanonicalString_attachSig].
  rewrite role_id_attachSig, Ha.
  cbn [Signature.mandateHash Signature.alg Signature.signature].
  rewrite String.eqb_refl. cbn [negb]. rewrite recover_message. simpl.
  by destruct (String.eqb _ _).
Qed.
End AgentsMore.

(** X15. The countersigning exchange, for a document that carries its
    [mandateId] and [createdAt], so that each reconstruction gives the same
    mandate [m].  Once the client's [handleMandate] has accepted it from the
    server, [countersignMandate] finds it under its identifier, signs it and
    sends a document with the content of [m] and the server's signature
    untouched; it does not verify its own signature.  The server's
    [handleCountersignedMandate] then goes on to the swap with this document
    exactly when the address of the client's wallet is the third component
    of the mandate's [client], compared in lower case, and fails with
    "client signature invalid" otherwise. *)
Theorem countersign_handshake `{Externals}
    (recover_message : ∀ w msg, verifyMessage msg (signMessage w msg) = OK (address w))
    ulid now ulid' now' ulid'' now'' clientWallet mandateJson
    pendingMandates pendingMandates' id t c a :
  ClientAgent.handleMandate ulid now mandateJson pendingMandates
  = (OK tt, pendingMandates') →
  MandateInit.mandateId mandateJson = Some id →
  MandateInit.createdAt mandateJson = Some t →
  MandateInit.client mandateJson = Some c →
  split ":" c !! 2%nat = Some a →
  ∃ m countersigned,
    Mandate.fromObject ulid now mandateJson = OK m
    ∧ ClientAgent.countersignMandate ulid' now' clientWallet (Some id) pendingMandates'
      = Some (OK countersigned)
    ∧ same_content m countersigned
    ∧ sig_of Server countersigned = sig_of Server m
    ∧ ServerAgent.handleCountersignedMandate ulid'' now'' (asInit countersigned)
      = if String.eqb (toLowerCase (address clientWallet)) (toLowerCase a)
        then OK (id, countersigned)
        else Err (SignatureInvalid Client (toLowerCase a) (address clientWallet)).
Proof.
  intros (m & v & Hfrom & Hv & Hcore & ->)%handleMandate_OK_inv Hid Ht Hc Ha.
  pose proof (constructor_wf _ _ _ _ Hfrom) as Hwf.
  pose proof (fromObject_OK_inv _ _ _ _ Hfrom) as (Hc' & _ & _ & _ & _ & _ & Heq).
  assert (MandateJSON.client m = c) as Hclient by congruence.
  assert (MandateJSON.mandateId m = id) as Hmid by (by rewrite Heq, Hid).
  destruct (verifyRole_OK_canonical _ _ _ _ Hv) as [jcs Hjcs].
  pose proof (proj2 (sign_eip191 Client clientWallet None m jcs Hjcs)) as Hsign.
  cbv zeta in Hsign.
  set (sig := Signature.make eip191 (keccak256 (toUtf8Bytes jcs))
                (signMessage clientWallet (toUtf8Bytes jcs))) in Hsign.
  set (countersigned := (Mandate.attachSig Client sig m).2).
  assert (same_content m countersigned) as Hsame
    by apply same_content_sym, attachSig_same_content.
  exists m, countersigned. split; [done|]. split; [|split; [done|split]].
  - unfold ClientAgent.countersignMandate. rewrite <- Hid, lookup_insert_eq.
    rewrite (fromObject_indep ulid' now' ulid now) by (rewrite ?Hid, ?Ht; eauto).
    rewrite Hfrom. simpl.
    unfold Mandate.signAsClient. rewrite Hsign. simpl.
    unfold Mandate.toJSON. by rewrite deepCloneDoc_id.
  - apply (sig_of_attachSig_to_other Server).
  - unfold ServerAgent.handleCountersignedMandate.
    rewrite fromObject_wf.
    2:{ destruct Hwf as (? & ? & ? & ?).
        destruct Hsame as (_ & _ & Hc'' & Hs'' & _ & Hd'' & _ & Hcore'').
        unfold wf. by rewrite <- Hc'', <- Hs'', <- Hd'', <- Hcore''. }
    simpl.
    assert (Mandate.verifyRole Client None countersigned
            = Mandate.verifyRole Client None
                (Mandate.sign Client clientWallet (Some eip191) None m).2) as ->
      by by rewrite Hsign.
    rewrite (verifyRole_after_sign_eip191 recover_message Client clientWallet
               m jcs a Hjcs) by (simpl; by rewrite Hclient).
    destruct (String.eqb _ _); [|done]. simpl.
    assert (Mandate.verifyRole Server None countersigned = OK v) as ->.
    { rewrite <- Hv. apply verifyRole_ext.
      - by apply same_content_sym.
      - apply (sig_of_attachSig_to_other Server).
      - unfold countersigned. rewrite (sig_of_attachSig_to_other Server).
        apply verifyRole_OK_inv in Hv as (sigObj & ? & Hsig & _). eauto. }
    unfold Mandate.toJSON. rewrite deepCloneDoc_id.
    destruct Hsame as (Hid' & _). simpl. do 2 f_equal. congruence.
Qed.

(** On the small instance: a swap mandate signed by the server and
    countersigned with the wallet its [client] names. *)
Lemma countersign_handshake_witness :
  let offer :=
    (@Mandate.sign Toy.externals Server Toy.bob None None
       (MandateJSON.set_core Toy.fresh
          (JObj {[ "kind" := JStr "swap@1"; "payload" := Toy.swapPayload ]}))).2 in
  ∃ countersigned,
    @ClientAgent.countersignMandate Toy.externals "01J9" "1893455100001" Toy.alice
      (Some (MandateJSON.mandateId offer))
      (<[Some (MandateJSON.mandateId offer) := asInit offer]> ∅)
    = Some (OK countersigned)
    ∧ @ServerAgent.handleCountersignedMandate Toy.externals "01JA" "1893455100002"
        (asInit countersigned)
      = OK (MandateJSON.mandateId offer, countersigned).
Proof.
  intros offer.
  pose (pending := ∅ : gmap (option string) MandateInit.t).
  pose (pending' := <[Some (MandateJSON.mandateId offer) := asInit offer]> pending).
  destruct (@countersign_handshake Toy.externals ToyFacts.recover_message
              "01J8" "1893455100000" "01J9" "1893455100001" "01JA" "1893455100002"
              Toy.alice (asInit offer) pending pending'
              (MandateJSON.mandateId offer) (MandateJSON.createdAt offer)
              (MandateJSON.client offer) "0xaaa1"
              ltac:(vm_compute; reflexivity) ltac:(reflexivity) ltac:(reflexivity)
              ltac:(reflexivity) ltac:(reflexivity))
    as (m & countersigned & _ & Hc & _ & _ & Hs).
  exists countersigned. split; [exact Hc|exact Hs].
Defined.

(** ** The validator's score *)

Section ValidatorMore.
Context `{Externals}.

Lemma verifyAll_OK_ok dc ds m r :
  Mandate.verifyAll dc ds m = OK r →
  VerifyResult.ok (VerifyAllResult.client r) = true
  ∧ VerifyResult.ok (VerifyAllResult.server r) = true.
Proof.
  unfold Mandate.verifyAll. intros Hr.
  apply bind_OK in Hr as (c & Hc & Hr). apply bind_OK in Hr as (s & Hs & Hr).
  injection Hr as <-. simpl.
  apply verifyRole_OK_inv in Hc as (? & ? & _ & _ & _ & _ & _ & Hc & _).
  apply verifyRole_OK_inv in Hs as (? & ? & _ & _ & _ & _ & _ & Hs & _).
  done.
Qed.
End ValidatorMore.

(** X16. When the validator gets as far as a score, the third-party
    verification returned, so the score starts from 100: its branches for 0
    and for 50 are never taken, and a mandate that fails verification ends
    the handler without any response.  The score is 100, less 20 when the
    second reading of the clock is after the deadline, less 30 when
    [validateSwap] found the transaction invalid or 10 when that block
    threw; it lies between 50 and 100.  The deadline can only cost its 20
    points if it passed between the verifier's reading of the clock and the
    handler's own. *)
Theorem validator_score `{Externals} ulid nowISO clock clock' mandateJson stage score :
  ValidatorAgent.responseScore ulid nowISO clock clock' mandateJson stage = Score score →
  let late := time_gt (Some clock') (MandateInit.deadline mandateJson ≫= parseDate) in
  is_ok (ThirdParty.verifyMandateAsThirdParty ulid nowISO (Some clock) mandateJson
           (with_primitive VerifyOptions.none (Some "swap@1"))) = true
  ∧ score = (100 - (if late then 20 else 0)
             - match stage with
               | StageValidated false => 30
               | StageThrew => 10
               | _ => 0
               end)%Z
  ∧ (50 ≤ score ≤ 100)%Z
  ∧ (late = true →
     ∃ d, MandateInit.deadline mandateJson ≫= parseDate = Some d
          ∧ (clock ≤ d < clock')%Z).
Proof.
  unfold ValidatorAgent.responseScore.
  destruct (negb _ || negb _); [done|].
  destruct (ThirdParty.verifyMandateAsThirdParty _ _ _ _ _) as [receipt|] eqn:Hv; [|done].
  apply thirdParty_OK_inv in Hv
    as (m & c & s & Hfrom & Hall & _ & _ & _ & _ & Ht & _ & Hok & _).
  apply verifyAll_OK_ok in Hall as [-> ->]. rewrite Hok.
  apply fromObject_OK_inv in Hfrom as (_ & _ & _ & _ & -> & _ & _). simpl in Ht.
  cbn [negb orb]. intros [= <-]. cbv zeta. split; [done|].
  change (Some (MandateJSON.deadline m) ≫= parseDate)
    with (parseDate (MandateJSON.deadline m)).
  destruct (parseDate (MandateJSON.deadline m)) as [d|]; simpl in *.
  - apply Z.ltb_ge in Ht.
    destruct (Z.ltb_spec d clock'), stage as [|[]|];
      (split; [lia|split; [lia|]]); try done; (intros _; exists d; split; [done|lia]).
  - destruct stage as [|[]|]; (split; [lia|split; [lia|done]]).
Qed.

(** On the small instance: the countersigned swap mandate, an invalid swap
    transaction, both readings of the clock before the deadline. *)
Lemma validator_score_witness :
  let offer :=
    (@Mandate.sign Toy.externals Server Toy.bob None None
       (MandateJSON.set_core Toy.fresh
          (JObj {[ "kind" := JStr "swap@1"; "payload" := Toy.swapPayload ]}))).2 in
  let countersigned :=
    (@Mandate.sign Toy.externals Client Toy.alice (Some eip191) None offer).2 in
  @ValidatorAgent.responseScore Toy.externals "01J9" "1893455100001"
    1893455200000 1893455200500 (asInit countersigned) (StageValidated false) = Score 70
  ∧ is_ok (@ThirdParty.verifyMandateAsThirdParty Toy.externals "01J9" "1893455100001"
             (Some 1893455200000%Z) (asInit countersigned)
             (with_primitive VerifyOptions.none (Some "swap@1"))) = true.
Proof.
  intros offer countersigned.
  assert (@ValidatorAgent.responseScore Toy.externals "01J9" "1893455100001"
            1893455200000 1893455200500 (asInit countersigned) (StageValidated false)
          = Score 70)
    as Hscore by (vm_compute; reflexivity).
  split; [exact Hscore|].
  exact (proj1 (@validator_score Toy.externals "01J9" "1893455100001"
                  1893455200000 1893455200500 (asInit countersigned)
                  (StageValidated false) 70 Hscore)).
Defined.

(** ** Basis points *)

(** X17. For a positive amount and a buffer that is not negative,
    [applyBpsIncrease] adds the buffer rounded up: ten thousand times the
    result is at least the amount times [10000 + bufferBps] and less than
    that plus ten thousand.  So a positive buffer always adds at least one
    unit, and a buffer of zero adds nothing. *)
Theorem applyBpsIncrease_bounds amount bufferBps :
  (0 < amount)%Z → (0 ≤ bufferBps)%Z →
  let r := Uniswap.applyBpsIncrease amount bufferBps in
  (amount * (10000 + bufferBps) ≤ 10000 * r < amount * (10000 + bufferBps) + 10000)%Z
  ∧ (0 < bufferBps → amount < r)%Z
  ∧ (bufferBps = 0 → r = amount)%Z.
Proof.
  intros Ha Hb r. subst r. unfold Uniswap.applyBpsIncrease, Uniswap.BPS_DENOMINATOR.
  destruct (Z.eqb_spec amount 0) as [->|_]; [lia|].
  rewrite Z.quot_div_nonneg by nia.
  rewrite Z.mul_add_distr_l.
  assert (0 ≤ amount * bufferBps)%Z as Hp by nia.
  assert (0 < bufferBps → 1 ≤ amount * bufferBps)%Z as Hp' by nia.
  assert (bufferBps = 0 → amount * bufferBps = 0)%Z as Hp'' by nia.
  set (p := (amount * bufferBps)%Z) in *.
  pose proof (Z.div_mod (p + (10000 - 1)) 10000 ltac:(lia)) as Hdm.
  pose proof (Z.mod_pos_bound (p + (10000 - 1)) 10000 ltac:(lia)) as Hm.
  repeat split; lia.
Qed.

(** The deficit swap of [swapTokens] on an estimate of 12345 units. *)
Lemma applyBpsIncrease_bounds_witness :
  Uniswap.applyBpsIncrease 12345 Uniswap.DEFICIT_SWAP_BUFFER_BPS = 12469%Z
  ∧ (12345 < Uniswap.applyBpsIncrease 12345 Uniswap.DEFICIT_SWAP_BUFFER_BPS)%Z.
Proof.
  split; [reflexivity|].
  apply (applyBpsIncrease_bounds 12345 Uniswap.DEFICIT_SWAP_BUFFER_BPS); done.
Defined.

(** X18. [applyBpsFloor] returns zero on zero and at least one on every
    other amount, whatever the sign of its arguments.  For a positive amount
    and a share of at most ten thousand basis points the result is at most
    the amount; it is the share rounded down when that is at least one unit,
    and one unit when the share is less than that, which is then more than
    the share asked for. *)
Theorem applyBpsFloor_bounds amount floorBps :
  let r := Uniswap.applyBpsFloor amount floorBps in
  (amount = 0 → r = 0)%Z
  ∧ (amount ≠ 0 → 1 ≤ r)%Z
  ∧ ((0 < amount)%Z → (0 ≤ floorBps ≤ 10000)%Z →
     (r ≤ amount)%Z
     ∧ if (amount * floorBps <? 10000)%Z then r = 1%Z
       else (10000 * r ≤ amount * floorBps < 10000 * (r + 1))%Z).
Proof.
  intros r. subst r. unfold Uniswap.applyBpsFloor, Uniswap.BPS_DENOMINATOR.
  split; [by intros ->|]. split.
  - intros Ha. destruct (Z.eqb_spec amount 0); [done|].
    destruct (Z.ltb_spec 0 ((amount * floorBps) ÷ 10000)); lia.
  - intros Ha Hb. destruct (Z.eqb_spec amount 0); [lia|].
    rewrite Z.quot_div_nonneg by nia.
    assert (0 ≤ amount * floorBps ≤ amount * 10000)%Z as Hp by nia.
    set (p := (amount * floorBps)%Z) in *.
    pose proof (Z.div_mod p 10000 ltac:(lia)) as Hdm.
    pose proof (Z.mod_pos_bound p 10000 ltac:(lia)) as Hm.
    destruct (Z.ltb_spec 0 (p / 10000)), (Z.ltb_spec p 10000); split; lia.
Qed.

(** The minimum output of [swapTokens] for 12345 units, and for one unit. *)
Lemma applyBpsFloor_bounds_witness :
  Uniswap.applyBpsFloor 12345 Uniswap.DEFICIT_MIN_OUT_BPS = 12221%Z
  ∧ Uniswap.applyBpsFloor 1 Uniswap.DEFICIT_MIN_OUT_BPS = 1%Z.
Proof.
  split; [reflexivity|].
  apply (proj2 (proj2 (proj2 (applyBpsFloor_bounds 1 Uniswap.DEFICIT_MIN_OUT_BPS))
                  ltac:(done) ltac:(done))).
Defined.

(** ** [validateSwap] *)

Section ValidateSwap.
Import SwapValidationResult.

Lemma push_error_errors r e : errors (push_error r e) ≠ [].
Proof. destruct r. simpl. by destruct errors0. Qed.

(** The loop over the logs: it leaves [errors] alone, and either no log
    decides and the amounts are as before, or the result is decoded from a
    log of the receipt. *)
Lemma scanLogs_spec cfg pool logs : ∀ found r,
  ∃ found' r',
    Uniswap.scanLogs cfg pool logs found r = (found', r')
    ∧ errors r' = errors r ∧ isValid r' = isValid r
    ∧ blockNumber r' = blockNumber r ∧ poolAddress r' = poolAddress r
    ∧ transactionHash r' = transactionHash r
    ∧ ((Forall (λ log, decides pool log = false) logs
        ∧ found' = found || existsb (is_pool_swap pool) logs
        ∧ amountIn r' = amountIn r ∧ amountOut r' = amountOut r
        ∧ tokenInIs0 r' = tokenInIs0 r ∧ recipient r' = recipient r)
       ∨ (found' = true ∧ ∃ log, log ∈ logs ∧ decoded_from pool log r')).
Proof.
  induction logs as [|log logs IH]; intros found r.
  { exists found, r. split; [done|]. repeat (split; [done|]). left.
    by rewrite orb_false_r. }
  assert (∀ found0 r0 b,
    errors r0 = errors r → isValid r0 = isValid r → blockNumber r0 = blockNumber r →
    poolAddress r0 = poolAddress r → transactionHash r0 = transactionHash r →
    amountIn r0 = amountIn r → amountOut r0 = amountOut r →
    tokenInIs0 r0 = tokenInIs0 r → recipient r0 = recipient r →
    decides pool log = false → is_pool_swap pool log = b →
    found0 = found || b →
    ∃ found' r',
      Uniswap.scanLogs cfg pool logs found0 r0 = (found', r')
      ∧ errors r' = errors r ∧ isValid r' = isValid r
      ∧ blockNumber r' = blockNumber r ∧ poolAddress r' = poolAddress r
      ∧ transactionHash r' = transactionHash r
      ∧ ((Forall (λ log, decides pool log = false) (log :: logs)
          ∧ found' = found || existsb (is_pool_swap pool) (log :: logs)
          ∧ amountIn r' = amountIn r ∧ amountOut r' = amountOut r
          ∧ tokenInIs0 r' = tokenInIs0 r ∧ recipient r' = recipient r)
         ∨ (found' = true ∧ ∃ log', log' ∈ log :: logs ∧ decoded_from pool log' r')))
    as Hskip.
  { intros found0 r0 b He Hv Hb Hp Hh Hi Ho Hd Hr Hdec Hswap ->.
    destruct (IH (found || b) r0)
      as (found' & r' & Hscan & He' & Hv' & Hb' & Hp' & Hh' & Hcases).
    exists found', r'. split; [done|].
    repeat (split; [congruence|]).
    destruct Hcases as [(Hall & -> & Hi' & Ho' & Hd' & Hr')|(-> & log' & Hin & Hdecoded)].
    - left. split; [by constructor|]. simpl. rewrite Hswap, orb_assoc.
      repeat (split; [congruence|]). congruence.
    - right. split; [done|]. exists log'. split; [by right|done]. }
  simpl. unfold decides, is_pool_swap in Hskip.
  destruct (String.eqb (toLowerCase (Log.address log)) (toLowerCase pool)) eqn:Haddr;
    cbn [negb andb] in *.
  2:{ by apply (Hskip found r false); rewrite ?orb_false_r. }
  destruct (Log.parsed log) as [|name a0 a1 to] eqn:Hparsed.
  { by apply (Hskip found r false); rewrite ?orb_false_r. }
  destruct (String.eqb_spec name "Swap") as [->|Hname]; cbn [andb] in *.
  2:{ by apply (Hskip found r false); rewrite ?orb_false_r. }
  destruct a0 as [amount0|], a1 as [amount1|];
    try (by apply (Hskip true r true); rewrite ?orb_true_r).
  destruct (Z.ltb_spec 0 amount0) as [H0|H0], (Z.ltb_spec amount1 0) as [H1|H1],
           (Z.ltb_spec amount0 0) as [H0'|H0'], (Z.ltb_spec 0 amount1) as [H1'|H1'];
    cbn [negb andb orb] in *; try lia;
    try (by apply (Hskip true (push_warning r DirectionUndetermined) true);
           rewrite ?orb_true_r).
  - eexists true, _. split; [done|]. simpl. repeat (split; [done|]). right.
    split; [done|]. exists log. split; [by left|].
    split; [by apply String.eqb_eq|]. exists amount0, amount1, to.
    split; [done|]. split; [done|]. left. done.
  - eexists true, _. split; [done|]. simpl. repeat (split; [done|]). right.
    split; [done|]. exists log. split; [by left|].
    split; [by apply String.eqb_eq|]. exists amount0, amount1, to.
    split; [done|]. split; [done|]. right. done.
Qed.

Lemma push_if_inv (c : bool) r e :
  errors (if c then push_error r e else r) = [] → c = false ∧ errors r = [].
Proof. destruct c; [|done]. intros Hn. by apply push_error_errors in Hn. Qed.

Lemma checkExpected_valid chain eIn eOut eDir r :
  (∀ msg, Chain.getTransaction chain = Threw msg → isValid r = false) →
  isValid (Uniswap.checkExpected chain eIn eOut eDir r) = true →
  let r' := Uniswap.checkExpected chain eIn eOut eDir r in
  errors r' = [] ∧ errors r = []
  ∧ amountIn r' = amountIn r ∧ amountOut r' = amountOut r
  ∧ tokenInIs0 r' = tokenInIs0 r ∧ recipient r' = recipient r
  ∧ blockNumber r' = blockNumber r ∧ poolAddress r' = poolAddress r
  ∧ (∃ tx, Chain.getTransaction chain = Returned tx)
  ∧ (∀ e, eIn = Some e → amountIn r = e)
  ∧ (∀ e, eOut = Some e → (e - amountOut r ÷ 100 ≤ amountOut r)%Z)
  ∧ (∀ e, eDir = Some e → tokenInIs0 r = e).
Proof.
  intros Hinit. unfold Uniswap.checkExpected.
  set (r1 := match eIn with Some e => _ | None => r end).
  set (r2 := match eOut with Some e => _ | None => r1 end).
  set (r3 := match eDir with Some e => _ | None => r2 end).
  assert (amountIn r1 = amountIn r ∧ amountOut r1 = amountOut r
          ∧ tokenInIs0 r1 = tokenInIs0 r ∧ recipient r1 = recipient r
          ∧ blockNumber r1 = blockNumber r ∧ poolAddress r1 = poolAddress r
          ∧ isValid r1 = isValid r) as (Hi1 & Ho1 & Hd1 & Hr1 & Hb1 & Hp1 & Hv1).
  { subst r1. destruct eIn as [e|]; [|done]. by destruct (negb _). }
  assert (amountIn r2 = amountIn r1 ∧ amountOut r2 = amountOut r1
          ∧ tokenInIs0 r2 = tokenInIs0 r1 ∧ recipient r2 = recipient r1
          ∧ blockNumber r2 = blockNumber r1 ∧ poolAddress r2 = poolAddress r1
          ∧ isValid r2 = isValid r1) as (Hi2 & Ho2 & Hd2 & Hr2 & Hb2 & Hp2 & Hv2).
  { subst r2. destruct eOut as [e|]; [|done]. cbv zeta. by destruct (_ <? _)%Z. }
  assert (amountIn r3 = amountIn r2 ∧ amountOut r3 = amountOut r2
          ∧ tokenInIs0 r3 = tokenInIs0 r2 ∧ recipient r3 = recipient r2
          ∧ blockNumber r3 = blockNumber r2 ∧ poolAddress r3 = poolAddress r2
          ∧ isValid r3 = isValid r2) as (Hi3 & Ho3 & Hd3 & Hr3 & Hb3 & Hp3 & Hv3).
  { subst r3. destruct eDir as [e|]; [|done]. by destruct (negb _). }
  destruct (Chain.getTransaction chain) as [tx|msg].
  2:{ simpl. specialize (Hinit msg eq_refl). congruence. }
  set (r4 := match tx ≫= required with Some to => _ | None => r3 end).
  assert (amountIn r4 = amountIn r3 ∧ amountOut r4 = amountOut r3
          ∧ tokenInIs0 r4 = tokenInIs0 r3 ∧ recipient r4 = recipient r3
          ∧ blockNumber r4 = blockNumber r3 ∧ poolAddress r4 = poolAddress r3
          ∧ errors r4 = errors r3) as (Hi4 & Ho4 & Hd4 & Hr4 & Hb4 & Hp4 & He4).
  { subst r4. destruct (tx ≫= required) as [to|]; [|done]. by destruct (negb _). }
  cbv zeta. simpl. intros He%bool_decide_eq_true.
  assert (errors r3 = []) as He3 by congruence.
  assert (errors r2 = [] ∧ ∀ e, eDir = Some e → tokenInIs0 r2 = e) as [He2 Hdir].
  { subst r3. destruct eDir as [e|]; [|done].
    apply push_if_inv in He3 as [Hc He3]. split; [done|]. intros ? [= <-].
    apply negb_false_iff in Hc. by apply Bool.eqb_prop. }
  assert (errors r1 = []
          ∧ ∀ e, eOut = Some e → (e - amountOut r1 ÷ 100 ≤ amountOut r1)%Z) as [He1 Hout].
  { subst r2. destruct eOut as [e|]; [|done]. cbv zeta in He2.
    apply push_if_inv in He2 as [Hc He2]. split; [done|]. intros ? [= <-].
    apply Z.ltb_ge in Hc. by rewrite Z.mul_1_r in Hc. }
  assert (errors r = [] ∧ ∀ e, eIn = Some e → amountIn r = e) as [He0 Hin].
  { subst r1. destruct eIn as [e|]; [|done].
    apply push_if_inv in He1 as [Hc He1]. split; [done|]. intros ? [= <-].
    apply negb_false_iff in Hc. by apply Z.eqb_eq. }
  split; [congruence|]. split; [done|].
  repeat (split; [congruence|]). split; [eauto|].
  split; [done|]. split.
  - intros e He'. specialize (Hout e He'). by rewrite Ho1 in Hout.
  - intros e He'. rewrite <- (Hdir e He'). congruence.
Qed.

(** The closing steps never change the amounts, and when the transaction
    can be fetched they find an error-free result valid exactly when it
    agrees with what is expected. *)
Lemma checkExpected_amounts chain eIn eOut eDir r :
  amountIn (Uniswap.checkExpected chain eIn eOut eDir r) = amountIn r
  ∧ amountOut (Uniswap.checkExpected chain eIn eOut eDir r) = amountOut r.
Proof.
  unfold Uniswap.checkExpected. cbv zeta.
  destruct eIn, eOut, eDir, (Chain.getTransaction chain) as [[[to|]|]|]; simpl;
    repeat match goal with
           | |- context [if ?c then _ else _] => destruct c; simpl
           end; done.
Qed.

Lemma push_if_notin (c : bool) r e x :
  x ≠ e → x ∉ errors r → x ∉ errors (if c then push_error r e else r).
Proof.
  destruct c; [|done]. destruct r. simpl.
  by intros Hne Hnot [?|?%list_elem_of_singleton]%elem_of_app.
Qed.

Lemma checkExpected_no_NoSwapEvent chain eIn eOut eDir r :
  NoSwapEvent ∉ errors r →
  NoSwapEvent ∉ errors (Uniswap.checkExpected chain eIn eOut eDir r).
Proof.
  intros Hr. unfold Uniswap.checkExpected. cbv zeta.
  set (r1 := match eIn with Some e => _ | None => r end).
  assert (NoSwapEvent ∉ errors r1) as H1.
  { subst r1. destruct eIn; [|done]. by apply push_if_notin. }
  set (r2 := match eOut with Some e => _ | None => r1 end).
  assert (NoSwapEvent ∉ errors r2) as H2.
  { subst r2. destruct eOut; [|done]. by apply push_if_notin. }
  set (r3 := match eDir with Some e => _ | None => r2 end).
  assert (NoSwapEvent ∉ errors r3) as H3.
  { subst r3. destruct eDir; [|done]. by apply push_if_notin. }
  destruct (Chain.getTransaction chain) as [tx|msg].
  - simpl. destruct (tx ≫= required); [|done]. by destruct (negb _).
  - by apply (push_if_notin true).
Qed.

Lemma checkExpected_isValid_iff chain eIn eOut eDir r tx :
  Chain.getTransaction chain = Returned tx → errors r = [] →
  isValid (Uniswap.checkExpected chain eIn eOut eDir r) = true
  ↔ (∀ e, eIn = Some e → amountIn r = e)
    ∧ (∀ e, eOut = Some e → (e - amountOut r ÷ 100 ≤ amountOut r)%Z)
    ∧ (∀ e, eDir = Some e → tokenInIs0 r = e).
Proof.
  intros Htx He. split.
  - intros Hv. apply checkExpected_valid in Hv; [|by rewrite Htx].
    cbv zeta in Hv. by destruct Hv as (_ & _ & _ & _ & _ & _ & _ & _ & _ & ? & ? & ?).
  - intros (Hin & Hout & Hdir). unfold Uniswap.checkExpected. rewrite Htx. cbv zeta.
    assert (match eIn with
            | Some e => if negb (amountIn r =? e)%Z
                        then push_error r (AmountInMismatch e (amountIn r)) else r
            | None => r
            end = r) as ->.
    { destruct eIn as [e|]; [|done]. by rewrite (Hin e eq_refl), Z.eqb_refl. }
    assert (match eOut with
            | Some e => if (amountOut r <? e - (amountOut r * 1) ÷ 100)%Z
                        then push_error r
                               (AmountOutBelow (e - (amountOut r * 1) ÷ 100) (amountOut r))
                        else r
            | None => r
            end = r) as ->.
    { destruct eOut as [e|]; [|done]. specialize (Hout e eq_refl).
      rewrite Z.mul_1_r. by destruct (Z.ltb_spec (amountOut r) (e - amountOut r ÷ 100)); [lia|]. }
    assert (match eDir with
            | Some e => if negb (Bool.eqb (tokenInIs0 r) e)
                        then push_error r (DirectionMismatch e (tokenInIs0 r)) else r
            | None => r
            end = r) as ->.
    { destruct eDir as [e|]; [|done]. by rewrite (Hdir e eq_refl), Bool.eqb_reflx. }
    simpl. apply bool_decide_eq_true.
    destruct (tx ≫= required); [|done]. by destruct (negb _).
Qed.

Lemma validateSwap_unfold chain txHash eIn eOut eDir receipt pool :
  Chain.getTransactionReceipt chain = Returned (Some receipt) →
  TransactionReceipt.status receipt ≠ Some 0%Z →
  Chain.getPool chain = Returned (Some pool) →
  pool ≠ "" → pool ≠ Uniswap.ZeroAddress →
  Uniswap.validateSwap chain txHash eIn eOut eDir
  = let result :=
      make false txHash (TransactionReceipt.blockNumber receipt) false 0 0 "" "" pool ""
        [] [] in
    let found := Uniswap.scanLogs chain pool (TransactionReceipt.logs receipt) false result in
    if negb found.1 then push_error found.2 NoSwapEvent
    else Uniswap.checkExpected chain eIn eOut eDir found.2.
Proof.
  intros Hrec Hstatus Hpool Hne Hzero. unfold Uniswap.validateSwap.
  rewrite Hrec, Hpool, bool_decide_eq_false_2 by done.
  cbn [required]. destruct (String.eqb_spec pool ""); [done|].
  destruct (String.eqb_spec pool Uniswap.ZeroAddress); [done|].
  cbv zeta. unfold set_blockNumber, set_poolAddress. cbn [isValid transactionHash
    blockNumber tokenInIs0 amountIn amountOut tokenInAddress tokenOutAddress poolAddress
    recipient errors warnings].
  by destruct (Uniswap.scanLogs _ _ _ _ _) as [[] ?].
Qed.

(** A result with [isValid] comes from a receipt, a pool and a transaction
    that were all found. *)
Lemma validateSwap_valid_found chain txHash eIn eOut eDir :
  isValid (Uniswap.validateSwap chain txHash eIn eOut eDir) = true →
  ∃ receipt pool,
    Chain.getTransactionReceipt chain = Returned (Some receipt)
    ∧ TransactionReceipt.status receipt ≠ Some 0%Z
    ∧ Chain.getPool chain = Returned (Some pool)
    ∧ pool ≠ "" ∧ pool ≠ Uniswap.ZeroAddress.
Proof.
  unfold Uniswap.validateSwap.
  destruct (Chain.getTransactionReceipt chain) as [[receipt|]|msg]; [|done..].
  destruct (bool_decide_reflect (TransactionReceipt.status receipt = Some 0%Z)); [done|].
  destruct (Chain.getPool chain) as [pool|msg]; [|done].
  destruct (required pool) as [poolAddress|] eqn:Hreq; [|done].
  apply required_Some in Hreq as [-> Hne].
  destruct (String.eqb_spec poolAddress Uniswap.ZeroAddress); [done|].
  intros _. exists receipt, poolAddress. done.
Qed.

Lemma decoded_from_decides pool log r :
  decoded_from pool log r → decides pool log = true ∧ is_pool_swap pool log = true.
Proof.
  intros (Haddr & a0 & a1 & to & Hparsed & _ & Hdir).
  unfold decides, is_pool_swap. rewrite Hparsed.
  apply String.eqb_eq in Haddr as ->. simpl.
  destruct Hdir as [(? & ? & _)|(? & ? & _)].
  - destruct (Z.ltb_spec 0 a0), (Z.ltb_spec a1 0); done || lia.
  - destruct (Z.ltb_spec 0 a0), (Z.ltb_spec a1 0), (Z.ltb_spec a0 0), (Z.ltb_spec 0 a1);
      done || lia.
Qed.

Lemma existsb_elem_of {A} (f : A → bool) l :
  existsb f l = true → ∃ x, x ∈ l ∧ f x = true.
Proof.
  intros (x & Hin & Hx)%existsb_exists. exists x. split; [|done].
  by apply list_elem_of_In.
Qed.

(** The loop reads the configuration for the two token addresses only, and
    nothing after a log that decides. *)
Lemma scanLogs_first_deciding cfg cfg' pool l1 log l2 :
  Chain.token0 cfg = Chain.token0 cfg' → Chain.token1 cfg = Chain.token1 cfg' →
  decides pool log = true →
  ∀ found r,
    Uniswap.scanLogs cfg pool (l1 ++ log :: l2) found r
    = Uniswap.scanLogs cfg' pool (l1 ++ [log]) found r.
Proof.
  intros H0 H1 Hd. induction l1 as [|x l1 IH]; intros found r; simpl.
  - unfold decides, is_pool_swap in Hd.
    destruct (String.eqb _ _); [|done]. simpl in *.
    destruct (Log.parsed log) as [|name [a0|] [a1|] to]; try done;
      try (by rewrite andb_false_r in Hd).
    destruct (String.eqb name "Swap"); [|done]. simpl in Hd.
    destruct ((0 <? a0)%Z && (a1 <? 0)%Z) eqn:E1; simpl in *; [by rewrite H0, H1|].
    rewrite Hd. simpl. by rewrite H0, H1.
  - destruct (negb _); [done|].
    destruct (Log.parsed x) as [|name [a0|] [a1|] to]; try done;
      destruct (String.eqb name "Swap"); try done.
    by destruct (negb _ && negb _); rewrite ?H0, ?H1.
Qed.
End ValidateSwap.

(** X19. A result of [validateSwap] with [isValid] has no error, and has it
    from a receipt that was found and not reverted, the configured pool and
    the transaction, all fetched without a throw; some log of the pool
    decoded to a [Swap] event; and the result agrees with every expected
    value that was given: the amount in exactly, the direction exactly, the
    amount out up to the hundredth part of the decoded amount out.  The
    direction, amounts and recipient of the result are those of a log of the
    pool whose two amounts have opposite signs, unless no log of the receipt
    is such a log, in which case both amounts are still zero. *)
Theorem validateSwap_valid_sound chain txHash expectedAmountIn expectedAmountOut
    expectedTokenInIs0 :
  let r := Uniswap.validateSwap chain txHash expectedAmountIn expectedAmountOut
             expectedTokenInIs0 in
  SwapValidationResult.isValid r = true →
  SwapValidationResult.errors r = []
  ∧ (∃ receipt pool,
       Chain.getTransactionReceipt chain = Returned (Some receipt)
       ∧ TransactionReceipt.status receipt ≠ Some 0%Z
       ∧ Chain.getPool chain = Returned (Some pool)
       ∧ pool ≠ "" ∧ pool ≠ Uniswap.ZeroAddress
       ∧ SwapValidationResult.poolAddress r = pool
       ∧ SwapValidationResult.blockNumber r = TransactionReceipt.blockNumber receipt
       ∧ (∃ log, log ∈ TransactionReceipt.logs receipt ∧ is_pool_swap pool log = true)
       ∧ ((∃ log, log ∈ TransactionReceipt.logs receipt ∧ decoded_from pool log r)
          ∨ (Forall (λ log, decides pool log = false) (TransactionReceipt.logs receipt)
             ∧ SwapValidationResult.amountIn r = 0%Z
             ∧ SwapValidationResult.amountOut r = 0%Z
             ∧ SwapValidationResult.tokenInIs0 r = false)))
  ∧ (∃ tx, Chain.getTransaction chain = Returned tx)
  ∧ (∀ e, expectedAmountIn = Some e → SwapValidationResult.amountIn r = e)
  ∧ (∀ e, expectedAmountOut = Some e →
          (e - SwapValidationResult.amountOut r ÷ 100 ≤ SwapValidationResult.amountOut r)%Z)
  ∧ (∀ e, expectedTokenInIs0 = Some e → SwapValidationResult.tokenInIs0 r = e).
Proof.
  intros r Hvalid. subst r.
  destruct (validateSwap_valid_found _ _ _ _ _ Hvalid)
    as (receipt & pool & Hrec & Hst & Hpool & Hne & Hz).
  rewrite (validateSwap_unfold _ _ _ _ _ _ _ Hrec Hst Hpool Hne Hz) in Hvalid |- *.
  cbv zeta in *.
  destruct (scanLogs_spec chain pool (TransactionReceipt.logs receipt) false
              (SwapValidationResult.make false txHash
                 (TransactionReceipt.blockNumber receipt) false 0 0 "" "" pool "" [] []))
    as (found' & r' & Hscan & He & Hv & Hb & Hp & Hh & Hcases).
  rewrite Hscan in *. cbn [fst snd] in *.
  destruct found'; cbn [negb] in *.
  2:{ destruct r'. simpl in *. congruence. }
  apply checkExpected_valid in Hvalid; [|by rewrite Hv]. cbv zeta in Hvalid.
  destruct Hvalid
    as (He' & _ & Hi & Ho & Hd & Hr & Hb' & Hp' & Htx & Hin & Hout & Hdir).
  split; [done|]. split.
  - exists receipt, pool. repeat (split; [done|]).
    split; [by rewrite Hp', Hp|]. split; [by rewrite Hb', Hb|].
    destruct Hcases as [(Hall & Hfound & Hi0 & Ho0 & Hd0 & _)|(_ & log & Hin' & Hdec)].
    + split; [by apply existsb_elem_of|]. right.
      split; [done|]. rewrite Hi, Ho, Hd, Hi0, Ho0, Hd0. done.
    + split; [exists log; split; [done|]; by eapply decoded_from_decides|].
      left. exists log. split; [done|].
      destruct Hdec as (Haddr & a0 & a1 & to & Hparsed & Hto & Hdec).
      split; [done|]. exists a0, a1, to. rewrite Hi, Ho, Hd, Hr. done.
  - split; [done|]. rewrite Hi, Ho, Hd. done.
Qed.

(** On the small chain, with the amount and the direction the validator
    passes. *)
Lemma validateSwap_valid_sound_witness :
  SwapValidationResult.amountIn
    (Uniswap.validateSwap (ToyChain.chain [ToyChain.foreign; ToyChain.zero; ToyChain.swap])
       "0xabc" (Some 100%Z) None (Some true)) = 100%Z.
Proof.
  apply (proj1 (proj2 (proj2 (proj2
           (validateSwap_valid_sound
              (ToyChain.chain [ToyChain.foreign; ToyChain.zero; ToyChain.swap])
              "0xabc" (Some 100%Z) None (Some true) ltac:(vm_compute; reflexivity)))))).
  reflexivity.
Defined.

(** X20. A receipt none of whose logs is a [Swap] event of the pool with
    amounts of opposite signs.  Without any [Swap] event of the pool the
    result has the one error "No Swap event found" and is not valid.  With
    one, for instance an event whose amounts cannot be told apart as in and
    out, that error is not raised and both amounts of the result are zero:
    when the transaction can be fetched and no amount out is expected, the
    result is valid exactly when the expected amount in is absent or zero
    and the expected direction is absent or [false]. *)
Theorem validateSwap_undecided chain txHash expectedAmountIn expectedTokenInIs0
    receipt pool :
  Chain.getTransactionReceipt chain = Returned (Some receipt) →
  TransactionReceipt.status receipt ≠ Some 0%Z →
  Chain.getPool chain = Returned (Some pool) →
  pool ≠ "" → pool ≠ Uniswap.ZeroAddress →
  Forall (λ log, decides pool log = false) (TransactionReceipt.logs receipt) →
  let r := Uniswap.validateSwap chain txHash expectedAmountIn None expectedTokenInIs0 in
  (existsb (is_pool_swap pool) (TransactionReceipt.logs receipt) = false →
     SwapValidationResult.errors r = [NoSwapEvent]
     ∧ SwapValidationResult.isValid r = false)
  ∧ (existsb (is_pool_swap pool) (TransactionReceipt.logs receipt) = true →
     SwapValidationResult.amountIn r = 0%Z
     ∧ SwapValidationResult.amountOut r = 0%Z
     ∧ (NoSwapEvent ∉ SwapValidationResult.errors r)
     ∧ ((∃ tx, Chain.getTransaction chain = Returned tx) →
        (SwapValidationResult.isValid r = true
         ↔ (expectedAmountIn = None ∨ expectedAmountIn = Some 0%Z)
           ∧ (expectedTokenInIs0 = None ∨ expectedTokenInIs0 = Some false)))).
Proof.
  intros Hrec Hst Hpool Hne Hz Hall r. subst r.
  rewrite (validateSwap_unfold _ _ _ _ _ _ _ Hrec Hst Hpool Hne Hz). cbv zeta.
  destruct (scanLogs_spec chain pool (TransactionReceipt.logs receipt) false
              (SwapValidationResult.make false txHash
                 (TransactionReceipt.blockNumber receipt) false 0 0 "" "" pool "" [] []))
    as (found' & r' & Hscan & He & Hv & Hb & Hp & Hh & Hcases).
  rewrite Hscan. cbn [fst snd].
  destruct Hcases as [(_ & -> & Hi & Ho & Hd & Hr)|(_ & log & Hin & Hdec)].
  2:{ apply decoded_from_decides in Hdec as [Hdec _].
      rewrite Forall_forall in Hall. rewrite (Hall _ Hin) in Hdec. done. }
  simpl in He, Hv, Hi, Ho, Hd. split.
  - intros ->. destruct r'. simpl in *. by subst.
  - intros ->. cbn [orb negb].
    destruct (checkExpected_amounts chain expectedAmountIn None expectedTokenInIs0 r')
      as [-> ->].
    split; [done|]. split; [done|]. split.
    { apply checkExpected_no_NoSwapEvent. rewrite He. apply not_elem_of_nil. }
    intros [tx Htx]. rewrite (checkExpected_isValid_iff _ _ _ _ _ tx Htx He), Hi, Hd.
    split.
    + intros (Hin & _ & Hdir). split.
      * destruct expectedAmountIn as [e|]; [|by left]. right. by rewrite (Hin e).
      * destruct expectedTokenInIs0 as [e|]; [|by left]. right. by rewrite (Hdir e).
    + intros [[->| ->] [->| ->]]; repeat split; intros ? [=]; done.
Qed.

(** On the small chain: the only [Swap] event of the pool has two zero
    amounts, and the validator expects nothing in particular. *)
Lemma validateSwap_undecided_witness :
  SwapValidationResult.isValid
    (Uniswap.validateSwap (ToyChain.chain [ToyChain.foreign; ToyChain.zero])
       "0xabc" (Some 0%Z) None None) = true.
Proof.
  assert (Forall (λ log, decides ToyChain.pool log = false)
            [ToyChain.foreign; ToyChain.zero]) as Hall by (by repeat constructor).
  pose proof (validateSwap_undecided (ToyChain.chain [ToyChain.foreign; ToyChain.zero])
                "0xabc" (Some 0%Z) None
                (TransactionReceipt.make (Some 1%Z) 7 [ToyChain.foreign; ToyChain.zero])
                ToyChain.pool eq_refl ltac:(done) eq_refl ltac:(done) ltac:(done) Hall)
    as [_ Hfound].
  destruct (Hfound eq_refl) as (_ & _ & _ & Hiff).
  apply Hiff; [by eexists|]. split; [by right|by left].
Defined.

(** X21. The loop ends at the first log of the pool that is a [Swap] event
    with amounts of opposite signs: whatever logs follow it in the receipt,
    further swaps through the same pool included, the result of
    [validateSwap] is the same as without them. *)
Theorem validateSwap_first_deciding chain txHash expectedAmountIn expectedAmountOut
    expectedTokenInIs0 pool l1 log l2 :
  Chain.getPool chain = Returned (Some pool) →
  decides pool log = true →
  Uniswap.validateSwap (with_logs chain (l1 ++ log :: l2)) txHash
    expectedAmountIn expectedAmountOut expectedTokenInIs0
  = Uniswap.validateSwap (with_logs chain (l1 ++ [log])) txHash
      expectedAmountIn expectedAmountOut expectedTokenInIs0.
Proof.
  intros Hpool Hd. unfold Uniswap.validateSwap, with_logs.
  cbn [Chain.getTransactionReceipt Chain.getPool].
  destruct (Chain.getTransactionReceipt chain) as [[receipt|]|msg]; [|done..].
  cbn [TransactionReceipt.status TransactionReceipt.blockNumber TransactionReceipt.logs].
  destruct (bool_decide _); [done|]. rewrite Hpool.
  destruct (required (Some pool)) as [poolAddress|] eqn:Hreq; [|done].
  apply required_Some in Hreq as [[= <-] _].
  destruct (String.eqb pool Uniswap.ZeroAddress); [done|]. cbv zeta.
  match goal with
  | |- context [Uniswap.scanLogs ?c1 pool (l1 ++ log :: l2)] =>
      match goal with
      | |- context [Uniswap.scanLogs ?c2 pool (l1 ++ [log])] =>
          by rewrite (scanLogs_first_deciding c1 c2 pool l1 log l2 eq_refl eq_refl Hd)
      end
  end.
Qed.

(** On the small chain: a swap followed by the swap back. *)
Lemma validateSwap_first_deciding_witness :
  Uniswap.validateSwap
    (ToyChain.chain [ToyChain.foreign; ToyChain.swap; ToyChain.back])
    "0xabc" (Some 100%Z) None (Some true)
  = Uniswap.validateSwap (ToyChain.chain [ToyChain.foreign; ToyChain.swap])
      "0xabc" (Some 100%Z) None (Some true).
Proof.
  exact (validateSwap_first_deciding (ToyChain.chain []) "0xabc" (Some 100%Z) None
           (Some true) ToyChain.pool [ToyChain.foreign] ToyChain.swap [ToyChain.back]
           ltac:(reflexivity) ltac:(reflexivity)).
Defined.
